(** * Monexus x402 micropayment layer: a shallow embedding

    The embedding follows [src/lib/zk] (the commitment/proof engine and the
    nullifier store) and [src/lib/x402/protocol.ts] (payment negotiation,
    settlement and route matching).

    Conventions.
    - A JavaScript string is a [string]; case mapping is the ASCII one
      (addresses, methods and header names are ASCII).
    - A JavaScript number holding a timestamp, a chain id or a status is a [Z].
    - A decoded payment header is read at its declared type, except for the
      nonce: the server prints it without looking at it, so it is a
      [JsValue], a string or an object.
    - An expression that may throw evaluates to a [completion]; a [try]/[catch]
      block is [try_catch].
    - The [ethers] library, the JSON parser and the wallet are collaborators:
      they are fields of the classes [Ethers] and [Wire], or arguments.
    - [Date.now()] and the module-level [usedNullifiers] set live in a
      [World] that is threaded through the effectful functions. *)

From Stdlib Require Import ZArith String Ascii List Bool Lia DecimalString.
From stdpp Require Import base gmap strings.

Import ListNotations.
Set Warnings "-register-all".
Local Open Scope string_scope.
Local Open Scope Z_scope.

(** ** JavaScript runtime helpers *)

Module JS.

(** Normal or abrupt (throw) completion of an expression. *)
Inductive completion (A : Type) : Type :=
| Normal (a : A)
| Throw (message : string).
Arguments Normal {A} a.
Arguments Throw {A} message.

Definition bind {A B} (m : completion A) (k : A -> completion B) : completion B :=
  match m with
  | Normal a => k a
  | Throw e => Throw e
  end.

(** [try { return body } catch (error) { return handler error.message }] *)
Definition try_catch {A} (body : completion A) (handler : string -> A) : A :=
  match body with
  | Normal a => a
  | Throw e => handler e
  end.

Definition lower_ascii (c : ascii) : ascii :=
  let n := nat_of_ascii c in
  if (Nat.leb 65 n && Nat.leb n 90)%bool then ascii_of_nat (n + 32) else c.

Definition upper_ascii (c : ascii) : ascii :=
  let n := nat_of_ascii c in
  if (Nat.leb 97 n && Nat.leb n 122)%bool then ascii_of_nat (n - 32) else c.

Fixpoint map_string (f : ascii -> ascii) (s : string) : string :=
  match s with
  | EmptyString => EmptyString
  | String c t => String (f c) (map_string f t)
  end.

(** [String.prototype.toLowerCase] and [toUpperCase] on ASCII text, where
    they map the letters A-Z and a-z onto each other and nothing else;
    characters outside ASCII, which JavaScript may map too, are left as they
    are. *)
Definition toLowerCase : string -> string := map_string lower_ascii.
Definition toUpperCase : string -> string := map_string upper_ascii.

(** Truthiness of a string value: only the empty string is falsy. *)
Definition truthy (s : string) : bool := negb (String.eqb s "").

(** [a || b] on values that are a string or [null]. *)
Definition or_else (a b : option string) : option string :=
  match a with
  | Some s => if truthy s then a else b
  | None => b
  end.

(** Truthiness of a string that may be [undefined]. *)
Definition present (a : option string) : bool :=
  match a with
  | Some s => truthy s
  | None => false
  end.

(** Split at the first occurrence of [c]: the text before it and the text
    after it; [None] when [c] does not occur. *)
Fixpoint break_at (c : ascii) (s : string) : option (string * string) :=
  match s with
  | EmptyString => None
  | String d t =>
      if Ascii.eqb d c then Some (EmptyString, t)
      else match break_at c t with
           | Some (before, after) => Some (String d before, after)
           | None => None
           end
  end.

(** [Math.floor(ms / 1000)] *)
Definition seconds (ms : Z) : Z := ms / 1000.

(** What [JSON.parse] leaves in a property that is declared a string and
    that the code never inspects before using it: the string, or an object,
    given by the names of its own properties.  The values of those
    properties come from JSON, so none of them is a function. *)
Inductive JsValue : Type :=
| JsString (s : string)
| JsObject (keys : list string).

(** [ToString], which a template literal applies to the value it
    substitutes.  An object is converted by its [toString] method.  The
    inherited one answers "[object Object]".  An own property named
    [toString] hides it and is not callable, and [valueOf], own or inherited,
    yields no primitive value either: the conversion throws a TypeError. *)
Definition ToString (v : JsValue) : completion string :=
  match v with
  | JsString s => Normal s
  | JsObject keys =>
      if existsb (String.eqb "toString") keys
      then Throw "Cannot convert object to primitive value"
      else Normal "[object Object]"
  end.

End JS.

Export JS.

#[global] Instance completion_bind : MBind completion :=
  fun A B k m => JS.bind m k.
#[global] Instance completion_ret : MRet completion :=
  fun A a => Normal a.

(** ** The [ethers] collaborator *)

(** A value passed to [AbiCoder.encode] together with its Solidity type.
    Under type [string] the coder takes whatever value it is handed and
    throws unless it is a string. *)
Inductive AbiValue : Type :=
| abi_uint256 (n : Z)
| abi_bytes32 (h : string)
| abi_address (a : string)
| abi_string (v : JsValue).

Class Ethers : Type := {
  (** [ethers.parseEther]: decimal string to base units; throws on bad input. *)
  parseEther : string -> completion Z;
  (** [ethers.AbiCoder.defaultAbiCoder().encode(types, values)] *)
  abiEncode : list AbiValue -> completion string;
  (** [ethers.keccak256] *)
  keccak256 : string -> string;
  (** [ethers.verifyMessage(ethers.getBytes(digest), signature)]: the
      recovered address; throws on a malformed signature. *)
  verifyMessage : string -> string -> completion string;
}.

(** [ethers.ZeroAddress] *)
Definition ZeroAddress : string := "0x0000000000000000000000000000000000000000".

(** ** Proof engine ([src/lib/zk]) *)

Record ZKProofBlock : Type := {
  amountHash : string;
  senderHash : string;
  receiverHash : string;
  proof_timestamp : Z;
  proof_signature : string;
}.

Record ZKPublicInputs : Type := {
  minAmount : string;
  chainId : Z;
  pi_contractAddress : string;
  pi_bountyId : option string;
}.

Record ZKPaymentProof : Type := {
  commitment : string;
  nullifier : string;
  proof : ZKProofBlock;
  publicInputs : ZKPublicInputs;
}.

Record ZKVerificationResult : Type := {
  zk_valid : bool;
  zk_error : option string;
  zk_commitment : option string;
  zk_nullifier : option string;
}.

Definition zk_reject (msg : string) : ZKVerificationResult :=
  {| zk_valid := false; zk_error := Some msg;
     zk_commitment := None; zk_nullifier := None |}.

(** The process-wide state the protocol reads and writes. *)
Record World : Type := {
  usedNullifiers : gset string;   (* const usedNullifiers = new Set<string>() *)
  dateNow : Z;                    (* Date.now(), milliseconds *)
}.

Definition isNullifierUsed (n : string) (w : World) : bool :=
  bool_decide (n ∈ usedNullifiers w).

Definition markNullifierUsed (n : string) (w : World) : World :=
  {| usedNullifiers := {[ n ]} ∪ usedNullifiers w; dateNow := dateNow w |}.

Definition clearNullifiers (w : World) : World :=
  {| usedNullifiers := ∅; dateNow := dateNow w |}.

Section ProofEngine.
Context `{E : Ethers}.

(** The message the prover signs: keccak256 of the ABI encoding of
    (commitment, nullifier, amountHash, senderHash, receiverHash, timestamp). *)
Definition proofMessage (p : ZKPaymentProof) : completion string :=
  encoded ← abiEncode
    [ abi_bytes32 (commitment p); abi_bytes32 (nullifier p);
      abi_bytes32 (amountHash (proof p)); abi_bytes32 (senderHash (proof p));
      abi_bytes32 (receiverHash (proof p));
      abi_uint256 (proof_timestamp (proof p)) ];
  Normal (keccak256 encoded).

Definition verifyPaymentProof (w : World) (p : ZKPaymentProof)
    (expectedChainId : Z) (expectedContractAddress : string)
  : ZKVerificationResult :=
  try_catch
    (if negb (chainId (publicInputs p) =? expectedChainId) then
       Normal (zk_reject "Chain ID mismatch")
     else if negb (String.eqb (toLowerCase (pi_contractAddress (publicInputs p)))
                              (toLowerCase expectedContractAddress)) then
       Normal (zk_reject "Contract address mismatch")
     else
       let now := seconds (dateNow w) in
       if now - proof_timestamp (proof p) >? 3600 then
         Normal (zk_reject "Proof expired")
       else if proof_timestamp (proof p) >? now + 60 then
         Normal (zk_reject "Proof timestamp in the future")
       else
         message ← proofMessage p;
         recoveredAddress ← verifyMessage message (proof_signature (proof p));
         if (negb (truthy recoveredAddress)
             || String.eqb recoveredAddress ZeroAddress)%bool then
           Normal (zk_reject "Invalid proof signature")
         else
           Normal {| zk_valid := true; zk_error := None;
                     zk_commitment := Some (commitment p);
                     zk_nullifier := Some (nullifier p) |})
    (fun message => zk_reject ("Proof verification failed: " +:+ message)).

End ProofEngine.

(** ** Wire encoding: [JSON.stringify] and base64 *)

Module Json.

Inductive json : Type :=
| JBool (b : bool)
| JNum (n : Z)
| JStr (s : string)
| JArr (items : list json)
| JObj (members : list (string * json)).

(** Decimal rendering of an integer, as in [String(n)]. *)
Definition decimal (n : Z) : string :=
  DecimalString.NilZero.string_of_int (Z.to_int n).

Definition hex_digit (n : nat) : ascii :=
  match get n "0123456789abcdef" with
  | Some c => c
  | None => "0"%char
  end.

Definition dquote : ascii := ascii_of_nat 34.

(** [QuoteJSONString]: escapes for the quote, the backslash and the control
    characters; every other character is copied. *)
Definition escape_ascii (c : ascii) : string :=
  let n := nat_of_ascii c in
  if Nat.eqb n 34 then String "\" (String dquote "")
  else if Nat.eqb n 92 then "\\"
  else if Nat.eqb n 8 then "\b"
  else if Nat.eqb n 12 then "\f"
  else if Nat.eqb n 10 then "\n"
  else if Nat.eqb n 13 then "\r"
  else if Nat.eqb n 9 then "\t"
  else if Nat.ltb n 32 then
    "\u00" +:+ String (hex_digit (n / 16)) (String (hex_digit (n mod 16)) "")
  else String c "".

Fixpoint escape (s : string) : string :=
  match s with
  | EmptyString => ""
  | String c t => escape_ascii c +:+ escape t
  end.

Definition quote (s : string) : string :=
  String dquote (escape s +:+ String dquote "").

Fixpoint join (sep : string) (l : list string) : string :=
  match l with
  | [] => ""
  | [x] => x
  | x :: t => x +:+ sep +:+ join sep t
  end.

Fixpoint stringify (j : json) : string :=
  match j with
  | JBool true => "true"
  | JBool false => "false"
  | JNum n => decimal n
  | JStr s => quote s
  | JArr items => "[" +:+ join "," (map stringify items) +:+ "]"
  | JObj members =>
      "{" +:+ join "," (map (fun kv => quote (fst kv) +:+ ":" +:+ stringify (snd kv))
                            members) +:+ "}"
  end.

(** A property whose value is [undefined] is left out by [JSON.stringify]. *)
Definition optional (k : string) (v : option string) : list (string * json) :=
  match v with
  | Some s => [(k, JStr s)]
  | None => []
  end.

End Json.

Module Base64.

Definition alphabet : string :=
  "ABCDEFGHIJKLMNOPQRSTUVWXYZabcdefghijklmnopqrstuvwxyz0123456789+/".

Definition digit (n : nat) : ascii :=
  match get (n mod 64) alphabet with
  | Some c => c
  | None => "="%char
  end.

Fixpoint encode_bytes (bs : list nat) : string :=
  match bs with
  | [] => ""
  | [a] =>
      String (digit (a / 4)) (String (digit (a mod 4 * 16)) "==")
  | [a; b] =>
      String (digit (a / 4))
        (String (digit (a mod 4 * 16 + b / 16))
           (String (digit (b mod 16 * 4)) "="))
  | a :: b :: c :: rest =>
      String (digit (a / 4))
        (String (digit (a mod 4 * 16 + b / 16))
           (String (digit (b mod 16 * 4 + c / 64))
              (String (digit (c mod 64)) (encode_bytes rest))))
  end%nat.

(** [Buffer.from(s).toString('base64')] *)
Definition encode (s : string) : string :=
  encode_bytes (map nat_of_ascii (list_ascii_of_string s)).

End Base64.

(** ** Negotiation protocol ([src/lib/x402/protocol.ts]): types *)

Inductive Scheme : Type := exact | zk_exact.   (* 'exact' | 'zk-exact' *)

Definition Scheme_eqb (a b : Scheme) : bool :=
  match a, b with
  | exact, exact | zk_exact, zk_exact => true
  | _, _ => false
  end.

Definition Scheme_name (s : Scheme) : string :=
  match s with exact => "exact" | zk_exact => "zk-exact" end.

Record PaymentRequirements : Type := {
  req_scheme : Scheme;
  req_network : string;
  maxAmountRequired : string;
  payTo : string;
  resource : string;
  req_description : string;
  mimeType : string;
  req_contractAddress : option string;
  req_bountyId : option string;
}.

(** The inner [payload] object of a [PaymentPayload].  The server reads it
    from the payment header without validating it, and uses [nonce] only to
    hash it under a signature and to print it in the off-chain receipt: the
    nonce is whatever value the header's JSON holds. *)
Record PaymentData : Type := {
  sender : string;
  signature : option string;
  zkProof : option ZKPaymentProof;
  amount : string;
  nonce : JsValue;
  timestamp : Z;
}.

Record PaymentPayload : Type := {
  x402Version : Z;
  scheme : Scheme;
  network : string;
  payload : PaymentData;
}.

Record SettlementResponse : Type := {
  success : bool;
  txHash : option string;
  receipt : option string;
  settle_error : option string;
}.

Record RoutePaymentConfig : Type := {
  price : string;
  description : string;
  useZkProof : option bool;
  bountyId : option string;
}.

(** [RoutesConfig = Record<string, RoutePaymentConfig>], as the list of its
    own entries in the order [Object.entries] lists them. *)
Definition RoutesConfig : Type := list (string * RoutePaymentConfig).

(** Header names are case-insensitive: a header map is keyed by the
    lower-cased name, as [Headers] does. *)
Definition headers_get (name : string) (h : gmap string string) : option string :=
  h !! toLowerCase name.

Definition headers_set (name value : string) (h : gmap string string)
  : gmap string string :=
  <[ toLowerCase name := value ]> h.

Record Request : Type := {
  url : string;
  req_headers : gmap string string;
}.

Record Response : Type := {
  status : Z;
  body : string;
  headers : gmap string string;
}.

(** The result object of [verifyPaymentFromRequest]. *)
Record Verification : Type := {
  valid : bool;
  verified_payload : option PaymentPayload;
  error : option string;
}.

Definition invalid (msg : string) : Verification :=
  {| valid := false; verified_payload := None; error := Some msg |}.

(** [adminSigner.sendTransaction] resolves to a transaction whose [wait]
    resolves to a receipt (or [null]); either may reject. *)
Record Transaction : Type := {
  tx_hash : string;
  tx_wait : completion (option string);   (* receipt?.hash *)
}.

Record Signer : Type := {
  sendTransaction : string -> Z -> completion Transaction;
}.

(** ** Encoding ([encodePaymentRequired], [encodeSettlementResponse]) *)

Import Json.

Definition json_of_requirements (r : PaymentRequirements) : json :=
  JObj ([ ("scheme", JStr (Scheme_name (req_scheme r)));
          ("network", JStr (req_network r));
          ("maxAmountRequired", JStr (maxAmountRequired r));
          ("payTo", JStr (payTo r));
          ("resource", JStr (resource r));
          ("description", JStr (req_description r));
          ("mimeType", JStr (mimeType r)) ]
        ++ optional "contractAddress" (req_contractAddress r)
        ++ optional "bountyId" (req_bountyId r)).

Definition json_of_settlement (s : SettlementResponse) : json :=
  JObj ([ ("success", JBool (success s)) ]
        ++ optional "txHash" (txHash s)
        ++ optional "receipt" (receipt s)
        ++ optional "error" (settle_error s)).

Definition encodePaymentRequired (requirements : list PaymentRequirements) : string :=
  Base64.encode (stringify (JArr (map json_of_requirements requirements))).

Definition encodeSettlementResponse (response : SettlementResponse) : string :=
  Base64.encode (stringify (json_of_settlement response)).

(** The body object of a 402 response. *)
Definition paymentRequiredBody (message : string)
    (requirements : list PaymentRequirements) : json :=
  JObj [ ("x402Version", JNum 1);
         ("error", JStr message);
         ("accepts", JArr (map json_of_requirements requirements)) ].

Definition createPaymentRequiredResponse
    (requirements : list PaymentRequirements) (message : option string)
  : Response :=
  let encoded := encodePaymentRequired requirements in
  {| status := 402;
     body := stringify
               (paymentRequiredBody
                  (default "Payment Required" (or_else message None))
                  requirements);
     headers := headers_set "Content-Type" "application/json"
                  (headers_set "PAYMENT-REQUIRED" encoded ∅) |}.

(** [decodePaymentPayload] is [JSON.parse] of the base64-decoded header read
    at type [PaymentPayload]; it throws when the text is not JSON. *)
Class Wire : Type := {
  decodePaymentPayload : string -> completion PaymentPayload;
}.

(** ** Negotiation protocol: verification, settlement, the wrapper *)

(** The second argument of [withX402Payment]. *)
Record X402Config : Type := {
  route : RoutePaymentConfig;
  cfg_payTo : string;
  cfg_contractAddress : option string;
  cfg_chainId : Z;
  cfg_network : string;
}.

Section Protocol.
Context `{E : Ethers} `{W : Wire}.

(** Lines 201-216 of [verifyPaymentFromRequest]: the proof branch.
    [Some r] is an early [return r]; [None] falls through. *)
Definition zkExactCheck (w : World) (p : PaymentPayload)
    (requirements : PaymentRequirements) (chainId : Z) : option Verification :=
  match scheme p, zkProof (payload p) with
  | zk_exact, Some zk =>
      let zkResult :=
        verifyPaymentProof w zk chainId
          (default "" (or_else (req_contractAddress requirements) None)) in
      if negb (zk_valid zkResult) then
        Some (invalid ("ZK proof invalid: " +:+ default "undefined" (zk_error zkResult)))
      else if isNullifierUsed (nullifier zk) w then
        Some (invalid "Payment already used (nullifier spent)")
      else None
  | _, _ => None
  end.

(** The digest an 'exact' payer signs: keccak256 of the ABI encoding of
    (sender, amount in base units, nonce, timestamp). *)
Definition exactMessage (p : PaymentPayload) (paidAmount : Z) : completion string :=
  encoded ← abiEncode
    [ abi_address (sender (payload p)); abi_uint256 paidAmount;
      abi_string (nonce (payload p)); abi_uint256 (timestamp (payload p)) ];
  Normal (keccak256 encoded).

(** Lines 219-243 of [verifyPaymentFromRequest]: the signature branch. *)
Definition exactCheck (p : PaymentPayload) (paidAmount : Z)
  : completion (option Verification) :=
  match scheme p, or_else (signature (payload p)) None with
  | exact, Some sig =>
      message ← exactMessage p paidAmount;
      recoveredAddress ← verifyMessage message sig;
      if negb (String.eqb (toLowerCase recoveredAddress)
                          (toLowerCase (sender (payload p)))) then
        Normal (Some (invalid "Invalid payment signature"))
      else Normal None
  | _, _ => Normal None
  end.

(** Lines 201-245: what runs once version, scheme, amount and age passed. *)
Definition schemeVerification (w : World) (p : PaymentPayload)
    (requirements : PaymentRequirements) (chainId paidAmount : Z)
  : completion Verification :=
  match zkExactCheck w p requirements chainId with
  | Some rejected => Normal rejected
  | None =>
      r ← exactCheck p paidAmount;
      match r with
      | Some rejected => Normal rejected
      | None => Normal {| valid := true; verified_payload := Some p; error := None |}
      end
  end.

(** Lines 176-245: the checks on a decoded payload (inside the [try]). *)
Definition verifyDecoded (w : World) (p : PaymentPayload)
    (requirements : PaymentRequirements) (chainId : Z) : completion Verification :=
  if negb (x402Version p =? 1) then
    Normal (invalid "Unsupported x402 version")
  else if negb (Scheme_eqb (scheme p) (req_scheme requirements)) then
    Normal (invalid "Payment scheme mismatch")
  else
    requiredAmount ← parseEther (maxAmountRequired requirements);
    paidAmount ← parseEther (amount (payload p));
    if paidAmount <? requiredAmount then
      Normal (invalid "Insufficient payment amount")
    else
      let now := seconds (dateNow w) in
      if now - timestamp (payload p) >? 300 then
        Normal (invalid "Payment expired")
      else schemeVerification w p requirements chainId paidAmount.

Definition verifyPaymentFromRequest (w : World) (request : Request)
    (requirements : PaymentRequirements) (chainId : Z) : Verification :=
  let paymentHeader :=
    or_else (headers_get "payment-signature" (req_headers request))
            (headers_get "x-payment" (req_headers request)) in
  if negb (present paymentHeader) then
    invalid "No payment header provided"
  else
    try_catch
      (p ← decodePaymentPayload (default "" paymentHeader);
       verifyDecoded w p requirements chainId)
      (fun message => invalid ("Payment verification failed: " +:+ message)).

(** Lines 288-291: the off-chain result; the template literal converts the
    nonce to text, which may throw. *)
Definition offchainSettlement (w : World) (p : PaymentPayload)
  : completion SettlementResponse :=
  n ← ToString (nonce (payload p));
  Normal {| success := true; txHash := None;
            receipt := Some ("offchain:" +:+ n +:+ ":" +:+ decimal (dateNow w));
            settle_error := None |}.

Definition settlePayment (p : PaymentPayload) (requirements : PaymentRequirements)
    (adminSigner : option Signer) (w : World) : SettlementResponse * World :=
  (* Mark ZK nullifier as used *)
  let w1 :=
    match scheme p, zkProof (payload p) with
    | zk_exact, Some zk => markNullifierUsed (nullifier zk) w
    | _, _ => w
    end in
  (try_catch
     (match adminSigner with
      | Some signer =>
          if present (req_contractAddress requirements) then
            value ← parseEther (amount (payload p));
            tx ← sendTransaction signer (payTo requirements) value;
            receiptHash ← tx_wait tx;
            let hash := default (tx_hash tx) (or_else receiptHash None) in
            Normal {| success := true; txHash := Some hash;
                      receipt := Some ("settled:" +:+ hash +:+ ":"
                                         +:+ decimal (dateNow w1));
                      settle_error := None |}
          else offchainSettlement w1 p
      | None => offchainSettlement w1 p
      end)
     (fun message =>
        {| success := false; txHash := None; receipt := None;
           settle_error := Some ("Settlement failed: " +:+ message) |}),
   w1).

Definition requirementsFor (config : X402Config) (request : Request)
  : PaymentRequirements :=
  {| req_scheme := if default false (useZkProof (route config))
                   then zk_exact else exact;
     req_network := cfg_network config;
     maxAmountRequired := price (route config);
     payTo := cfg_payTo config;
     resource := url request;
     req_description := description (route config);
     mimeType := "application/json";
     req_contractAddress := cfg_contractAddress config;
     req_bountyId := bountyId (route config) |}.

(** Lines 394-400: the settlement header is set only on success. *)
Definition attachSettlement (response : Response) (settlement : SettlementResponse)
  : Response :=
  if success settlement then
    {| status := status response; body := body response;
       headers := headers_set "PAYMENT-RESPONSE"
                    (encodeSettlementResponse settlement) (headers response) |}
  else response.

(** Lines 382-403: what runs once the handler has produced its response. *)
Definition afterHandler (p : PaymentPayload) (requirements : PaymentRequirements)
    (response : Response) (w : World) : Response * World :=
  if status response <? 400 then
    let '(settlement, w1) := settlePayment p requirements None w in
    (attachSettlement response settlement, w1)
  else (response, w).

(** A business handler: it may change the world and may throw. *)
Definition Handler : Type := Request -> World -> completion Response * World.

Definition withX402Payment (handler : Handler) (config : X402Config)
    (request : Request) (w : World) : completion Response * World :=
  let requirements := requirementsFor config request in
  let paymentResult :=
    verifyPaymentFromRequest w request requirements (cfg_chainId config) in
  if negb (valid paymentResult) then
    (Normal (createPaymentRequiredResponse [requirements] (error paymentResult)), w)
  else
    match handler request w with
    | (Normal response, w1) =>
        match verified_payload paymentResult with
        | Some p =>
            let '(response1, w2) := afterHandler p requirements response w1 in
            (Normal response1, w2)
        | None => (Normal response, w1)
        end
    | (Throw e, w1) => (Throw e, w1)
    end.

(** *** Requests in flight

    [withX402Payment] runs without interruption up to [await handler(...)]
    and resumes, in a later turn of the event loop, when the handler's
    promise settles; turns of other requests may come in between.  A task is
    one call of the wrapped handler between two turns. *)
Inductive Task : Type :=
| Arrived (request : Request)
| Awaiting (request : Request) (paymentResult : Verification)
    (requirements : PaymentRequirements)
| Answered (response : completion Response).

(** One turn of a task: lines 350-380, then lines 380-403. *)
Definition turn (handler : Handler) (config : X402Config) (t : Task) (w : World)
  : Task * World :=
  match t with
  | Arrived request =>
      let requirements := requirementsFor config request in
      let paymentResult :=
        verifyPaymentFromRequest w request requirements (cfg_chainId config) in
      if negb (valid paymentResult) then
        (Answered (Normal (createPaymentRequiredResponse [requirements]
                             (error paymentResult))), w)
      else (Awaiting request paymentResult requirements, w)
  | Awaiting request paymentResult requirements =>
      match handler request w with
      | (Normal response, w1) =>
          match verified_payload paymentResult with
          | Some p =>
              let '(response1, w2) := afterHandler p requirements response w1 in
              (Answered (Normal response1), w2)
          | None => (Answered (Normal response), w1)
          end
      | (Throw e, w1) => (Answered (Throw e), w1)
      end
  | Answered _ => (t, w)
  end.

(** The task at position [i] of the pool takes a turn. *)
Definition advance (handler : Handler) (config : X402Config) (i : nat)
    (pool : list Task) (w : World) : list Task * World :=
  match pool !! i with
  | Some t => let '(t1, w1) := turn handler config t w in (<[ i := t1 ]> pool, w1)
  | None => (pool, w)
  end.

(** The tasks take turns in the order the schedule lists them. *)
Fixpoint run (handler : Handler) (config : X402Config) (schedule : list nat)
    (pool : list Task) (w : World) : list Task * World :=
  match schedule with
  | [] => (pool, w)
  | i :: rest =>
      let '(pool1, w1) := advance handler config i pool w in
      run handler config rest pool1 w1
  end.

End Protocol.

(** ** Symbolic collaborators, to run the definitions on concrete inputs *)

Module Sim.

Definition is_digit (c : ascii) : bool :=
  let n := nat_of_ascii c in (Nat.leb 48 n && Nat.leb n 57)%bool.

Definition digit_value (c : ascii) : Z := Z.of_nat (nat_of_ascii c) - 48.

(** The leading run of decimal digits and what follows it. *)
Fixpoint span_digits (s : string) : string * string :=
  match s with
  | String c t =>
      if is_digit c then let '(d, r) := span_digits t in (String c d, r)
      else (EmptyString, s)
  | EmptyString => (EmptyString, EmptyString)
  end.

Fixpoint digits_value (acc : Z) (s : string) : Z :=
  match s with
  | String c t => digits_value (acc * 10 + digit_value c) t
  | EmptyString => acc
  end.

Fixpoint all_zeros (s : string) : bool :=
  match s with
  | String c t => (Ascii.eqb c "0" && all_zeros t)%bool
  | EmptyString => true
  end.

(** The first [n] fractional digits, padded with zeros, as an integer;
    [None] when a digit beyond them is not zero. *)
Fixpoint fraction (n : nat) (acc : Z) (s : string) : option Z :=
  match n with
  | O => if all_zeros s then Some acc else None
  | S m =>
      match s with
      | EmptyString => fraction m (acc * 10) EmptyString
      | String c t => fraction m (acc * 10 + digit_value c) t
      end
  end.

(** [parseEther]: the text matches [-?[0-9]*\.?[0-9]*] with at least one
    digit and at most 18 significant decimals. *)
Definition parseEther (s : string) : completion Z :=
  let '(negative, unsigned) :=
    match s with
    | String "-" t => (true, t)
    | _ => (false, s)
    end in
  let '(whole, rest) := span_digits unsigned in
  let decimals :=
    match rest with
    | EmptyString => Some EmptyString
    | String "." d =>
        let '(digits, junk) := span_digits d in
        if String.eqb junk "" then Some digits else None
    | _ => None
    end in
  match decimals with
  | None => Throw "invalid FixedNumber string value"
  | Some d =>
      if String.eqb (whole +:+ d) "" then Throw "invalid FixedNumber string value"
      else
        match fraction 18 0 d with
        | None => Throw "too many decimals for format"
        | Some f =>
            let v := digits_value 0 whole * 10 ^ 18 + f in
            Normal (if negative then - v else v)
        end
  end.

Definition render (v : AbiValue) : completion string :=
  match v with
  | abi_uint256 n =>
      if n <? 0 then Throw "value out-of-bounds"
      else Normal ("uint256:" +:+ Json.decimal n)
  | abi_bytes32 h => Normal ("bytes32:" +:+ h)
  | abi_address a => Normal ("address:" +:+ toLowerCase a)
  | abi_string (JsString s) => Normal ("string:" +:+ Json.quote s)
  | abi_string (JsObject _) => Throw "invalid string value"
  end.

Fixpoint abiEncode (vs : list AbiValue) : completion string :=
  match vs with
  | [] => Normal ""
  | v :: rest =>
      x ← render v;
      y ← abiEncode rest;
      Normal (x +:+ ";" +:+ y)
  end.

Definition keccak256 (data : string) : string := "keccak256(" +:+ data +:+ ")".

(** A symbolic signature is the signer's address, a bar, and the digest. *)
Definition signMessage (address digest : string) : string :=
  address +:+ "|" +:+ digest.

(** Recovery returns the signer when the digest is the signed one, another
    address when it is not, and throws on text that is not a signature. *)
Definition verifyMessage (digest sig : string) : completion string :=
  match break_at "|" sig with
  | Some (address, signed) =>
      if String.eqb signed digest then Normal address
      else Normal ("0x" +:+ signed)
  | None => Throw "invalid signature"
  end.

#[export] Instance ethers : Ethers :=
  Build_Ethers parseEther abiEncode keccak256 verifyMessage.

(** Collaborators none of whose cryptographic operations succeeds: encoding
    and recovery always throw. *)
Definition refusing : Ethers :=
  Build_Ethers parseEther (fun _ => Throw "no encoder")
    (fun _ => "") (fun _ _ => Throw "no recovery").

(** A wire on which the listed header values decode to the listed payloads
    and any other text is not JSON. *)
Fixpoint lookup_payload (table : list (string * PaymentPayload)) (encoded : string)
  : completion PaymentPayload :=
  match table with
  | [] => Throw "Unexpected end of JSON input"
  | (k, p) :: rest =>
      if String.eqb k encoded then Normal p else lookup_payload rest encoded
  end.

Definition wire (table : list (string * PaymentPayload)) : Wire :=
  {| decodePaymentPayload := lookup_payload table |}.

End Sim.

(** ** Proof engine: building a proof ([src/lib/zk]) *)

(** The part of an [ethers.Signer] the prover uses:
    [signer.signMessage(ethers.getBytes(digest))]; it rejects when the wallet
    cannot or will not sign. *)
Record Wallet : Type := {
  signMessage : string -> completion string;
}.

Record PaymentCommitment : Type := {
  pc_commitment : string;
  pc_nonce : string;
  pc_nullifier : string;
}.

Section Prover.
Context `{E : Ethers}.

(** [random32] is [ethers.hexlify(ethers.randomBytes(32))]. *)
Definition createPaymentCommitment (random32 : string) (w : World)
    (amount sender receiver : string) (bountyId : option string)
  : completion PaymentCommitment :=
  let nonce := random32 in
  value ← parseEther amount;
  encoded ← abiEncode
    [ abi_uint256 value; abi_bytes32 nonce; abi_address sender;
      abi_address receiver;
      abi_string (JsString (default "" (or_else bountyId None))) ];
  let commitment := keccak256 encoded in
  encoded2 ← abiEncode
    [ abi_bytes32 nonce; abi_address sender; abi_uint256 (dateNow w) ];
  let nullifier := keccak256 encoded2 in
  Normal {| pc_commitment := commitment; pc_nonce := nonce;
            pc_nullifier := nullifier |}.

Definition generatePaymentProof (random32 : string) (w : World)
    (amount sender receiver : string) (signer : Wallet)
    (chainId : Z) (contractAddress : string) (bountyId : option string)
  : completion ZKPaymentProof :=
  c ← createPaymentCommitment random32 w amount sender receiver bountyId;
  let commitment := pc_commitment c in
  let nonce := pc_nonce c in
  let nullifier := pc_nullifier c in
  (* Generate amount hash *)
  value ← parseEther amount;
  encodedAmount ← abiEncode [ abi_uint256 value; abi_bytes32 nonce ];
  let amountHash := keccak256 encodedAmount in
  (* Generate sender/receiver identity hashes *)
  encodedSender ← abiEncode [ abi_address sender; abi_bytes32 nonce ];
  let senderHash := keccak256 encodedSender in
  encodedReceiver ← abiEncode [ abi_address receiver; abi_bytes32 nonce ];
  let receiverHash := keccak256 encodedReceiver in
  let timestamp := seconds (dateNow w) in
  (* Sign the proof to bind it to the sender *)
  encodedProof ← abiEncode
    [ abi_bytes32 commitment; abi_bytes32 nullifier; abi_bytes32 amountHash;
      abi_bytes32 senderHash; abi_bytes32 receiverHash; abi_uint256 timestamp ];
  let proofMessage := keccak256 encodedProof in
  signature ← signMessage signer proofMessage;
  Normal {| commitment := commitment;
            nullifier := nullifier;
            proof := {| amountHash := amountHash; senderHash := senderHash;
                        receiverHash := receiverHash;
                        proof_timestamp := timestamp;
                        proof_signature := signature |};
            publicInputs := {| minAmount := amount; chainId := chainId;
                               pi_contractAddress := contractAddress;
                               pi_bountyId := bountyId |} |}.

Definition createPaymentReceipt (txHash : string) (p : ZKPaymentProof)
    (settledAt : Z) : completion string :=
  encoded ← abiEncode
    [ abi_bytes32 txHash; abi_bytes32 (commitment p);
      abi_bytes32 (nullifier p); abi_uint256 settledAt ];
  Normal (keccak256 encoded).

End Prover.

(** ** Client ([X402Client], the x402 client SDK) *)

Record X402ClientConfig : Type := {
  signer : Wallet;
  walletAddress : string;
  client_chainId : Z;
  client_useZkProof : option bool;
}.

(** [forceZkProof ?? this.config.useZkProof ?? false] *)
Definition resolveUseZk (forceZkProof : option bool) (config : X402ClientConfig)
  : bool :=
  default (default false (client_useZkProof config)) forceZkProof.

(** [requirements.find((r) => r.scheme === preferredScheme) || requirements[0]] *)
Definition selectRequirement (useZk : bool) (requirements : list PaymentRequirements)
  : option PaymentRequirements :=
  let preferredScheme := if useZk then zk_exact else exact in
  match List.find (fun r => Scheme_eqb (req_scheme r) preferredScheme) requirements with
  | Some r => Some r
  | None => head requirements
  end.

Section Client.
Context `{E : Ethers}.

(** [random16] and [random32] are the two draws of [ethers.randomBytes],
    hexlified. *)
Definition createPayment (config : X402ClientConfig) (random16 random32 : string)
    (w : World) (requirement : PaymentRequirements) (amount : string)
    (useZk : bool) : completion PaymentPayload :=
  let nonce := random16 in
  let timestamp := seconds (dateNow w) in
  if (useZk || Scheme_eqb (req_scheme requirement) zk_exact)%bool then
    zkProof ← generatePaymentProof random32 w amount (walletAddress config)
                (payTo requirement) (signer config) (client_chainId config)
                (default "" (or_else (req_contractAddress requirement) None))
                (req_bountyId requirement);
    Normal {| x402Version := 1; scheme := zk_exact;
              network := req_network requirement;
              payload := {| sender := walletAddress config; signature := None;
                            zkProof := Some zkProof; amount := amount;
                            nonce := JsString nonce; timestamp := timestamp |} |}
  else
    amountWei ← parseEther amount;
    encoded ← abiEncode
      [ abi_address (walletAddress config); abi_uint256 amountWei;
        abi_string (JsString nonce); abi_uint256 timestamp ];
    let message := keccak256 encoded in
    signature ← signMessage (signer config) message;
    Normal {| x402Version := 1; scheme := exact;
              network := req_network requirement;
              payload := {| sender := walletAddress config;
                            signature := Some signature; zkProof := None;
                            amount := amount; nonce := JsString nonce;
                            timestamp := timestamp |} |}.

(** Lines 91-110 of [X402Client.fetch]: from the offered requirements to the
    payment that is sent; [paymentAmount] overrides the amount. *)
Definition payFor (config : X402ClientConfig) (random16 random32 : string)
    (w : World) (requirements : list PaymentRequirements)
    (paymentAmount : option string) (forceZkProof : option bool)
  : completion PaymentPayload :=
  let useZk := resolveUseZk forceZkProof config in
  match selectRequirement useZk requirements with
  | None => Throw "No compatible payment scheme found"
  | Some selectedReq =>
      createPayment config random16 random32 w selectedReq
        (default (maxAmountRequired selectedReq) (or_else paymentAmount None))
        useZk
  end.

End Client.

(** ** Regular expressions: the fragment of [RegExp] route patterns use

    [new RegExp(source)] is modelled for sources built from literal
    characters, [.], groups, character classes without ranges or escapes, the
    quantifiers [*], [+], [?] (greedy or lazy) and escaped syntax characters.
    For such a source, and as long as no alternation is at top level,
    [new RegExp('^' + source + '$').test(s)] holds exactly when the whole of
    [s] is in the language of the source.  Anything else ([compile] returns
    [None]) is a source the constructor rejects or one outside this
    fragment.

    Sources and subjects are ASCII text.  There a character of a [string]
    is one code unit of the JavaScript string, which is what [RegExp] reads
    at a time, and the line terminators are the line feed and the carriage
    return; outside ASCII [RegExp] also counts U+2028 and U+2029 as line
    terminators and reads code units that a [string] does not hold. *)

Module RegExp.

Inductive regex : Type :=
| Empty                                         (* no string *)
| Eps                                           (* the empty string *)
| Chr (c : ascii)
| Dot                                           (* [.] *)
| Class (negated : bool) (members : list ascii) (* [[abc]], [[^abc]] *)
| Cat (r s : regex)
| Alt (r s : regex)
| Star (r : regex).

(** LineTerminator among the ASCII characters: LF and CR. *)
Definition line_terminator (c : ascii) : bool :=
  (Ascii.eqb c (ascii_of_nat 10) || Ascii.eqb c (ascii_of_nat 13))%bool.

Definition member (c : ascii) (l : list ascii) : bool := existsb (Ascii.eqb c) l.

Fixpoint nullable (r : regex) : bool :=
  match r with
  | Empty | Chr _ | Dot | Class _ _ => false
  | Eps | Star _ => true
  | Cat r s => nullable r && nullable s
  | Alt r s => nullable r || nullable s
  end.

(** What [r] still has to match once it has read the ASCII character [c]. *)
Fixpoint derivative (c : ascii) (r : regex) : regex :=
  match r with
  | Empty | Eps => Empty
  | Chr d => if Ascii.eqb c d then Eps else Empty
  | Dot => if line_terminator c then Empty else Eps
  | Class negated members =>
      if xorb negated (member c members) then Eps else Empty
  | Cat r s =>
      if nullable r
      then Alt (Cat (derivative c r) s) (derivative c s)
      else Cat (derivative c r) s
  | Alt r s => Alt (derivative c r) (derivative c s)
  | Star r => Cat (derivative c r) (Star r)
  end.

(** The whole of [s] is matched by [r]. *)
Fixpoint matches (r : regex) (s : string) : bool :=
  match s with
  | EmptyString => nullable r
  | String c t => matches (derivative c r) t
  end.

(** SyntaxCharacter *)
Definition syntax_character (c : ascii) : bool :=
  member c (list_ascii_of_string "^$\.*+?()[]{}|").

(** The members of a character class up to its closing bracket; ranges and
    escapes are not modelled. *)
Fixpoint class_members (s : string) : option (list ascii * string) :=
  match s with
  | EmptyString => None
  | String c t =>
      if Ascii.eqb c "]" then Some ([], t)
      else if (Ascii.eqb c "\" || Ascii.eqb c "-")%bool then None
      else match class_members t with
           | Some (members, rest) => Some (c :: members, rest)
           | None => None
           end
  end.

Definition character_class (s : string) : option (regex * string) :=
  match s with
  | String "^" t =>
      match class_members t with
      | Some (members, rest) => Some (Class true members, rest)
      | None => None
      end
  | _ =>
      match class_members s with
      | Some (members, rest) => Some (Class false members, rest)
      | None => None
      end
  end.

(** A quantifier may be followed by [?], which makes it lazy and leaves the
    language as it is. *)
Definition skip_lazy (s : string) : string :=
  match s with
  | String "?" t => t
  | _ => s
  end.

(** The atom [r] with the quantifier that follows it, if any. *)
Definition quantified (r : regex) (s : string) : option (regex * string) :=
  match s with
  | String "*" t => Some (Star r, skip_lazy t)
  | String "+" t => Some (Cat r (Star r), skip_lazy t)
  | String "?" t => Some (Alt r Eps, skip_lazy t)
  | String "{" _ => None
  | _ => Some (r, s)
  end.

(** [alternative] reads terms up to a [|], a [)] or the end;
    [disjunction] reads alternatives separated by [|]. *)
Fixpoint alternative (fuel : nat) (s : string) : option (regex * string) :=
  match fuel with
  | O => None
  | S fuel =>
      match s with
      | EmptyString => Some (Eps, s)
      | String c t =>
          if (Ascii.eqb c ")" || Ascii.eqb c "|")%bool then Some (Eps, s)
          else
            let atom :=
              if Ascii.eqb c "." then Some (Dot, t)
              else if Ascii.eqb c "[" then character_class t
              else if Ascii.eqb c "\" then
                match t with
                | String d u => if syntax_character d || Ascii.eqb d "/"
                                then Some (Chr d, u) else None
                | EmptyString => None
                end
              else if Ascii.eqb c "(" then
                match t with
                | String "?" _ => None
                | _ =>
                    match disjunction fuel t with
                    | Some (r, String ")" u) => Some (r, u)
                    | _ => None
                    end
                end
              else if syntax_character c then None
              else Some (Chr c, t) in
            match atom with
            | None => None
            | Some (r, rest) =>
                match quantified r rest with
                | None => None
                | Some (term, rest1) =>
                    match alternative fuel rest1 with
                    | Some (more, rest2) => Some (Cat term more, rest2)
                    | None => None
                    end
                end
            end
      end
  end
with disjunction (fuel : nat) (s : string) : option (regex * string) :=
  match fuel with
  | O => None
  | S fuel =>
      match alternative fuel s with
      | Some (r, String "|" t) =>
          match disjunction fuel t with
          | Some (r2, rest) => Some (Alt r r2, rest)
          | None => None
          end
      | other => other
      end
  end.

(** The source as a whole, with no alternation at top level. *)
Definition compile (source : string) : option regex :=
  match alternative (2 * String.length source + 2) source with
  | Some (r, EmptyString) => Some r
  | _ => None
  end.

(** [new RegExp('^' + source + '$').test(s)] *)
Definition test_anchored (source s : string) : option bool :=
  match compile source with
  | Some r => Some (matches r s)
  | None => None
  end.

End RegExp.

(** ** Route matching ([matchRoute]) *)

(** [routePath.replace(/\*/g, '.*')] *)
Fixpoint replaceStars (s : string) : string :=
  match s with
  | EmptyString => EmptyString
  | String c t =>
      if Ascii.eqb c "*" then String "." (String "*" (replaceStars t))
      else String c (replaceStars t)
  end.

(** [s.replace(/\[([^\]]+)\]/g, '([^/]+)')], scanning from the left.
    [inside = None]: outside any bracket.  [inside = Some run]: an opening
    bracket was read, followed by the characters [run] (in reverse), none of
    them a closing bracket.  A closing bracket after a non-empty run
    completes a match, which is replaced; after an empty run there is no
    match at the opening bracket, and both brackets are copied.  When the
    text ends inside a run no closing bracket follows, so nothing after the
    opening bracket matches and the run is copied. *)
Fixpoint replaceParamsFrom (inside : option (list ascii)) (s : string) : string :=
  match s, inside with
  | EmptyString, None => EmptyString
  | EmptyString, Some run =>
      String "[" (string_of_list_ascii (rev run))
  | String c t, None =>
      if Ascii.eqb c "[" then replaceParamsFrom (Some []) t
      else String c (replaceParamsFrom None t)
  | String c t, Some run =>
      if Ascii.eqb c "]" then
        match run with
        | [] => String "[" (String "]" (replaceParamsFrom None t))
        | _ :: _ => "([^/]+)" +:+ replaceParamsFrom None t
        end
      else replaceParamsFrom (Some (c :: run)) t
  end.

Definition replaceParams (s : string) : string := replaceParamsFrom None s.

(** [const [routeMethod, ...routeParts] = pattern.split(' ');
     const routePath = routeParts.join(' ');] *)
Definition splitPattern (pattern : string) : string * string :=
  match break_at " " pattern with
  | Some (routeMethod, routePath) => (routeMethod, routePath)
  | None => (pattern, EmptyString)
  end.

(** Lines 321-327: the route path as an anchored regular expression, tested
    on the path name. *)
Definition routePathTest (routePath pathname : string) : option bool :=
  RegExp.test_anchored (replaceParams (replaceStars routePath)) pathname.

(** [routes[routeKey]] *)
Fixpoint routeLookup (routeKey : string) (routes : RoutesConfig)
  : option RoutePaymentConfig :=
  match routes with
  | [] => None
  | (key, config) :: rest =>
      if String.eqb key routeKey then Some config else routeLookup routeKey rest
  end.

(** The [for] loop of [matchRoute].  The outer [None] is a pattern whose
    regular expression the constructor rejects or this model does not
    cover. *)
Fixpoint scanRoutes (pathname method : string) (routes : RoutesConfig)
  : option (option (string * RoutePaymentConfig)) :=
  match routes with
  | [] => Some None
  | (pattern, config) :: rest =>
      let '(routeMethod, routePath) := splitPattern pattern in
      if (negb (String.eqb routeMethod (toUpperCase method))
          && negb (String.eqb routeMethod "*"))%bool
      then scanRoutes pathname method rest
      else
        match routePathTest routePath pathname with
        | None => None
        | Some true => Some (Some (pattern, config))
        | Some false => scanRoutes pathname method rest
        end
  end.

Definition matchRoute (pathname method : string) (routes : RoutesConfig)
  : option (option (string * RoutePaymentConfig)) :=
  let routeKey := toUpperCase method +:+ " " +:+ pathname in
  match routeLookup routeKey routes with
  | Some config => Some (Some (routeKey, config))
  | None => scanRoutes pathname method routes
  end.

(** ** The payment middleware (the x402 middleware of the application) *)

(** The environment variables the middleware reads, with their defaults
    applied: [CHAIN_ID] is the parsed NEXT_PUBLIC_MONAD_CHAIN_ID. *)
Record MiddlewareEnv : Type := {
  NODE_ENV : option string;
  CHAIN_ID : Z;
  CONTRACT_ADDRESS : string;
  AGENT_WALLET : string;
}.

(** The parts of a [NextRequest] the middleware reads. *)
Record NextRequest : Type := {
  mw_request : Request;      (* its url and headers *)
  mw_method : string;        (* request.method *)
  mw_pathname : string;      (* request.nextUrl.pathname *)
  mw_protocol : string;      (* request.nextUrl.protocol *)
  mw_host : string;          (* request.nextUrl.host *)
}.

(** [NextResponse.next()] or a response of the middleware's own. *)
Inductive MiddlewareResult : Type :=
| Next
| Respond (response : Response).

(** Routes that require x402 payment. *)
Definition PROTECTED_ROUTES : RoutesConfig :=
  [ ("POST /api/ai/agent",
     {| price := "0.001";
        description := "Run the AI agent to discover and complete bounties";
        useZkProof := Some true; bountyId := None |}) ].

Section Middleware.
Context `{E : Ethers} `{W : Wire}.

Definition middlewareRequirements (env : MiddlewareEnv) (config : RoutePaymentConfig)
    (resourceUrl : string) : PaymentRequirements :=
  {| req_scheme := if default false (useZkProof config) then zk_exact else exact;
     req_network := "eip155:" +:+ Json.decimal (CHAIN_ID env);
     maxAmountRequired := price config;
     payTo := if truthy (AGENT_WALLET env) then AGENT_WALLET env
              else CONTRACT_ADDRESS env;
     resource := resourceUrl;
     req_description := description config;
     mimeType := "application/json";
     req_contractAddress := Some (CONTRACT_ADDRESS env);
     req_bountyId := bountyId config |}.

(** The outer [None] is a route pattern outside the modelled regular
    expressions; it does not occur with [PROTECTED_ROUTES]. *)
Definition middleware (env : MiddlewareEnv) (w : World) (r : NextRequest)
  : option MiddlewareResult :=
  (* Skip payment enforcement in development mode *)
  if match NODE_ENV env with
     | Some mode => String.eqb mode "development"
     | None => false
     end
  then Some Next
  else if negb (String.prefix "/api/ai/agent" (mw_pathname r)) then Some Next
  else
    let pathname := mw_pathname r in
    let method := toUpperCase (mw_method r) in
    match matchRoute pathname method PROTECTED_ROUTES with
    | None => None
    | Some None => Some Next
    | Some (Some (_, config)) =>
        let paymentHeader :=
          or_else (headers_get "payment-signature" (req_headers (mw_request r)))
                  (headers_get "x-payment" (req_headers (mw_request r))) in
        if negb (present paymentHeader) then
          Some (Respond
                  (createPaymentRequiredResponse
                     [middlewareRequirements env config
                        (mw_protocol r +:+ "//" +:+ mw_host r +:+ pathname)]
                     (Some "Payment required to access this resource")))
        else
          let requirements :=
            middlewareRequirements env config (url (mw_request r)) in
          let result :=
            verifyPaymentFromRequest w (mw_request r) requirements (CHAIN_ID env) in
          if negb (valid result) then
            Some (Respond (createPaymentRequiredResponse [requirements] (error result)))
          else Some Next
    end.

End Middleware.

(** ** The proof verification endpoint (POST /api/payments/verify) *)

(** The JSON body of the request, as destructured by the handler. *)
Record VerifyBody : Type := {
  vb_zkProof : option ZKPaymentProof;
  vb_chainId : option Z;
  vb_contractAddress : option string;
}.

(** The JSON body of a 200 answer (without the [proofDetails] echo). *)
Record VerifyAnswer : Type := {
  va_valid : bool;
  va_commitment : option string;
  va_nullifier : option string;
  va_nullifierUsed : bool;
  va_error : option string;
}.

Inductive VerifyReply : Type :=
| Answer200 (answer : VerifyAnswer)
| Error400 (error : string)
| Error500 (error : string).

Section VerifyEndpoint.
Context `{E : Ethers}.

(** [body] is the completion of [await request.json()]; [CHAIN_ID] and
    [CONTRACT_ADDRESS] are the module's constants. *)
Definition POST_verify (CHAIN_ID : Z) (CONTRACT_ADDRESS : string) (w : World)
    (body : completion VerifyBody) : VerifyReply :=
  try_catch
    (b ← body;
     match vb_zkProof b with
     | None => Normal (Error400 "zkProof is required")
     | Some zkProof =>
         (* Use provided chain/contract or defaults *)
         let targetChainId :=
           match vb_chainId b with
           | Some c => if c =? 0 then CHAIN_ID else c
           | None => CHAIN_ID
           end in
         let targetContract :=
           default CONTRACT_ADDRESS (or_else (vb_contractAddress b) None) in
         let result := verifyPaymentProof w zkProof targetChainId targetContract in
         let nullifierUsed := isNullifierUsed (nullifier zkProof) w in
         Normal (Answer200
                   {| va_valid := zk_valid result && negb nullifierUsed;
                      va_commitment := zk_commitment result;
                      va_nullifier := zk_nullifier result;
                      va_nullifierUsed := nullifierUsed;
                      va_error :=
                        match or_else (zk_error result) None with
                        | Some e => Some e
                        | None => if nullifierUsed
                                  then Some "Nullifier already used" else None
                        end |})
     end)
    (fun message =>
       Error500 (default "Verification failed" (or_else (Some message) None))).

End VerifyEndpoint.

(** * Specification-level definitions *)

Section ProofEngineSpec.
Context `{E : Ethers}.

(** Step (e) of [verifyPaymentProof]: rebuild the binding message, recover
    the signer, reject when recovery throws or yields no or the zero address. *)
Definition signatureStep (p : ZKPaymentProof) : ZKVerificationResult :=
  match proofMessage p ≫= (fun m => verifyMessage m (proof_signature (proof p))) with
  | Throw e => zk_reject ("Proof verification failed: " +:+ e)
  | Normal a =>
      if (String.eqb a "" || String.eqb a ZeroAddress)%bool
      then zk_reject "Invalid proof signature"
      else {| zk_valid := true; zk_error := None;
              zk_commitment := Some (commitment p);
              zk_nullifier := Some (nullifier p) |}
  end.

End ProofEngineSpec.

(** ** Sample data *)

Module Sample.
Import Sim.

(** 2023-11-14T22:13:20Z, in milliseconds. *)
Definition clock : Z := 1700000000000.

Definition world (used : list string) : World :=
  {| usedNullifiers := list_to_set used; dateNow := clock |}.

Definition escrow : string := "0x5FbDB2315678afecb367f032d93F6e42aa3B0512".
Definition alice : string := "0xA11CE00000000000000000000000000000000001".
Definition agent : string := "0xA6E4700000000000000000000000000000000002".

(** A proof over arbitrary field values, signed by [signer] at time [ts]. *)
Definition unsignedProof (ts chain : Z) (contract : string) : ZKPaymentProof :=
  {| commitment := "0xc0"; nullifier := "0x0a";
     proof := {| amountHash := "0xa1"; senderHash := "0xa2"; receiverHash := "0xa3";
                 proof_timestamp := ts; proof_signature := "" |};
     publicInputs := {| minAmount := "0.001"; chainId := chain;
                        pi_contractAddress := contract; pi_bountyId := None |} |}.

Definition withSignature (p : ZKPaymentProof) (sig : string) : ZKPaymentProof :=
  {| commitment := commitment p; nullifier := nullifier p;
     proof := {| amountHash := amountHash (proof p);
                 senderHash := senderHash (proof p);
                 receiverHash := receiverHash (proof p);
                 proof_timestamp := proof_timestamp (proof p);
                 proof_signature := sig |};
     publicInputs := publicInputs p |}.

Definition signedProof (signer : string) (ts chain : Z) (contract : string)
  : ZKPaymentProof :=
  let p := unsignedProof ts chain contract in
  match proofMessage p with
  | Normal m => withSignature p (signMessage signer m)
  | Throw _ => p
  end.

End Sample.

Section ProtocolSpec.
Context `{E : Ethers} `{W : Wire}.

(** The request carries a non-empty payment header (PAYMENT-SIGNATURE, or
    X-PAYMENT when that one is missing or empty) that decodes to [p]. *)
Definition carries (request : Request) (p : PaymentPayload) : Prop :=
  exists h,
    or_else (headers_get "payment-signature" (req_headers request))
            (headers_get "x-payment" (req_headers request)) = Some h
    /\ h <> "" /\ decodePaymentPayload h = Normal p.

(** The [catch] clause of [verifyPaymentFromRequest]. *)
Definition verificationFailed (message : string) : Verification :=
  invalid ("Payment verification failed: " +:+ message).

Definition accepted (p : PaymentPayload) : Verification :=
  {| valid := true; verified_payload := Some p; error := None |}.

(** The payload passes the version, scheme, amount and age checks; [paid] is
    its amount in base units. *)
Definition passesEnvelope (w : World) (p : PaymentPayload)
    (requirements : PaymentRequirements) (paid : Z) : Prop :=
  x402Version p = 1
  /\ scheme p = req_scheme requirements
  /\ (exists required,
        parseEther (maxAmountRequired requirements) = Normal required
        /\ parseEther (amount (payload p)) = Normal paid
        /\ required <= paid)
  /\ seconds (dateNow w) - timestamp (payload p) <= 300.

(** C4 as the specification words it: an accepted 'exact' payload has a
    signature whose recovered signer is the sender, up to case. *)
Definition exact_accept_means_signed_by_sender : Prop :=
  forall w request requirements cid p paid,
    carries request p -> scheme p = exact ->
    passesEnvelope w p requirements paid ->
    valid (verifyPaymentFromRequest w request requirements cid) = true ->
    exists sig m a,
      signature (payload p) = Some sig
      /\ exactMessage p paid = Normal m
      /\ verifyMessage m sig = Normal a
      /\ toLowerCase a = toLowerCase (sender (payload p)).

End ProtocolSpec.

Module SampleRequests.
Import Sim Sample.

Definition requirements (s : Scheme) : PaymentRequirements :=
  {| req_scheme := s; req_network := "eip155:31337";
     maxAmountRequired := "0.001"; payTo := agent;
     resource := "https://monexus.test/api/ai/agent";
     req_description := "Run the AI agent"; mimeType := "application/json";
     req_contractAddress := Some escrow; req_bountyId := None |}.

Definition paymentData (amt : string) (ts : Z) (sig : option string)
    (zk : option ZKPaymentProof) : PaymentData :=
  {| sender := alice; signature := sig; zkProof := zk;
     amount := amt; nonce := JsString "0x6e6f6e6365"; timestamp := ts |}.

Definition paymentPayload (version : Z) (s : Scheme) (d : PaymentData)
  : PaymentPayload :=
  {| x402Version := version; scheme := s; network := "eip155:31337";
     payload := d |}.

(** An 'exact' payload signed by [signer] over its own digest. *)
Definition signedBy (signer : string) (p : PaymentPayload) (paid : Z)
  : PaymentPayload :=
  match exactMessage p paid with
  | Normal m =>
      paymentPayload (x402Version p) (scheme p)
        {| sender := sender (payload p);
           signature := Some (signMessage signer m);
           zkProof := zkProof (payload p); amount := amount (payload p);
           nonce := nonce (payload p); timestamp := timestamp (payload p) |}
  | Throw _ => p
  end.

Definition now : Z := seconds clock.

(** A request whose PAYMENT-SIGNATURE header is the text [h]. *)
Definition requestWith (h : string) : Request :=
  {| url := "https://monexus.test/api/ai/agent";
     req_headers := {[ "payment-signature" := h ]} |}.

(** The wire decodes the text "payment" to [p] and nothing else. *)
Definition wireOf (p : PaymentPayload) : Wire := wire [("payment", p)].

(** An 'exact' payload with no signature at all. *)
Definition unsignedExact : PaymentPayload :=
  paymentPayload 1 exact (paymentData "0.001" now None None).

(** A 'zk-exact' payload with no proof. *)
Definition unprovenZk : PaymentPayload :=
  paymentPayload 1 zk_exact (paymentData "0.001" now None None).

(** The configuration of the protected agent route, settled through the
    escrow contract. *)
Definition agentRoute : X402Config :=
  {| route := {| price := "0.001"; description := "Run the AI agent";
                 useZkProof := Some true; bountyId := None |};
     cfg_payTo := Sample.agent; cfg_contractAddress := Some Sample.escrow;
     cfg_chainId := 31337; cfg_network := "eip155:31337" |}.

(** A 'zk-exact' payment of 0.001 carrying a proof signed by its sender. *)
Definition zkPayment : PaymentPayload :=
  paymentPayload 1 zk_exact
    (paymentData "0.001" now None
       (Some (signedProof alice now 31337 escrow))).

(** A wallet whose transfers are refused. *)
Definition brokenSigner : Signer :=
  {| sendTransaction := fun _ _ => Throw "insufficient funds" |}.

(** A business response. *)
Definition ok200 : Response :=
  {| status := 200; body := "{}"; headers := ∅ |}.

(** The configuration of a route paid under the 'exact' scheme. *)
Definition exactRoute : X402Config :=
  {| route := {| price := "0.001"; description := "Run the AI agent";
                 useZkProof := None; bountyId := None |};
     cfg_payTo := Sample.agent; cfg_contractAddress := Some Sample.escrow;
     cfg_chainId := 31337; cfg_network := "eip155:31337" |}.

(** An 'exact' payload without a signature whose header holds
    [{"toString": null}] for the nonce. *)
Definition opaqueNonce : PaymentPayload :=
  paymentPayload 1 exact
    {| sender := alice; signature := None; zkProof := None;
       amount := "0.001"; nonce := JsObject ["toString"]; timestamp := now |}.

End SampleRequests.

(** The reasons a verification can fail with: the literal messages of
    [verifyPaymentFromRequest] and its two prefixed ones. *)
Inductive FailureReason : string -> Prop :=
| NoPaymentHeader : FailureReason "No payment header provided"
| UnsupportedVersion : FailureReason "Unsupported x402 version"
| SchemeMismatch : FailureReason "Payment scheme mismatch"
| InsufficientAmount : FailureReason "Insufficient payment amount"
| PaymentExpired : FailureReason "Payment expired"
| InvalidProof (e : string) : FailureReason ("ZK proof invalid: " +:+ e)
| NullifierSpent : FailureReason "Payment already used (nullifier spent)"
| InvalidSignature : FailureReason "Invalid payment signature"
| MalformedPayload (e : string) :
    FailureReason ("Payment verification failed: " +:+ e).

(** A handler that fails on every request. *)
Definition crashingHandler : Handler :=
  fun _ w => (Throw "handler must not run", clearNullifiers w).

Section SettlementSpec.
Context `{E : Ethers} `{W : Wire}.

(** C5 as the specification words it, for a call of the wrapped handler:
    the payment is accepted, the handler responds, and the settlement that
    [withX402Payment] then makes fails.  The answer is the handler's
    response with the settlement in its PAYMENT-RESPONSE header; status and
    body stay as they were. *)
Definition settlement_failure_surfaced : Prop :=
  forall (handler : Handler) config request w w1 response p,
    verifyPaymentFromRequest w request (requirementsFor config request)
      (cfg_chainId config) = accepted p ->
    handler request w = (Normal response, w1) ->
    status response < 400 ->
    let settlement :=
      fst (settlePayment p (requirementsFor config request) None w1) in
    success settlement = false ->
    exists answered,
      fst (withX402Payment handler config request w) = Normal answered
      /\ headers_get "PAYMENT-RESPONSE" (headers answered)
         = Some (encodeSettlementResponse settlement)
      /\ status answered = status response
      /\ body answered = body response.

(** The value transfer of [settlePayment] is attempted and fails with
    message [e]: sending is refused, or waiting for the receipt is. *)
Definition transferFails (signer : Signer) (to : string) (value : Z) (e : string)
  : Prop :=
  sendTransaction signer to value = Throw e
  \/ exists tx, sendTransaction signer to value = Normal tx /\ tx_wait tx = Throw e.

Definition settlementFailed (e : string) : SettlementResponse :=
  {| success := false; txHash := None; receipt := None;
     settle_error := Some ("Settlement failed: " +:+ e) |}.

End SettlementSpec.

Section LedgerSpec.
Context `{E : Ethers} `{W : Wire}.

(** The second half of C1 as the specification words it: presenting a
    'zk-exact' payload whose nullifier is recorded as used yields the
    nullifier-spent error. *)
Definition spent_nullifier_always_reported : Prop :=
  forall w request requirements cid p zk,
    carries request p -> scheme p = zk_exact ->
    zkProof (payload p) = Some zk ->
    nullifier zk ∈ usedNullifiers w ->
    verifyPaymentFromRequest w request requirements cid
    = invalid "Payment already used (nullifier spent)".

(** The task was answered with this status and, if [settled], with a
    PAYMENT-RESPONSE header. *)
Definition answeredWith (t : option Task) (code : Z) (settled : bool) : Prop :=
  exists response,
    t = Some (Answered (Normal response))
    /\ status response = code
    /\ if settled : bool
       then is_Some (headers_get "PAYMENT-RESPONSE" (headers response))
       else headers_get "PAYMENT-RESPONSE" (headers response) = None.

(** The task passed verification and waits for its handler. *)
Definition awaitingHandler (t : option Task) : Prop :=
  exists request v requirements,
    t = Some (Awaiting request v requirements) /\ valid v = true.

End LedgerSpec.

Module SampleRuns.
Import Sim Sample SampleRequests.

(** A handler that answers 200 and touches nothing. *)
Definition okHandler : Handler := fun _ w => (Normal ok200, w).

(** Two requests presenting the same encoded payment. *)
Definition twice : list Task :=
  [Arrived (requestWith "payment"); Arrived (requestWith "payment")].

(** The world 301 seconds later, with the sample proof's nullifier used. *)
Definition later : World :=
  {| usedNullifiers := {[ "0x0a" ]}; dateNow := clock + 301000 |}.

End SampleRuns.

(** ** Sample wallets and client *)

Module SampleClient.
Import Sim Sample SampleRequests.

(** The wallet of [address] under the symbolic signature scheme. *)
Definition walletOf (address : string) : Wallet :=
  Build_Wallet (fun digest => Normal (Sim.signMessage address digest)).

(** A wallet that refuses to sign. *)
Definition lockedWallet : Wallet :=
  Build_Wallet (fun _ => Throw "user rejected signing").

Definition aliceClient (useZk : option bool) : X402ClientConfig :=
  {| signer := walletOf alice; walletAddress := alice;
     client_chainId := 31337; client_useZkProof := useZk |}.

Definition random16 : string := "0x000102030405060708090a0b0c0d0e0f".
Definition random32 : string :=
  "0x101112131415161718191a1b1c1d1e1f202122232425262728292a2b2c2d2e2f".

End SampleClient.

Module SampleProofs.
Import Sim Sample SampleRequests SampleClient.

(** The sample world [s] seconds later. *)
Definition after (s : Z) : World :=
  {| usedNullifiers := ∅; dateNow := clock + s * 1000 |}.

End SampleProofs.

Section WrapperSpec.
Context `{E : Ethers} `{W : Wire}.

(** Verification of the header text [h]: the [try] block of
    [verifyPaymentFromRequest]. *)
Definition verifyHeader (w : World) (h : string)
    (requirements : PaymentRequirements) (cid : Z) : Verification :=
  try_catch (p ← decodePaymentPayload h; verifyDecoded w p requirements cid)
            verificationFailed.

(** The handler never removes a nullifier from the ledger. *)
Definition keepsLedger (handler : Handler) : Prop :=
  forall request w, usedNullifiers w ⊆ usedNullifiers (snd (handler request w)).

(** The response with the PAYMENT-RESPONSE header set to the encoded
    settlement. *)
Definition withSettlementHeader (response : Response)
    (settlement : SettlementResponse) : Response :=
  {| status := status response; body := body response;
     headers := <[ "payment-response" := encodeSettlementResponse settlement ]>
                  (headers response) |}.

End WrapperSpec.

Module SamplePayments.
Import Sim Sample SampleRequests SampleClient.

(** The payment Alice's client builds for the 'zk-exact' sample requirement. *)
Definition clientZkPayment : PaymentPayload :=
  match createPayment (aliceClient None) random16 random32 (Sample.world [])
          (requirements zk_exact) "0.001" false with
  | Normal p => p
  | Throw _ => unprovenZk
  end.

(** The payment Alice's client builds for the 'exact' sample requirement. *)
Definition clientExactPayment : PaymentPayload :=
  match createPayment (aliceClient None) random16 random32 (Sample.world [])
          (requirements exact) "0.001" false with
  | Normal p => p
  | Throw _ => unsignedExact
  end.

(** A request with both payment headers. *)
Definition requestWithBoth (primary legacy : string) : Request :=
  {| url := "https://monexus.test/api/ai/agent";
     req_headers := {[ "payment-signature" := primary; "x-payment" := legacy ]} |}.

End SamplePayments.

Module SampleHandlers.
Import Sim Sample SampleRequests.

(** A handler whose business logic fails. *)
Definition failingHandler : Handler :=
  fun _ w => (Normal {| status := 500; body := "{}"; headers := ∅ |}, w).

(** A wallet whose transfer is sent and whose receipt is [null]. *)
Definition workingSigner : Signer :=
  {| sendTransaction := fun _ _ =>
       Normal {| tx_hash := "0xabc"; tx_wait := Normal None |} |}.

End SampleHandlers.

(** ** What a regular expression and a route path denote *)

Module Denotation.
Import RegExp.

(** The language of a regular expression. *)
Inductive Lang : regex -> string -> Prop :=
| lang_eps : Lang Eps ""
| lang_chr c : Lang (Chr c) (String c "")
| lang_dot c : line_terminator c = false -> Lang Dot (String c "")
| lang_class negated members c :
    xorb negated (member c members) = true ->
    Lang (Class negated members) (String c "")
| lang_cat r1 r2 s1 s2 : Lang r1 s1 -> Lang r2 s2 -> Lang (Cat r1 r2) (s1 +:+ s2)
| lang_alt_l r1 r2 s : Lang r1 s -> Lang (Alt r1 r2) s
| lang_alt_r r1 r2 s : Lang r2 s -> Lang (Alt r1 r2) s
| lang_star_nil r : Lang (Star r) ""
| lang_star_more r s1 s2 : Lang r s1 -> Lang (Star r) s2 -> Lang (Star r) (s1 +:+ s2).

(** Every character of [s] satisfies [ok]. *)
Fixpoint all_chars (ok : ascii -> bool) (s : string) : bool :=
  match s with
  | EmptyString => true
  | String c t => ok c && all_chars ok t
  end.

(** Every character of [s] is an ASCII one.  On ASCII text a character of
    the embedding is a code unit of the JavaScript string, and the line
    terminators are the line feed and the carriage return only. *)
Definition ascii_text (s : string) : bool :=
  all_chars (fun c => Nat.ltb (nat_of_ascii c) 128) s.

(** A route path read as the code treats it: a star, a bracketed parameter
    name, a dot, or a character that means itself. *)
Inductive RouteToken : Type :=
| TChar (c : ascii)
| TStar
| TDot
| TParam (name : string).

Definition tokenText (t : RouteToken) : string :=
  match t with
  | TChar c => String c ""
  | TStar => "*"
  | TDot => "."
  | TParam name => "[" +:+ name +:+ "]"
  end.

Fixpoint routeText (tokens : list RouteToken) : string :=
  match tokens with
  | [] => ""
  | t :: rest => tokenText t +:+ routeText rest
  end.

(** A literal token is not a syntax character of regular expressions; a
    parameter name is not empty and has no closing bracket. *)
Definition wellFormed (t : RouteToken) : bool :=
  match t with
  | TChar c => negb (syntax_character c)
  | TStar | TDot => true
  | TParam name =>
      negb (String.eqb name "") && all_chars (fun c => negb (Ascii.eqb c "]")) name
  end.

(** The path names a route path stands for: a star is any run of
    characters, a parameter any non-empty run without a slash, a dot any one
    character; no line terminator is matched by a star or a dot. *)
Inductive RouteMatches : list RouteToken -> string -> Prop :=
| rm_end : RouteMatches [] ""
| rm_char c rest s : RouteMatches rest s -> RouteMatches (TChar c :: rest) (String c s)
| rm_dot c rest s :
    line_terminator c = false ->
    RouteMatches rest s -> RouteMatches (TDot :: rest) (String c s)
| rm_star run rest s :
    all_chars (fun c => negb (line_terminator c)) run = true ->
    RouteMatches rest s -> RouteMatches (TStar :: rest) (run +:+ s)
| rm_param name run rest s :
    run <> "" ->
    all_chars (fun c => negb (Ascii.eqb c "/")) run = true ->
    RouteMatches rest s -> RouteMatches (TParam name :: rest) (run +:+ s).

(** The text the two replacements of [matchRoute] make of a route path. *)
Definition tokenSource (t : RouteToken) : string :=
  match t with
  | TChar c => String c ""
  | TStar => ".*"
  | TDot => "."
  | TParam _ => "([^/]+)"
  end.

Fixpoint routeSource (tokens : list RouteToken) : string :=
  match tokens with
  | [] => ""
  | t :: rest => tokenSource t +:+ routeSource rest
  end.

Definition notSlash : regex := Class true ["/"%char].

(** The regular expression that text compiles to. *)
Fixpoint routeRegex (tokens : list RouteToken) : regex :=
  match tokens with
  | [] => Eps
  | TChar c :: rest => Cat (Chr c) (routeRegex rest)
  | TStar :: rest => Cat (Star Dot) (routeRegex rest)
  | TDot :: rest => Cat Dot (routeRegex rest)
  | TParam _ :: rest =>
      Cat (Cat (Cat notSlash (Star notSlash)) Eps) (routeRegex rest)
  end.

(** Fuel that suffices to parse [routeSource tokens]. *)
Fixpoint fuelFor (tokens : list RouteToken) : nat :=
  match tokens with
  | [] => 1
  | TParam _ :: rest => S (Nat.max 3 (fuelFor rest))
  | _ :: rest => S (fuelFor rest)
  end.

End Denotation.

(** ** Route entries *)

(** The entry's method is the request's, upper-cased, or the wildcard. *)
Definition methodAllowed (method pattern : string) : Prop :=
  fst (splitPattern pattern) = toUpperCase method \/ fst (splitPattern pattern) = "*".

(** The loop of [matchRoute] returns at this entry. *)
Definition routeApplies (pathname method pattern : string) : Prop :=
  methodAllowed method pattern
  /\ routePathTest (snd (splitPattern pattern)) pathname = Some true.

(** The loop of [matchRoute] goes past this entry. *)
Definition routeSkipped (pathname method pattern : string) : Prop :=
  ~ methodAllowed method pattern
  \/ routePathTest (snd (splitPattern pattern)) pathname = Some false.

(** The route path whose every character stands for itself. *)
Fixpoint literalTokens (s : string) : list Denotation.RouteToken :=
  match s with
  | EmptyString => []
  | String c t => Denotation.TChar c :: literalTokens t
  end.

Module SampleRoutes.

Definition paid (p : string) : RoutePaymentConfig :=
  {| price := p; description := "metered"; useZkProof := None; bountyId := None |}.

(** Three pattern entries, none of them the exact key of a request. *)
Definition table : RoutesConfig :=
  [ ("GET /api/*", paid "1");
    ("POST /api/ai/[tool]", paid "2");
    ("* /api/ai/agent", paid "3") ].

(** The tokens of the route path "/api/bounties/[id]/*". *)
Definition bountyRoute : list Denotation.RouteToken :=
  literalTokens "/api/bounties/"
    ++ [Denotation.TParam "id"; Denotation.TChar "/"; Denotation.TStar].

End SampleRoutes.

(** ** The middleware's route *)

(** The configuration stored under "POST /api/ai/agent". *)
Definition agentRouteConfig : RoutePaymentConfig :=
  {| price := "0.001";
     description := "Run the AI agent to discover and complete bounties";
     useZkProof := Some true; bountyId := None |}.

(** The middleware enforces payment for this request: the mode is not
    development, the method is POST in any letter case and the path is
    exactly "/api/ai/agent". *)
Definition metered (env : MiddlewareEnv) (r : NextRequest) : Prop :=
  NODE_ENV env <> Some "development"
  /\ toUpperCase (mw_method r) = "POST"
  /\ mw_pathname r = "/api/ai/agent".

Module SampleMiddleware.
Import Sample SampleRequests.

Definition production : MiddlewareEnv :=
  {| NODE_ENV := Some "production"; CHAIN_ID := 31337;
     CONTRACT_ADDRESS := escrow; AGENT_WALLET := agent |}.

Definition incoming (method pathname : string) (request : Request) : NextRequest :=
  {| mw_request := request; mw_method := method; mw_pathname := pathname;
     mw_protocol := "https:"; mw_host := "monexus.test" |}.

(** A request without any payment header. *)
Definition bare : Request :=
  {| url := "https://monexus.test/api/ai/agent"; req_headers := ∅ |}.

End SampleMiddleware.

(** * Properties *)

(** ** Proof engine *)

Section ProofEngineFacts.
Context `{E : Ethers}.

Lemma signatureStep_rejects p :
  (forall a, proofMessage p ≫= (fun m => verifyMessage m (proof_signature (proof p)))
             = Normal a -> a = "" \/ a = ZeroAddress) ->
  zk_valid (signatureStep p) = false.
Proof.
  intros H. unfold signatureStep.
  destruct (proofMessage p ≫= _) as [a|e]; [|reflexivity].
  destruct (H a eq_refl) as [-> | ->]; reflexivity.
Qed.

Lemma verifyPaymentProof_fresh w p cid addr :
  chainId (publicInputs p) = cid ->
  toLowerCase (pi_contractAddress (publicInputs p)) = toLowerCase addr ->
  seconds (dateNow w) - proof_timestamp (proof p) <= 3600 ->
  proof_timestamp (proof p) <= seconds (dateNow w) + 60 ->
  verifyPaymentProof w p cid addr = signatureStep p.
Proof.
  intros Hc Ha Hold Hnew. unfold verifyPaymentProof, signatureStep.
  rewrite Hc, Z.eqb_refl, Ha, String.eqb_refl. cbn [negb].
  destruct (Z.gtb_spec (seconds (dateNow w) - proof_timestamp (proof p)) 3600); [lia|].
  destruct (Z.gtb_spec (proof_timestamp (proof p)) (seconds (dateNow w) + 60)); [lia|].
  unfold mbind, completion_bind, JS.bind, try_catch, truthy.
  destruct (proofMessage p) as [m|e]; [|reflexivity].
  destruct (verifyMessage m (proof_signature (proof p))) as [a|e]; [|reflexivity].
  rewrite negb_involutive.
  destruct (_ || _)%bool; reflexivity.
Qed.

End ProofEngineFacts.

Section ProofEngineOrder.
Context `{E : Ethers}.

Lemma signatureStep_valid p :
  zk_valid (signatureStep p) = true <->
  exists m a, proofMessage p = Normal m
              /\ verifyMessage m (proof_signature (proof p)) = Normal a
              /\ a <> "" /\ a <> ZeroAddress.
Proof.
  unfold signatureStep, mbind, completion_bind, JS.bind. split.
  - destruct (proofMessage p) as [m|e]; [|discriminate].
    destruct (verifyMessage m _) as [a|e] eqn:Hv; [|discriminate].
    destruct (String.eqb_spec a ""); [discriminate|].
    destruct (String.eqb_spec a ZeroAddress); [discriminate|].
    intros _. exists m, a. repeat split; assumption.
  - intros (m & a & -> & -> & Hn & Hz).
    destruct (String.eqb_spec a ""); [contradiction|].
    destruct (String.eqb_spec a ZeroAddress); [contradiction|]. reflexivity.
Qed.

(** C2: [verifyPaymentProof] checks, in this order and returning the first
    failure, (a) the chain id, (b) the contract address up to case, (c) that
    the proof is at most 3600 seconds old, (d) that its timestamp is at most
    60 seconds ahead, and (e) that a signer can be recovered from the
    signature over the rebuilt binding message and is neither empty nor the
    zero address.  A timestamp of now - 3601 is rejected as expired, now - 3599
    passes on to the signature step, and now + 61 is rejected as in the
    future. *)
Theorem verifyPaymentProof_check_order (w : World) (p : ZKPaymentProof)
    (cid : Z) (addr : string) :
  let now := seconds (dateNow w) in
  let ts := proof_timestamp (proof p) in
  let chain_ok := chainId (publicInputs p) = cid in
  let contract_ok :=
    toLowerCase (pi_contractAddress (publicInputs p)) = toLowerCase addr in
  let result := verifyPaymentProof w p cid addr in
  (~ chain_ok -> result = zk_reject "Chain ID mismatch") /\
  (chain_ok -> ~ contract_ok -> result = zk_reject "Contract address mismatch") /\
  (chain_ok -> contract_ok -> now - ts > 3600 -> result = zk_reject "Proof expired") /\
  (chain_ok -> contract_ok -> now - ts <= 3600 -> ts > now + 60 ->
   result = zk_reject "Proof timestamp in the future") /\
  (chain_ok -> contract_ok -> now - ts <= 3600 -> ts <= now + 60 ->
   result = signatureStep p) /\
  (zk_valid (signatureStep p) = true <->
   exists m a, proofMessage p = Normal m
               /\ verifyMessage m (proof_signature (proof p)) = Normal a
               /\ a <> "" /\ a <> ZeroAddress) /\
  (chain_ok -> contract_ok -> ts = now - 3601 -> result = zk_reject "Proof expired") /\
  (chain_ok -> contract_ok -> ts = now - 3599 -> result = signatureStep p) /\
  (chain_ok -> contract_ok -> ts = now + 61 ->
   result = zk_reject "Proof timestamp in the future").
Proof.
  intros now ts chain_ok contract_ok result.
  assert (Hchain : ~ chain_ok -> result = zk_reject "Chain ID mismatch").
  { intros H. subst result. unfold verifyPaymentProof.
    destruct (Z.eqb_spec (chainId (publicInputs p)) cid); [contradiction|reflexivity]. }
  assert (Hcontract : chain_ok -> ~ contract_ok ->
                      result = zk_reject "Contract address mismatch").
  { intros Hc H. subst result. unfold verifyPaymentProof.
    rewrite Hc, Z.eqb_refl.
    destruct (String.eqb_spec (toLowerCase (pi_contractAddress (publicInputs p)))
                              (toLowerCase addr)); [contradiction|reflexivity]. }
  assert (Hexpired : chain_ok -> contract_ok -> now - ts > 3600 ->
                     result = zk_reject "Proof expired").
  { intros Hc Ha H. subst result. unfold verifyPaymentProof.
    rewrite Hc, Z.eqb_refl, Ha, String.eqb_refl. cbn [negb].
    fold now ts. destruct (Z.gtb_spec (now - ts) 3600); [reflexivity|lia]. }
  assert (Hfuture : chain_ok -> contract_ok -> now - ts <= 3600 -> ts > now + 60 ->
                    result = zk_reject "Proof timestamp in the future").
  { intros Hc Ha Hold H. subst result. unfold verifyPaymentProof.
    rewrite Hc, Z.eqb_refl, Ha, String.eqb_refl. cbn [negb].
    fold now ts. destruct (Z.gtb_spec (now - ts) 3600); [lia|].
    destruct (Z.gtb_spec ts (now + 60)); [reflexivity|lia]. }
  assert (Hsig : chain_ok -> contract_ok -> now - ts <= 3600 -> ts <= now + 60 ->
                 result = signatureStep p).
  { intros. now apply verifyPaymentProof_fresh. }
  split; [exact Hchain|]. split; [exact Hcontract|]. split; [exact Hexpired|].
  split; [exact Hfuture|]. split; [exact Hsig|].
  split; [apply signatureStep_valid|].
  split; [|split].
  - intros; apply Hexpired; auto; lia.
  - intros; apply Hsig; auto; lia.
  - intros; apply Hfuture; auto; lia.
Qed.

End ProofEngineOrder.

Section ProofEngineRuns.
#[local] Existing Instance Sim.ethers.

(** The symbolic collaborators run C2 at the three boundary timestamps and at
    a wrong chain id and a wrong contract address. *)
Lemma verifyPaymentProof_check_order_witness :
  let w := Sample.world [] in
  let now := seconds (dateNow w) in
  let prove ts chain contract := Sample.signedProof Sample.alice ts chain contract in
  verifyPaymentProof w (prove now 31337 Sample.escrow) 1 Sample.escrow
    = zk_reject "Chain ID mismatch"
  /\ verifyPaymentProof w (prove now 31337 Sample.escrow) 31337 Sample.alice
    = zk_reject "Contract address mismatch"
  /\ verifyPaymentProof w (prove (now - 3601) 31337 Sample.escrow) 31337
       (toUpperCase Sample.escrow) = zk_reject "Proof expired"
  /\ zk_valid (verifyPaymentProof w (prove (now - 3599) 31337 Sample.escrow) 31337
       (toUpperCase Sample.escrow)) = true
  /\ verifyPaymentProof w (prove (now + 61) 31337 Sample.escrow) 31337
       (toUpperCase Sample.escrow) = zk_reject "Proof timestamp in the future".
Proof.
  intros w now prove.
  pose proof (fun ts chain contract cid addr =>
    verifyPaymentProof_check_order w (prove ts chain contract) cid addr) as H.
  cbv zeta in H.
  split; [|split; [|split; [|split]]].
  - apply (H now 31337 Sample.escrow 1 Sample.escrow). vm_compute. discriminate.
  - apply (H now 31337 Sample.escrow 31337 Sample.alice);
      vm_compute; [reflexivity|discriminate].
  - apply (H (now - 3601) 31337 Sample.escrow 31337 (toUpperCase Sample.escrow));
      vm_compute; reflexivity.
  - destruct (H (now - 3599) 31337 Sample.escrow 31337 (toUpperCase Sample.escrow))
      as (_ & _ & _ & _ & _ & _ & _ & Hs & _).
    rewrite Hs by (vm_compute; reflexivity). vm_compute. reflexivity.
  - apply (H (now + 61) 31337 Sample.escrow 31337 (toUpperCase Sample.escrow));
      vm_compute; reflexivity.
Defined.

End ProofEngineRuns.

(** ** Verification of a payment header *)

Section ProtocolFacts.
Context `{E : Ethers} `{W : Wire}.

Lemma verify_carried w request requirements cid p :
  carries request p ->
  verifyPaymentFromRequest w request requirements cid
  = try_catch (verifyDecoded w p requirements cid) verificationFailed.
Proof.
  intros (h & Hh & Hne & Hd). unfold verifyPaymentFromRequest.
  rewrite Hh. unfold present, truthy.
  destruct (String.eqb_spec h ""); [contradiction|]. simpl.
  rewrite Hd. reflexivity.
Qed.

Lemma verifyDecoded_envelope w p requirements cid paid :
  passesEnvelope w p requirements paid ->
  verifyDecoded w p requirements cid
  = schemeVerification w p requirements cid paid.
Proof.
  intros (Hv & Hs & (required & Hr & Hp & Hle) & Hfresh).
  unfold verifyDecoded. rewrite Hv, Hs. cbn [Z.eqb Pos.eqb negb].
  replace (Scheme_eqb (req_scheme requirements) (req_scheme requirements))
    with true by (destruct (req_scheme requirements); reflexivity).
  cbn [negb]. rewrite Hr, Hp. cbn [mbind completion_bind JS.bind].
  destruct (Z.ltb_spec paid required); [lia|].
  destruct (Z.gtb_spec (seconds (dateNow w) - timestamp (payload p)) 300); [lia|].
  reflexivity.
Qed.

Lemma Scheme_eqb_neq a b : a <> b -> Scheme_eqb a b = false.
Proof. destruct a, b; intros H; try reflexivity; contradiction. Qed.

(** C3: on a decoded payload [verifyPaymentFromRequest] rejects, the first
    failing check deciding the error, for a version other than 1, then for a
    scheme other than the required one, then for an amount below the required
    one (both in base units), then for a timestamp more than 300 seconds old;
    only a payload that passes all four reaches the scheme-specific checks. *)
Theorem verifyPaymentFromRequest_check_order (w : World) (request : Request)
    (requirements : PaymentRequirements) (cid : Z) (p : PaymentPayload) :
  carries request p ->
  let result := verifyPaymentFromRequest w request requirements cid in
  let age := seconds (dateNow w) - timestamp (payload p) in
  (x402Version p <> 1 -> result = invalid "Unsupported x402 version") /\
  (x402Version p = 1 -> scheme p <> req_scheme requirements ->
   result = invalid "Payment scheme mismatch") /\
  (forall required paid,
     x402Version p = 1 -> scheme p = req_scheme requirements ->
     parseEther (maxAmountRequired requirements) = Normal required ->
     parseEther (amount (payload p)) = Normal paid ->
     (paid < required -> result = invalid "Insufficient payment amount") /\
     (required <= paid -> age > 300 -> result = invalid "Payment expired") /\
     (required <= paid -> age <= 300 ->
      result = try_catch (schemeVerification w p requirements cid paid)
                         verificationFailed)).
Proof.
  intros Hc result age. subst result.
  rewrite (verify_carried _ _ _ _ _ Hc).
  split; [|split].
  - intros Hv. unfold verifyDecoded.
    destruct (Z.eqb_spec (x402Version p) 1); [contradiction|reflexivity].
  - intros Hv Hs. unfold verifyDecoded. rewrite Hv.
    rewrite (Scheme_eqb_neq _ _ Hs). reflexivity.
  - intros required paid Hv Hs Hr Hp. split; [|split].
    + intros Hlt. unfold verifyDecoded. rewrite Hv, Hs.
      replace (Scheme_eqb (req_scheme requirements) (req_scheme requirements))
        with true by (destruct (req_scheme requirements); reflexivity).
      cbn [Z.eqb Pos.eqb negb]. rewrite Hr, Hp.
      cbn [mbind completion_bind JS.bind].
      destruct (Z.ltb_spec paid required); [reflexivity|lia].
    + intros Hle Hage. unfold verifyDecoded. rewrite Hv, Hs.
      replace (Scheme_eqb (req_scheme requirements) (req_scheme requirements))
        with true by (destruct (req_scheme requirements); reflexivity).
      cbn [Z.eqb Pos.eqb negb]. rewrite Hr, Hp.
      cbn [mbind completion_bind JS.bind].
      destruct (Z.ltb_spec paid required); [lia|].
      fold age. destruct (Z.gtb_spec age 300); [reflexivity|lia].
    + intros Hle Hage. rewrite (verifyDecoded_envelope w p requirements cid paid).
      * reflexivity.
      * repeat split; eauto.
Qed.

End ProtocolFacts.

Section ProtocolRuns.
#[local] Existing Instance Sim.ethers.
Import SampleRequests.

Lemma carries_sample (p : PaymentPayload) :
  @carries (wireOf p) (requestWith "payment") p.
Proof.
  exists "payment". split; [reflexivity|]. split; [discriminate|].
  cbn. reflexivity.
Qed.

(** C3 on five payloads: a wrong version, a wrong scheme, too small an amount,
    too old a timestamp, and one that passes all four. *)
Lemma verifyPaymentFromRequest_check_order_witness :
  let w := Sample.world [] in
  let verify p s :=
    @verifyPaymentFromRequest _ (wireOf p) w (requestWith "payment")
      (requirements s) 31337 in
  let pay version s amt ts := paymentPayload version s (paymentData amt ts None None) in
  verify (pay 2 exact "0.001" now) exact = invalid "Unsupported x402 version"
  /\ verify (pay 1 exact "0.001" now) zk_exact = invalid "Payment scheme mismatch"
  /\ verify (pay 1 exact "0.0009" now) exact = invalid "Insufficient payment amount"
  /\ verify (pay 1 exact "0.001" (now - 301)) exact = invalid "Payment expired"
  /\ verify (pay 1 exact "0.001" (now - 300)) exact
     = accepted (pay 1 exact "0.001" (now - 300)).
Proof.
  intros w verify pay.
  pose proof (fun p s =>
    @verifyPaymentFromRequest_check_order _ (wireOf p) w (requestWith "payment")
      (requirements s) 31337 p (carries_sample p)) as H.
  cbv zeta in H.
  split; [|split; [|split; [|split]]].
  - apply (H (pay 2 exact "0.001" now) exact). vm_compute. discriminate.
  - apply (H (pay 1 exact "0.001" now) zk_exact);
      vm_compute; [reflexivity|discriminate].
  - destruct (H (pay 1 exact "0.0009" now) exact) as (_ & _ & Ha).
    apply (Ha (10 ^ 15) (9 * 10 ^ 14)); vm_compute; reflexivity.
  - destruct (H (pay 1 exact "0.001" (now - 301)) exact) as (_ & _ & Ha).
    apply (Ha (10 ^ 15) (10 ^ 15)); vm_compute; try reflexivity; discriminate.
  - destruct (H (pay 1 exact "0.001" (now - 300)) exact) as (_ & _ & Ha).
    destruct (Ha (10 ^ 15) (10 ^ 15)) as (_ & _ & Hs);
      [vm_compute; reflexivity ..|].
    unfold verify. rewrite Hs; vm_compute; try reflexivity; discriminate.
Defined.

End ProtocolRuns.

(** ** Scheme-specific verification *)

Section SchemeFacts.
Context `{E : Ethers} `{W : Wire}.

Lemma verify_envelope w request requirements cid p paid :
  carries request p -> passesEnvelope w p requirements paid ->
  verifyPaymentFromRequest w request requirements cid
  = try_catch (schemeVerification w p requirements cid paid) verificationFailed.
Proof.
  intros Hc Hp. rewrite (verify_carried _ _ _ _ _ Hc).
  rewrite (verifyDecoded_envelope _ _ _ _ _ Hp). reflexivity.
Qed.

Lemma zkExactCheck_exact w p requirements cid :
  scheme p = exact -> zkExactCheck w p requirements cid = None.
Proof. intros H. unfold zkExactCheck. rewrite H. reflexivity. Qed.

Lemma zkExactCheck_no_proof w p requirements cid :
  zkProof (payload p) = None -> zkExactCheck w p requirements cid = None.
Proof. intros H. unfold zkExactCheck. rewrite H. destruct (scheme p); reflexivity. Qed.

Lemma exactCheck_zk p paid :
  scheme p = zk_exact -> exactCheck p paid = Normal None.
Proof. intros H. unfold exactCheck. rewrite H. reflexivity. Qed.

Lemma exactCheck_unsigned p paid :
  present (signature (payload p)) = false -> exactCheck p paid = Normal None.
Proof.
  intros H. unfold exactCheck, or_else.
  destruct (signature (payload p)) as [s|]; cbn in H.
  - rewrite H. destruct (scheme p); reflexivity.
  - destruct (scheme p); reflexivity.
Qed.

(** C4, amended: an 'exact' payload that passes the version, scheme, amount
    and age checks and carries a non-empty signature is accepted exactly when
    the signer recovered from that signature over the hash of (sender, amount
    in base units, nonce, timestamp) is the sender, up to case; when the
    signature is absent or empty no signer is recovered and the payload is
    accepted. *)
Theorem exact_signature_binding (w : World) (request : Request)
    (requirements : PaymentRequirements) (cid : Z) (p : PaymentPayload) (paid : Z) :
  carries request p -> scheme p = exact ->
  passesEnvelope w p requirements paid ->
  let result := verifyPaymentFromRequest w request requirements cid in
  (forall sig, signature (payload p) = Some sig -> sig <> "" ->
     (valid result = true <->
      exists m a, exactMessage p paid = Normal m
                  /\ verifyMessage m sig = Normal a
                  /\ toLowerCase a = toLowerCase (sender (payload p))))
  /\ (present (signature (payload p)) = false -> result = accepted p).
Proof.
  intros Hc Hs Hp result. subst result.
  rewrite (verify_envelope _ _ _ _ _ _ Hc Hp).
  unfold schemeVerification. rewrite (zkExactCheck_exact _ _ _ _ Hs).
  split.
  - intros sig Hsig Hne.
    unfold exactCheck, or_else, truthy, mbind, completion_bind, JS.bind, try_catch.
    rewrite Hs, Hsig.
    destruct (String.eqb_spec sig ""); [contradiction|]. cbn [negb].
    destruct (exactMessage p paid) as [m|e] eqn:Hm.
    + destruct (verifyMessage m sig) as [a|e] eqn:Ha.
      * destruct (String.eqb_spec (toLowerCase a) (toLowerCase (sender (payload p))))
          as [Heq|Hneq]; cbn.
        -- split; [intros _; exists m, a; auto | reflexivity].
        -- split; [discriminate|].
           intros (m' & a' & Hm' & Ha' & Heq).
           injection Hm' as <-. rewrite Ha in Ha'. injection Ha' as <-.
           contradiction.
      * split; [discriminate|].
        intros (m' & a' & Hm' & Ha' & _).
        injection Hm' as <-. rewrite Ha in Ha'. discriminate.
    + split; [discriminate|]. intros (m' & a' & Hm' & _). discriminate.
  - intros Hu. rewrite (exactCheck_unsigned _ _ Hu). reflexivity.
Qed.

(** C9: a payload of version 1 with the required scheme, a sufficient amount
    and a fresh timestamp is accepted when it is 'zk-exact' without a [zkProof]
    or 'exact' without a signature: whatever [abiEncode], [keccak256] and
    [verifyMessage] would answer and whichever nullifiers are recorded as
    used, since neither branch runs. *)
Theorem unproven_payload_accepted (w : World) (request : Request)
    (requirements : PaymentRequirements) (cid : Z) (p : PaymentPayload) (paid : Z) :
  carries request p ->
  passesEnvelope w p requirements paid ->
  (scheme p = zk_exact /\ zkProof (payload p) = None)
  \/ (scheme p = exact /\ present (signature (payload p)) = false) ->
  verifyPaymentFromRequest w request requirements cid = accepted p
  /\ forall used,
       verifyPaymentFromRequest
         {| usedNullifiers := used; dateNow := dateNow w |} request requirements cid
       = accepted p.
Proof.
  intros Hc Hp Hcase.
  assert (Hany : forall w', dateNow w' = dateNow w ->
            verifyPaymentFromRequest w' request requirements cid = accepted p).
  { intros w' Hw.
    assert (Hp' : passesEnvelope w' p requirements paid).
    { unfold passesEnvelope in *. rewrite Hw. exact Hp. }
    rewrite (verify_envelope _ _ _ _ _ _ Hc Hp'). unfold schemeVerification.
    destruct Hcase as [[Hs Hz] | [Hs Hu]].
    - rewrite (zkExactCheck_no_proof _ _ _ _ Hz), (exactCheck_zk _ _ Hs). reflexivity.
    - rewrite (zkExactCheck_exact _ _ _ _ Hs), (exactCheck_unsigned _ _ Hu). reflexivity. }
  split; [apply Hany; reflexivity|].
  intros used. apply Hany. reflexivity.
Qed.

End SchemeFacts.

Section SchemeRuns.
Import SampleRequests.

Lemma passesEnvelope_sample (E : Ethers) (s : Scheme) (d : PaymentData) :
  @parseEther E "0.001" = Normal (10 ^ 15) ->
  amount d = "0.001" -> now - timestamp d <= 300 ->
  @passesEnvelope E (Sample.world []) (paymentPayload 1 s d) (requirements s) (10 ^ 15).
Proof.
  intros Hparse Ha Hfresh. split; [reflexivity|]. split; [reflexivity|].
  split; [|exact Hfresh].
  exists (10 ^ 15). cbn [maxAmountRequired requirements payload paymentPayload].
  rewrite Ha. split; [exact Hparse|]. split; [exact Hparse|]. lia.
Qed.

(** C4 fails as worded: the unsigned 'exact' payment is accepted although it
    has no signature from which a signer could be recovered. *)
Lemma unsigned_exact_accepted :
  ~ @exact_accept_means_signed_by_sender Sim.ethers (wireOf unsignedExact).
Proof.
  intros H.
  destruct (H (Sample.world []) (requestWith "payment") (requirements exact) 31337
              unsignedExact (10 ^ 15))
    as (sig & _ & _ & Hsig & _).
  - apply carries_sample.
  - reflexivity.
  - apply passesEnvelope_sample; vm_compute; try reflexivity; discriminate.
  - vm_compute. reflexivity.
  - discriminate Hsig.
Qed.

(** C4 amended, run on a payment signed by its sender and on an unsigned one. *)
Lemma exact_signature_binding_witness :
  let w := Sample.world [] in
  let signed := signedBy Sample.alice unsignedExact (10 ^ 15) in
  valid (@verifyPaymentFromRequest Sim.ethers (wireOf signed) w
           (requestWith "payment") (requirements exact) 31337) = true
  /\ @verifyPaymentFromRequest Sim.ethers (wireOf unsignedExact) w
       (requestWith "payment") (requirements exact) 31337
     = accepted unsignedExact.
Proof.
  intros w signed. split.
  - destruct (@exact_signature_binding Sim.ethers (wireOf signed) w
                (requestWith "payment") (requirements exact) 31337 signed (10 ^ 15))
      as [Hsigned _].
    + apply carries_sample.
    + reflexivity.
    + apply passesEnvelope_sample; vm_compute; try reflexivity; discriminate.
    + cbv zeta in Hsigned.
      eapply Hsigned; [vm_compute; reflexivity | discriminate |].
      eexists _, Sample.alice.
      split; [vm_compute; reflexivity|]. split; vm_compute; reflexivity.
  - apply (@exact_signature_binding Sim.ethers (wireOf unsignedExact) w
             (requestWith "payment") (requirements exact) 31337 unsignedExact
             (10 ^ 15)).
    + apply carries_sample.
    + reflexivity.
    + apply passesEnvelope_sample; vm_compute; try reflexivity; discriminate.
    + reflexivity.
Defined.

(** C9 run with collaborators that cannot encode or recover anything: the
    proof-less 'zk-exact' payment and the unsigned 'exact' payment are both
    accepted. *)
Lemma unproven_payload_accepted_witness :
  @verifyPaymentFromRequest Sim.refusing (wireOf unprovenZk) (Sample.world [])
    (requestWith "payment") (requirements zk_exact) 31337 = accepted unprovenZk
  /\ @verifyPaymentFromRequest Sim.refusing (wireOf unsignedExact) (Sample.world [])
       (requestWith "payment") (requirements exact) 31337 = accepted unsignedExact.
Proof.
  split.
  - apply (@unproven_payload_accepted Sim.refusing (wireOf unprovenZk)
             (Sample.world []) (requestWith "payment") (requirements zk_exact)
             31337 unprovenZk (10 ^ 15)).
    + apply carries_sample.
    + apply passesEnvelope_sample; vm_compute; try reflexivity; discriminate.
    + left. split; reflexivity.
  - apply (@unproven_payload_accepted Sim.refusing (wireOf unsignedExact)
             (Sample.world []) (requestWith "payment") (requirements exact)
             31337 unsignedExact (10 ^ 15)).
    + apply carries_sample.
    + apply passesEnvelope_sample; vm_compute; try reflexivity; discriminate.
    + right. split; reflexivity.
Defined.

End SchemeRuns.

(** ** What the proof signature binds *)

Section SignerFacts.
Context `{E : Ethers}.
Context {Key : Type}.
(** A wallet: [sign k digest] is the signature of key [k] over [digest], and
    [address k] the address recovered from such a signature. *)
Variable sign : Key -> string -> string.
Variable address : Key -> string.
Hypothesis recover_sign :
  forall k digest, verifyMessage digest (sign k digest) = Normal (address k).
Hypothesis address_nonzero : forall k, address k <> "" /\ address k <> ZeroAddress.

(** C10: [verifyPaymentProof] asks only that some signer be recovered from the
    signature over the rebuilt binding message.  Whatever the commitment, the
    nullifier and the three hashes are, and whoever holds the key, a proof
    signed over its own binding message is valid once the chain id and the
    contract address match and the timestamp is in the window; the result
    repeats the proof's commitment and nullifier unchecked. *)
Theorem any_signer_verifies (k : Key) (w : World) (p : ZKPaymentProof)
    (cid : Z) (addr m : string) :
  chainId (publicInputs p) = cid ->
  toLowerCase (pi_contractAddress (publicInputs p)) = toLowerCase addr ->
  seconds (dateNow w) - proof_timestamp (proof p) <= 3600 ->
  proof_timestamp (proof p) <= seconds (dateNow w) + 60 ->
  proofMessage p = Normal m ->
  proof_signature (proof p) = sign k m ->
  verifyPaymentProof w p cid addr
  = {| zk_valid := true; zk_error := None;
       zk_commitment := Some (commitment p); zk_nullifier := Some (nullifier p) |}.
Proof.
  intros Hc Ha Hold Hnew Hm Hsig.
  rewrite (verifyPaymentProof_fresh w p cid addr Hc Ha Hold Hnew).
  unfold signatureStep. rewrite Hm, Hsig.
  cbn [mbind completion_bind JS.bind]. rewrite recover_sign.
  destruct (address_nonzero k) as [Hn Hz].
  destruct (String.eqb_spec (address k) ""); [contradiction|].
  destruct (String.eqb_spec (address k) ZeroAddress); [contradiction|].
  reflexivity.
Qed.

End SignerFacts.

Section SignerRuns.
#[local] Existing Instance Sim.ethers.

Lemma sim_recover_sign digest :
  Sim.verifyMessage digest (Sim.signMessage Sample.agent digest) = Normal Sample.agent.
Proof.
  unfold Sim.verifyMessage, Sim.signMessage, Sample.agent. simpl.
  rewrite String.eqb_refl. reflexivity.
Qed.

Lemma agent_nonzero : Sample.agent <> "" /\ Sample.agent <> ZeroAddress.
Proof. split; discriminate. Qed.

(** C10 run: a proof whose fields are arbitrary constants, signed by the
    agent's key, verifies. *)
Lemma any_signer_verifies_witness :
  zk_valid (verifyPaymentProof (Sample.world [])
              (Sample.signedProof Sample.agent SampleRequests.now 31337 Sample.escrow)
              31337 (toLowerCase Sample.escrow)) = true.
Proof.
  set (p := Sample.signedProof Sample.agent SampleRequests.now 31337 Sample.escrow).
  destruct (proofMessage p) as [m|e] eqn:Hm; [|vm_compute in Hm; discriminate].
  assert (Hsig : proof_signature (proof p) = Sim.signMessage Sample.agent m).
  { vm_compute in Hm. injection Hm as <-. vm_compute. reflexivity. }
  pose proof (any_signer_verifies (E := Sim.ethers) (Key := unit)
             (fun _ => Sim.signMessage Sample.agent) (fun _ => Sample.agent)
             (fun _ => sim_recover_sign)
             (fun _ => agent_nonzero)
             tt (Sample.world []) p 31337 (toLowerCase Sample.escrow) m) as H.
  rewrite H.
  - reflexivity.
  - reflexivity.
  - vm_compute. reflexivity.
  - vm_compute. discriminate.
  - vm_compute. discriminate.
  - exact Hm.
  - exact Hsig.
Defined.

End SignerRuns.

(** ** The wrapper: rejections *)

Section WrapperFacts.
Context `{E : Ethers} `{W : Wire}.

Lemma FailureReason_nonempty reason : FailureReason reason -> reason <> "".
Proof. intros H. destruct H; discriminate. Qed.

Lemma zkExactCheck_reason w p requirements cid v :
  zkExactCheck w p requirements cid = Some v ->
  valid v = false /\ exists reason, error v = Some reason /\ FailureReason reason.
Proof.
  unfold zkExactCheck.
  destruct (scheme p); [discriminate|].
  destruct (zkProof (payload p)) as [zk|]; [|discriminate].
  destruct (zk_valid _).
  - cbn [negb]. destruct (isNullifierUsed _ _); [|discriminate].
    intros [= <-]. split; [reflexivity|]. eexists. split; [reflexivity|]. constructor.
  - cbn [negb]. intros [= <-]. split; [reflexivity|].
    eexists. split; [reflexivity|]. constructor.
Qed.

Lemma exactCheck_reason p paid v :
  exactCheck p paid = Normal (Some v) ->
  valid v = false /\ exists reason, error v = Some reason /\ FailureReason reason.
Proof.
  unfold exactCheck.
  destruct (scheme p); [|discriminate].
  destruct (or_else _ _) as [sig|]; [|discriminate].
  unfold mbind, completion_bind, JS.bind.
  destruct (exactMessage p paid) as [m|e]; [|discriminate].
  destruct (verifyMessage m sig) as [a|e]; [|discriminate].
  destruct (negb _); [|discriminate].
  intros [= <-]. split; [reflexivity|]. eexists. split; [reflexivity|]. constructor.
Qed.

(** Whatever a verification returns is either an acceptance of the decoded
    payload or a rejection carrying one of the listed reasons. *)
Lemma verification_outcome w request requirements cid :
  let v := verifyPaymentFromRequest w request requirements cid in
  (valid v = true /\ exists p, verified_payload v = Some p)
  \/ (valid v = false /\ exists reason, error v = Some reason /\ FailureReason reason).
Proof.
  cbv zeta. unfold verifyPaymentFromRequest.
  set (h := or_else _ _). clearbody h.
  destruct (present h); cbn [negb];
    [|right; split; [reflexivity|eexists; split; [reflexivity|constructor]]].
  unfold mbind, completion_bind, JS.bind, try_catch.
  destruct (decodePaymentPayload _) as [p|e];
    [|right; split; [reflexivity|eexists; split; [reflexivity|constructor]]].
  unfold verifyDecoded.
  destruct (negb (x402Version p =? 1));
    [right; split; [reflexivity|eexists; split; [reflexivity|constructor]]|].
  destruct (negb (Scheme_eqb _ _));
    [right; split; [reflexivity|eexists; split; [reflexivity|constructor]]|].
  unfold mbind, completion_bind, JS.bind.
  destruct (parseEther (maxAmountRequired requirements)) as [required|e];
    [|right; split; [reflexivity|eexists; split; [reflexivity|constructor]]].
  destruct (parseEther (amount (payload p))) as [paid|e];
    [|right; split; [reflexivity|eexists; split; [reflexivity|constructor]]].
  destruct (paid <? required);
    [right; split; [reflexivity|eexists; split; [reflexivity|constructor]]|].
  destruct (_ >? 300);
    [right; split; [reflexivity|eexists; split; [reflexivity|constructor]]|].
  unfold schemeVerification.
  destruct (zkExactCheck w p requirements cid) as [v|] eqn:Hz.
  - right. exact (zkExactCheck_reason _ _ _ _ _ Hz).
  - unfold mbind, completion_bind, JS.bind.
    destruct (exactCheck p paid) as [[v|]|e] eqn:Hx.
    + right. exact (exactCheck_reason _ _ _ Hx).
    + left. split; [reflexivity|]. eexists. reflexivity.
    + right. split; [reflexivity|]. eexists. split; [reflexivity|constructor].
Qed.

Lemma payment_required_header requirements message :
  headers_get "PAYMENT-REQUIRED"
    (headers (createPaymentRequiredResponse requirements message))
  = Some (encodePaymentRequired requirements).
Proof.
  unfold createPaymentRequiredResponse, headers_get, headers_set. cbn [headers].
  change (toLowerCase "PAYMENT-REQUIRED") with "payment-required".
  change (toLowerCase "Content-Type") with "content-type".
  rewrite lookup_insert_ne by discriminate.
  apply lookup_insert_eq.
Qed.

(** C6: when verification fails, for whichever of the listed reasons,
    [withX402Payment] answers with status 402, the body
    [{x402Version: 1, error: reason, accepts: [requirements]}] and the header
    PAYMENT-REQUIRED holding the base64 of the JSON of [[requirements]]; the
    answer is a response, not an exception, it is the same whatever the
    handler is, and the world is left as it was: the handler does not run. *)
Theorem verification_failure_is_402 (handler : Handler) (config : X402Config)
    (request : Request) (w : World) :
  let requirements := requirementsFor config request in
  let verification :=
    verifyPaymentFromRequest w request requirements (cfg_chainId config) in
  valid verification = false ->
  exists reason response,
    error verification = Some reason /\ FailureReason reason
    /\ withX402Payment handler config request w = (Normal response, w)
    /\ status response = 402
    /\ body response
       = Json.stringify
           (Json.JObj [ ("x402Version", Json.JNum 1);
                        ("error", Json.JStr reason);
                        ("accepts", Json.JArr [json_of_requirements requirements]) ])
    /\ headers_get "PAYMENT-REQUIRED" (headers response)
       = Some (Base64.encode
                 (Json.stringify (Json.JArr [json_of_requirements requirements])))
    /\ forall other : Handler,
         withX402Payment other config request w = (Normal response, w).
Proof.
  intros requirements verification Hinvalid.
  destruct (verification_outcome w request requirements (cfg_chainId config))
    as [[Hv _] | [_ (reason & Hreason & Hkind)]].
  { fold verification in Hv. congruence. }
  fold verification in Hreason.
  exists reason, (createPaymentRequiredResponse [requirements] (Some reason)).
  assert (Hrun : forall h : Handler, withX402Payment h config request w
            = (Normal (createPaymentRequiredResponse [requirements] (Some reason)), w)).
  { intros h. unfold withX402Payment. fold requirements. fold verification.
    rewrite Hinvalid, Hreason. reflexivity. }
  split; [exact Hreason|]. split; [exact Hkind|]. split; [apply Hrun|].
  split; [reflexivity|]. split.
  - unfold createPaymentRequiredResponse, paymentRequiredBody, or_else, truthy.
    cbn [body].
    destruct (String.eqb_spec reason "") as [Heq|_];
      [exact (False_ind _ (FailureReason_nonempty _ Hkind Heq))|].
    reflexivity.
  - split; [apply payment_required_header | exact Hrun].
Qed.

End WrapperFacts.

Section WrapperRuns.
#[local] Existing Instance Sim.ethers.
Import SampleRequests.

(** C6 run: a request whose payment header is not JSON gets a 402 and the
    handler, which would throw and clear the nullifier set, is not run. *)
Lemma verification_failure_is_402_witness :
  let w := Sample.world ["0x0a"] in
  exists response,
    @withX402Payment _ (Sim.wire []) crashingHandler agentRoute
      (requestWith "not json") w = (Normal response, w)
    /\ status response = 402.
Proof.
  intros w.
  destruct (@verification_failure_is_402 _ (Sim.wire []) crashingHandler agentRoute
              (requestWith "not json") w)
    as (reason & response & _ & _ & Hrun & Hstatus & _).
  - vm_compute. reflexivity.
  - exists response. split; assumption.
Defined.

End WrapperRuns.

(** ** Settlement *)

Section SettlementFacts.
Context `{E : Ethers} `{W : Wire}.

Lemma settlePayment_world p requirements signer w :
  snd (settlePayment p requirements signer w)
  = match scheme p, zkProof (payload p) with
    | zk_exact, Some zk => markNullifierUsed (nullifier zk) w
    | _, _ => w
    end.
Proof. reflexivity. Qed.

Lemma settlePayment_clock p requirements signer w :
  dateNow (snd (settlePayment p requirements signer w)) = dateNow w.
Proof.
  rewrite settlePayment_world.
  destruct (scheme p), (zkProof (payload p)); reflexivity.
Qed.

(** Without a signer the result is the off-chain one, which fails exactly
    when the nonce cannot be printed. *)
Lemma settlePayment_without_signer p requirements w :
  fst (settlePayment p requirements None w)
  = match ToString (nonce (payload p)) with
    | Normal n =>
        {| success := true; txHash := None;
           receipt := Some ("offchain:" +:+ n +:+ ":" +:+ Json.decimal (dateNow w));
           settle_error := None |}
    | Throw e => settlementFailed e
    end.
Proof.
  unfold settlePayment, offchainSettlement. cbn [fst].
  unfold mbind, completion_bind, JS.bind, try_catch.
  destruct (ToString _); [|reflexivity].
  destruct (scheme p), (zkProof (payload p)); reflexivity.
Qed.

Lemma offchainSettlement_failure w p :
  success (try_catch (offchainSettlement w p) settlementFailed) = false ->
  exists e, try_catch (offchainSettlement w p) settlementFailed = settlementFailed e.
Proof.
  unfold offchainSettlement, mbind, completion_bind, JS.bind, try_catch.
  destruct (ToString _) as [n|e]; [discriminate|].
  intros _. exists e. reflexivity.
Qed.

Lemma settlePayment_failure p requirements signer w :
  success (fst (settlePayment p requirements signer w)) = false ->
  exists e, fst (settlePayment p requirements signer w) = settlementFailed e.
Proof.
  unfold settlePayment. cbn [fst].
  set (w1 := match scheme p with exact => _ | zk_exact => _ end). clearbody w1.
  destruct signer as [signer|]; [|exact (offchainSettlement_failure w1 p)].
  destruct (present _); [|exact (offchainSettlement_failure w1 p)].
  unfold mbind, completion_bind, JS.bind, try_catch.
  destruct (parseEther _) as [value|e]; [|intros _; exists e; reflexivity].
  destruct (sendTransaction _ _ _) as [tx|e]; [|intros _; exists e; reflexivity].
  destruct (tx_wait tx) as [r|e]; [discriminate|intros _; exists e; reflexivity].
Qed.

Lemma settlePayment_transfer_fails p requirements signer w value e :
  present (req_contractAddress requirements) = true ->
  parseEther (amount (payload p)) = Normal value ->
  transferFails signer (payTo requirements) value e ->
  fst (settlePayment p requirements (Some signer) w) = settlementFailed e.
Proof.
  intros Hc Hv Hf. unfold settlePayment. cbn [fst]. rewrite Hc, Hv.
  unfold mbind, completion_bind, JS.bind, try_catch.
  destruct Hf as [-> | (tx & -> & ->)]; reflexivity.
Qed.

Lemma attachSettlement_status_body response settlement :
  status (attachSettlement response settlement) = status response
  /\ body (attachSettlement response settlement) = body response.
Proof. unfold attachSettlement. destruct (success settlement); split; reflexivity. Qed.

(** What [withX402Payment] answers once the payment is accepted and the
    handler has responded. *)
Lemma withX402Payment_accepted handler config request w w1 response p :
  verifyPaymentFromRequest w request (requirementsFor config request)
    (cfg_chainId config) = accepted p ->
  handler request w = (Normal response, w1) ->
  withX402Payment handler config request w
  = (Normal (fst (afterHandler p (requirementsFor config request) response w1)),
     snd (afterHandler p (requirementsFor config request) response w1)).
Proof.
  intros Hv Hh. unfold withX402Payment. rewrite Hv, Hh.
  cbn [negb valid accepted verified_payload].
  destruct (afterHandler p _ response w1). reflexivity.
Qed.

(** C5, amended: a failed settlement is not reported to the caller.  After
    an accepted payment [withX402Payment] answers with the handler's status
    and body whatever the settlement does.  When the handler's status is
    below 400 the payment is settled, without a signer: the PAYMENT-RESPONSE
    header is set, to the encoded settlement, when the settlement
    succeeded, and after a failed one the handler's response is returned as
    it is, headers included.  The settlement fails exactly when the nonce of
    the payload cannot be printed into the receipt. *)
Theorem failed_settlement_not_surfaced (handler : Handler) (config : X402Config)
    (request : Request) (w w1 : World) (response : Response) (p : PaymentPayload) :
  verifyPaymentFromRequest w request (requirementsFor config request)
    (cfg_chainId config) = accepted p ->
  handler request w = (Normal response, w1) ->
  let settlement :=
    fst (settlePayment p (requirementsFor config request) None w1) in
  exists answered,
    fst (withX402Payment handler config request w) = Normal answered
    /\ status answered = status response
    /\ body answered = body response
    /\ (status response < 400 -> success settlement = false ->
        answered = response)
    /\ (status response < 400 -> success settlement = true ->
        headers_get "PAYMENT-RESPONSE" (headers answered)
        = Some (encodeSettlementResponse settlement))
    /\ (success settlement = false
        <-> exists e, ToString (nonce (payload p)) = Throw e
                      /\ settlement = settlementFailed e).
Proof.
  intros Hv Hh settlement.
  rewrite (withX402Payment_accepted _ _ _ _ _ _ _ Hv Hh). cbn [fst].
  eexists. split; [reflexivity|].
  assert (Hfails : success settlement = false
                   <-> exists e, ToString (nonce (payload p)) = Throw e
                                 /\ settlement = settlementFailed e).
  { subst settlement. rewrite settlePayment_without_signer.
    destruct (ToString (nonce (payload p))) as [n|e].
    - split; [discriminate|]. intros (e & He & _). discriminate.
    - split; [|reflexivity]. intros _. exists e. split; reflexivity. }
  unfold afterHandler.
  destruct (Z.ltb_spec (status response) 400) as [Hlt|Hge].
  - destruct (settlePayment p (requirementsFor config request) None w1) as [s w2].
    subst settlement. cbn [fst] in *.
    split; [apply attachSettlement_status_body|].
    split; [apply attachSettlement_status_body|].
    split; [|split; [|exact Hfails]].
    + intros _ Hfail. unfold attachSettlement. rewrite Hfail. reflexivity.
    + intros _ Hok. unfold attachSettlement, headers_get, headers_set.
      rewrite Hok. cbn [headers]. apply lookup_insert_eq.
  - cbn [fst].
    split; [reflexivity|]. split; [reflexivity|].
    split; [intros; lia|]. split; [intros; lia|exact Hfails].
Qed.

End SettlementFacts.

Section SettlementRuns.
#[local] Existing Instance Sim.ethers.
Import SampleRequests SampleRuns.

(** The payment whose nonce is an object passes verification: it is an
    'exact' payload without a signature, and nothing looks at the nonce. *)
Lemma opaqueNonce_accepted :
  @verifyPaymentFromRequest _ (wireOf opaqueNonce) (Sample.world [])
    (requestWith "payment") (requirementsFor exactRoute (requestWith "payment"))
    (cfg_chainId exactRoute)
  = accepted opaqueNonce.
Proof. vm_compute. reflexivity. Qed.

(** C5 fails as worded.  A request pays with a payload whose nonce is the
    object [{"toString": null}].  The payment is accepted and the handler
    answers 200; the settlement that follows fails, because the nonce cannot
    be printed into the receipt; and the wrapper returns the handler's
    response without a PAYMENT-RESPONSE header. *)
Lemma failed_settlement_has_no_header :
  let requirements := requirementsFor exactRoute (requestWith "payment") in
  fst (settlePayment opaqueNonce requirements None (Sample.world []))
  = settlementFailed "Cannot convert object to primitive value"
  /\ @withX402Payment _ (wireOf opaqueNonce) okHandler exactRoute
       (requestWith "payment") (Sample.world [])
     = (Normal ok200, Sample.world [])
  /\ headers_get "PAYMENT-RESPONSE" (headers ok200) = None
  /\ ~ @settlement_failure_surfaced _ (wireOf opaqueNonce).
Proof.
  intros requirements.
  assert (Hs : fst (settlePayment opaqueNonce requirements None (Sample.world []))
               = settlementFailed "Cannot convert object to primitive value")
    by reflexivity.
  assert (Hrun : @withX402Payment _ (wireOf opaqueNonce) okHandler exactRoute
                   (requestWith "payment") (Sample.world [])
                 = (Normal ok200, Sample.world [])).
  { rewrite (@withX402Payment_accepted _ (wireOf opaqueNonce) okHandler exactRoute
               (requestWith "payment") (Sample.world []) (Sample.world []) ok200
               opaqueNonce opaqueNonce_accepted eq_refl).
    reflexivity. }
  split; [exact Hs|]. split; [exact Hrun|]. split; [reflexivity|].
  intros H.
  destruct (H okHandler exactRoute (requestWith "payment") (Sample.world [])
              (Sample.world []) ok200 opaqueNonce opaqueNonce_accepted eq_refl)
    as (answered & Hanswer & Hheader & _).
  - reflexivity.
  - reflexivity.
  - rewrite Hrun in Hanswer. cbn [fst] in Hanswer. injection Hanswer as <-.
    vm_compute in Hheader. discriminate Hheader.
Qed.

(** C5 amended, run on that request: the answer is the handler's response,
    as it is. *)
Lemma failed_settlement_not_surfaced_witness :
  fst (@withX402Payment _ (wireOf opaqueNonce) okHandler exactRoute
         (requestWith "payment") (Sample.world []))
  = Normal ok200.
Proof.
  destruct (@failed_settlement_not_surfaced _ (wireOf opaqueNonce) okHandler
              exactRoute (requestWith "payment") (Sample.world []) (Sample.world [])
              ok200 opaqueNonce opaqueNonce_accepted eq_refl)
    as (answered & Hanswer & _ & _ & Hfailed & _).
  rewrite Hanswer. f_equal. apply Hfailed.
  - reflexivity.
  - reflexivity.
Defined.

End SettlementRuns.

(** ** The nullifier ledger *)

Section LedgerFacts.
Context `{E : Ethers} `{W : Wire}.

Lemma markNullifierUsed_spec n m w :
  m ∈ usedNullifiers (markNullifierUsed n w) <-> m = n \/ m ∈ usedNullifiers w.
Proof. unfold markNullifierUsed. cbn. set_solver. Qed.

Lemma isNullifierUsed_true n w : n ∈ usedNullifiers w -> isNullifierUsed n w = true.
Proof. intros H. unfold isNullifierUsed. apply bool_decide_eq_true. exact H. Qed.

Lemma settlePayment_marks p requirements signer w zk :
  scheme p = zk_exact -> zkProof (payload p) = Some zk ->
  nullifier zk ∈ usedNullifiers (snd (settlePayment p requirements signer w)).
Proof.
  intros Hs Hz. rewrite settlePayment_world, Hs, Hz.
  apply markNullifierUsed_spec. left. reflexivity.
Qed.

(** The proof branch on a payload whose nullifier is used: an early return,
    with the nullifier-spent error when the proof itself verifies. *)
Lemma zkExactCheck_spent w p requirements cid zk :
  scheme p = zk_exact -> zkProof (payload p) = Some zk ->
  nullifier zk ∈ usedNullifiers w ->
  exists v, zkExactCheck w p requirements cid = Some v
            /\ valid v = false
            /\ (zk_valid (verifyPaymentProof w zk cid
                  (default "" (or_else (req_contractAddress requirements) None)))
                = true ->
                v = invalid "Payment already used (nullifier spent)").
Proof.
  intros Hs Hz Hu. unfold zkExactCheck. rewrite Hs, Hz.
  destruct (zk_valid _); cbn [negb].
  - rewrite (isNullifierUsed_true _ _ Hu). eexists. repeat split; reflexivity.
  - eexists. split; [reflexivity|]. split; [reflexivity|discriminate].
Qed.

Lemma spent_nullifier_rejected w request requirements cid p zk :
  carries request p -> scheme p = zk_exact ->
  zkProof (payload p) = Some zk ->
  nullifier zk ∈ usedNullifiers w ->
  valid (verifyPaymentFromRequest w request requirements cid) = false.
Proof.
  intros Hc Hs Hz Hu. rewrite (verify_carried _ _ _ _ _ Hc).
  unfold verifyDecoded.
  destruct (negb (x402Version p =? 1)); [reflexivity|].
  destruct (negb (Scheme_eqb _ _)); [reflexivity|].
  unfold mbind, completion_bind, JS.bind.
  destruct (parseEther (maxAmountRequired requirements)); [|reflexivity].
  destruct (parseEther (amount (payload p))) as [paid|]; [|reflexivity].
  destruct (paid <? _); [reflexivity|].
  destruct (_ >? 300); [reflexivity|].
  unfold schemeVerification.
  destruct (zkExactCheck_spent w p requirements cid zk Hs Hz Hu) as (v & -> & Hv & _).
  exact Hv.
Qed.

Lemma spent_nullifier_reported w request requirements cid p zk paid :
  carries request p -> scheme p = zk_exact ->
  zkProof (payload p) = Some zk ->
  nullifier zk ∈ usedNullifiers w ->
  passesEnvelope w p requirements paid ->
  zk_valid (verifyPaymentProof w zk cid
              (default "" (or_else (req_contractAddress requirements) None))) = true ->
  verifyPaymentFromRequest w request requirements cid
  = invalid "Payment already used (nullifier spent)".
Proof.
  intros Hc Hs Hz Hu Hp Hzk. rewrite (verify_envelope _ _ _ _ _ _ Hc Hp).
  unfold schemeVerification.
  destruct (zkExactCheck_spent w p requirements cid zk Hs Hz Hu) as (v & -> & _ & Hv).
  rewrite (Hv Hzk). reflexivity.
Qed.

(** C7: [settlePayment] records the nullifier of a 'zk-exact' payload before
    it attempts the transfer.  So the nullifier is recorded whatever the
    outcome; when the transfer fails the result is [success = false] with the
    error "Settlement failed: ..."; and any later presentation of a payload
    with that nullifier is rejected. *)
Theorem nullifier_marked_before_transfer (p : PaymentPayload)
    (requirements : PaymentRequirements) (signer : option Signer) (w : World)
    (zk : ZKPaymentProof) :
  scheme p = zk_exact -> zkProof (payload p) = Some zk ->
  let settlement := fst (settlePayment p requirements signer w) in
  let w1 := snd (settlePayment p requirements signer w) in
  nullifier zk ∈ usedNullifiers w1
  /\ (success settlement = false ->
      exists e, settlement = settlementFailed e)
  /\ (forall s value e,
        signer = Some s ->
        present (req_contractAddress requirements) = true ->
        parseEther (amount (payload p)) = Normal value ->
        transferFails s (payTo requirements) value e ->
        settlement = settlementFailed e)
  /\ (forall w2 request requirements2 cid,
        usedNullifiers w1 ⊆ usedNullifiers w2 ->
        carries request p ->
        valid (verifyPaymentFromRequest w2 request requirements2 cid) = false).
Proof.
  intros Hs Hz settlement w1.
  assert (Hm : nullifier zk ∈ usedNullifiers w1)
    by (apply settlePayment_marks; assumption).
  split; [exact Hm|]. split; [apply settlePayment_failure|]. split.
  - intros s value e -> Hc Hv Hf.
    apply (settlePayment_transfer_fails p requirements s w value e); assumption.
  - intros w2 request requirements2 cid Hsub Hc.
    apply (spent_nullifier_rejected w2 request requirements2 cid p zk); auto.
Qed.

(** C1, amended: verification only reads the nullifier set; the nullifier is
    recorded by [settlePayment].  Once it has run for a 'zk-exact' payment
    whose proof carries [n], and as long as the set has not been cleared,
    every presentation of a 'zk-exact' payload whose proof carries [n] is
    rejected; the error is the nullifier-spent one when the payload passes the
    version, scheme, amount and age checks and its proof verifies. *)
Theorem settled_nullifier_rejected (p : PaymentPayload)
    (requirements : PaymentRequirements) (signer : option Signer) (w : World)
    (zk : ZKPaymentProof) :
  scheme p = zk_exact -> zkProof (payload p) = Some zk ->
  let w1 := snd (settlePayment p requirements signer w) in
  nullifier zk ∈ usedNullifiers w1
  /\ forall w2 request requirements2 cid p2 zk2,
       usedNullifiers w1 ⊆ usedNullifiers w2 ->
       carries request p2 -> scheme p2 = zk_exact ->
       zkProof (payload p2) = Some zk2 -> nullifier zk2 = nullifier zk ->
       let result := verifyPaymentFromRequest w2 request requirements2 cid in
       valid result = false
       /\ (forall paid,
             passesEnvelope w2 p2 requirements2 paid ->
             zk_valid (verifyPaymentProof w2 zk2 cid
                         (default "" (or_else (req_contractAddress requirements2) None)))
             = true ->
             result = invalid "Payment already used (nullifier spent)").
Proof.
  intros Hs Hz w1.
  assert (Hm : nullifier zk ∈ usedNullifiers w1)
    by (apply settlePayment_marks; assumption).
  split; [exact Hm|].
  intros w2 request requirements2 cid p2 zk2 Hsub Hc Hs2 Hz2 Hn result.
  assert (Hu : nullifier zk2 ∈ usedNullifiers w2) by (rewrite Hn; auto).
  split.
  - apply (spent_nullifier_rejected w2 request requirements2 cid p2 zk2); assumption.
  - intros paid Hp Hzk.
    apply (spent_nullifier_reported w2 request requirements2 cid p2 zk2 paid);
      assumption.
Qed.

(** The wrapper is the two turns of a task, one after the other. *)
Lemma withX402Payment_turns handler config request w :
  let '(t1, w1) := turn handler config (Arrived request) w in
  let '(t2, w2) := turn handler config t1 w1 in
  t2 = Answered (fst (withX402Payment handler config request w))
  /\ w2 = snd (withX402Payment handler config request w).
Proof.
  unfold turn, withX402Payment.
  destruct (valid _); cbn [negb]; [|split; reflexivity].
  destruct (handler request w) as [[response|e] w1]; [|split; reflexivity].
  destruct (verified_payload _) as [p|]; [|split; reflexivity].
  destruct (afterHandler p _ response w1) as [r w2]. split; reflexivity.
Qed.

End LedgerFacts.

Section LedgerRuns.
#[local] Existing Instance Sim.ethers.
Import SampleRequests SampleRuns.

Lemma zkPayment_envelope :
  passesEnvelope (Sample.world []) zkPayment (requirements zk_exact) (10 ^ 15).
Proof.
  apply (passesEnvelope_sample Sim.ethers zk_exact);
    vm_compute; try reflexivity; discriminate.
Qed.

(** C7 run: the transfer of the sample payment is refused; the settlement
    fails, the nullifier is recorded all the same, and the payment is rejected
    when it is presented again. *)
Lemma nullifier_marked_before_transfer_witness :
  let outcome :=
    settlePayment zkPayment (requirements zk_exact) (Some brokenSigner)
      (Sample.world []) in
  "0x0a" ∈ usedNullifiers (snd outcome)
  /\ fst outcome = settlementFailed "insufficient funds"
  /\ valid (@verifyPaymentFromRequest _ (wireOf zkPayment) (snd outcome)
              (requestWith "payment") (requirements zk_exact) 31337) = false.
Proof.
  intros outcome.
  destruct (@nullifier_marked_before_transfer _ (wireOf zkPayment) zkPayment
              (requirements zk_exact) (Some brokenSigner) (Sample.world [])
              (Sample.signedProof Sample.alice now 31337 Sample.escrow)
              eq_refl eq_refl)
    as (Hmarked & _ & Hfails & Hlater).
  split; [exact Hmarked|]. split.
  - apply (Hfails brokenSigner (10 ^ 15) "insufficient funds").
    + reflexivity.
    + reflexivity.
    + vm_compute. reflexivity.
    + left. reflexivity.
  - apply Hlater; [reflexivity | apply carries_sample].
Defined.

(** C1 amended, run: the sample payment is settled off-chain and presented
    again at once. *)
Lemma settled_nullifier_rejected_witness :
  let w1 := snd (settlePayment zkPayment (requirements zk_exact) None
                   (Sample.world [])) in
  @verifyPaymentFromRequest _ (wireOf zkPayment) w1 (requestWith "payment")
    (requirements zk_exact) 31337
  = invalid "Payment already used (nullifier spent)".
Proof.
  intros w1.
  destruct (@settled_nullifier_rejected _ (wireOf zkPayment) zkPayment
              (requirements zk_exact) None (Sample.world [])
              (Sample.signedProof Sample.alice now 31337 Sample.escrow)
              eq_refl eq_refl)
    as (_ & Hlater).
  destruct (Hlater w1 (requestWith "payment") (requirements zk_exact) 31337
              zkPayment (Sample.signedProof Sample.alice now 31337 Sample.escrow))
    as (_ & Hreported).
  - reflexivity.
  - apply carries_sample.
  - reflexivity.
  - reflexivity.
  - reflexivity.
  - apply (Hreported (10 ^ 15)).
    + exact zkPayment_envelope.
    + vm_compute. reflexivity.
Defined.

(** C1 fails as worded, twice over.  When two requests present the same
    payment and the second is verified while the first one's handler is still
    running, both verifications find the nullifier unused, both handlers run
    and both settlements record it.  And a payment presented again 301
    seconds after it was settled is refused as expired, not as spent. *)
Lemma double_acceptance :
  let W := wireOf zkPayment in
  let verified := run okHandler agentRoute [0; 1]%nat twice (Sample.world []) in
  let settled := run okHandler agentRoute [0; 1; 0; 1]%nat twice (Sample.world []) in
  let serial := run okHandler agentRoute [0; 0; 1; 1]%nat twice (Sample.world []) in
  (awaitingHandler (fst verified !! 0%nat)
   /\ awaitingHandler (fst verified !! 1%nat)
   /\ isNullifierUsed "0x0a" (snd verified) = false)
  /\ (answeredWith (fst settled !! 0%nat) 200 true
      /\ answeredWith (fst settled !! 1%nat) 200 true
      /\ isNullifierUsed "0x0a" (snd settled) = true)
  /\ (answeredWith (fst serial !! 0%nat) 200 true
      /\ answeredWith (fst serial !! 1%nat) 402 false)
  /\ verifyPaymentFromRequest later (requestWith "payment")
       (requirements zk_exact) 31337 = invalid "Payment expired"
  /\ ~ spent_nullifier_always_reported.
Proof.
  intros W verified settled serial.
  assert (Hexpired : verifyPaymentFromRequest later (requestWith "payment")
            (requirements zk_exact) 31337 = invalid "Payment expired")
    by (vm_compute; reflexivity).
  split; [|split; [|split; [|split]]].
  - split; [|split].
    + eexists _, _, _. split; vm_compute; reflexivity.
    + eexists _, _, _. split; vm_compute; reflexivity.
    + vm_compute. reflexivity.
  - split; [|split].
    + eexists. split; [vm_compute; reflexivity|]. split; [reflexivity|].
      vm_compute. eexists. reflexivity.
    + eexists. split; [vm_compute; reflexivity|]. split; [reflexivity|].
      vm_compute. eexists. reflexivity.
    + vm_compute. reflexivity.
  - split.
    + eexists. split; [vm_compute; reflexivity|]. split; [reflexivity|].
      vm_compute. eexists. reflexivity.
    + eexists. split; [vm_compute; reflexivity|]. split; [reflexivity|].
      vm_compute. reflexivity.
  - exact Hexpired.
  - intros H.
    specialize (H later (requestWith "payment") (requirements zk_exact) 31337
                  zkPayment (Sample.signedProof Sample.alice now 31337 Sample.escrow)
                  (carries_sample zkPayment) eq_refl eq_refl).
    rewrite Hexpired in H.
    assert (Hin : nullifier (Sample.signedProof Sample.alice now 31337 Sample.escrow)
                    ∈ usedNullifiers later).
    { apply (bool_decide_unpack _). vm_compute. exact I. }
    specialize (H Hin). discriminate H.
Qed.

End LedgerRuns.

(** * Further properties of the code *)

(** Case analysis on the first collaborator call of a sequence of binds that
    is known to have completed normally. *)
Ltac unbind H :=
  unfold mbind, completion_bind, JS.bind in H;
  repeat match type of H with
         | context [match ?m with Normal _ => _ | Throw _ => _ end] =>
             lazymatch m with
             | context [match _ with Normal _ => _ | Throw _ => _ end] => fail
             | _ => let Heq := fresh "Heq" in
                    destruct m eqn:Heq; [|discriminate H]
             end
         end.

(** ** Proof engine: generated proofs *)

Section ProverFacts.
Context `{E : Ethers}.

Lemma createPaymentCommitment_nonce r w amount sender receiver bounty c :
  createPaymentCommitment r w amount sender receiver bounty = Normal c ->
  pc_nonce c = r
  /\ exists encoded,
       abiEncode [ abi_bytes32 r; abi_address sender; abi_uint256 (dateNow w) ]
       = Normal encoded
       /\ pc_nullifier c = keccak256 encoded.
Proof.
  intros H. unfold createPaymentCommitment in H. unbind H.
  injection H as <-. split; [reflexivity|]. eexists. split; reflexivity.
Qed.

(** What a generated proof is made of. *)
Lemma generatePaymentProof_inv r w amount sender receiver wallet cid contract bounty p :
  generatePaymentProof r w amount sender receiver wallet cid contract bounty
  = Normal p ->
  (exists m, proofMessage p = Normal m
             /\ signMessage wallet m = Normal (proof_signature (proof p)))
  /\ proof_timestamp (proof p) = seconds (dateNow w)
  /\ publicInputs p = {| minAmount := amount; chainId := cid;
                         pi_contractAddress := contract; pi_bountyId := bounty |}
  /\ exists encoded,
       abiEncode [ abi_bytes32 r; abi_address sender; abi_uint256 (dateNow w) ]
       = Normal encoded
       /\ nullifier p = keccak256 encoded.
Proof.
  intros H. unfold generatePaymentProof in H.
  destruct (createPaymentCommitment r w amount sender receiver bounty)
    as [c|e] eqn:Hc; [|discriminate H].
  apply createPaymentCommitment_nonce in Hc. destruct Hc as (Hn & enc & Henc & Hnull).
  cbn [mbind completion_bind JS.bind] in H. unbind H.
  injection H as <-. cbn.
  split; [|split; [reflexivity|split; [reflexivity|]]].
  - eexists. unfold proofMessage. cbn.
    match goal with Hp : abiEncode [abi_bytes32 (pc_commitment c); _; _; _; _; _] = _
                    |- _ => rewrite Hp end.
    split; [reflexivity|assumption].
  - exists enc. split; assumption.
Qed.

Lemma verifyPaymentProof_valid_inv w p cid addr :
  zk_valid (verifyPaymentProof w p cid addr) = true ->
  chainId (publicInputs p) = cid
  /\ toLowerCase (pi_contractAddress (publicInputs p)) = toLowerCase addr
  /\ seconds (dateNow w) - proof_timestamp (proof p) <= 3600
  /\ proof_timestamp (proof p) <= seconds (dateNow w) + 60.
Proof.
  unfold verifyPaymentProof.
  destruct (Z.eqb_spec (chainId (publicInputs p)) cid); [|discriminate].
  destruct (String.eqb_spec (toLowerCase (pi_contractAddress (publicInputs p)))
                            (toLowerCase addr)); [|discriminate].
  cbn [negb].
  destruct (Z.gtb_spec (seconds (dateNow w) - proof_timestamp (proof p)) 3600);
    [discriminate|].
  destruct (Z.gtb_spec (proof_timestamp (proof p)) (seconds (dateNow w) + 60));
    [discriminate|].
  intros _. auto.
Qed.

(** A generated proof verifies inside its window. *)
Lemma generated_proof_verifies r w amount sender receiver wallet cid contract bounty
    p address w2 addr2 :
  generatePaymentProof r w amount sender receiver wallet cid contract bounty
  = Normal p ->
  (forall digest sig, signMessage wallet digest = Normal sig ->
                      verifyMessage digest sig = Normal address) ->
  address <> "" -> address <> ZeroAddress ->
  toLowerCase addr2 = toLowerCase contract ->
  seconds (dateNow w) - 60 <= seconds (dateNow w2) <= seconds (dateNow w) + 3600 ->
  zk_valid (verifyPaymentProof w2 p cid addr2) = true.
Proof.
  intros Hgen Hwallet Hne Hnz Ha Hwin.
  destruct (generatePaymentProof_inv _ _ _ _ _ _ _ _ _ _ Hgen)
    as ((m & Hm & Hsig) & Hts & Hpi & _).
  rewrite verifyPaymentProof_fresh.
  - apply signatureStep_valid. exists m, address.
    split; [exact Hm|]. split; [apply Hwallet; exact Hsig|]. auto.
  - rewrite Hpi. reflexivity.
  - rewrite Hpi. cbn. congruence.
  - rewrite Hts. lia.
  - rewrite Hts. lia.
Qed.

(** X1: a proof made by [generatePaymentProof] with a wallet whose signatures
    recover to an address that is neither empty nor zero is valid for
    [verifyPaymentProof] exactly when the expected chain id is the one it was
    made for, the expected contract address is the one it was made for up to
    case, and the verifier's clock is at most 60 seconds behind and at most
    3600 seconds ahead of the second it was made in. *)
Theorem generated_proof_valid_window (r : string) (w : World)
    (amount sender receiver : string) (wallet : Wallet) (cid : Z)
    (contract : string) (bounty : option string) (p : ZKPaymentProof)
    (address : string) :
  generatePaymentProof r w amount sender receiver wallet cid contract bounty
  = Normal p ->
  (forall digest sig, signMessage wallet digest = Normal sig ->
                      verifyMessage digest sig = Normal address) ->
  address <> "" -> address <> ZeroAddress ->
  forall (w2 : World) (expectedChainId : Z) (expectedContractAddress : string),
    zk_valid (verifyPaymentProof w2 p expectedChainId expectedContractAddress) = true
    <-> expectedChainId = cid
        /\ toLowerCase expectedContractAddress = toLowerCase contract
        /\ seconds (dateNow w) - 60 <= seconds (dateNow w2)
           <= seconds (dateNow w) + 3600.
Proof.
  intros Hgen Hwallet Hne Hnz w2 cid2 addr2.
  destruct (generatePaymentProof_inv _ _ _ _ _ _ _ _ _ _ Hgen)
    as ((m & Hm & Hsig) & Hts & Hpi & _).
  split.
  - intros Hv. apply verifyPaymentProof_valid_inv in Hv.
    rewrite Hpi, Hts in Hv. cbn in Hv. destruct Hv as (Hc & Ha & Hold & Hnew).
    split; [congruence|]. split; [congruence|]. lia.
  - intros (-> & Ha & Hwin).
    exact (generated_proof_verifies _ _ _ _ _ _ _ _ _ p address w2 addr2 Hgen Hwallet
             Hne Hnz Ha Hwin).
Qed.

(** X2: the nullifier of a generated proof is fixed by the random nonce, the
    sender and the millisecond clock: two proofs generated from the same
    three carry the same nullifier, whatever the amounts, receivers, signers,
    chain ids, contract addresses and bounty ids are. *)
Theorem generated_nullifier_ignores_payment (r : string) (w : World) (sender : string)
    (amount1 amount2 receiver1 receiver2 : string) (wallet1 wallet2 : Wallet)
    (cid1 cid2 : Z) (contract1 contract2 : string) (bounty1 bounty2 : option string)
    (p1 p2 : ZKPaymentProof) :
  generatePaymentProof r w amount1 sender receiver1 wallet1 cid1 contract1 bounty1
  = Normal p1 ->
  generatePaymentProof r w amount2 sender receiver2 wallet2 cid2 contract2 bounty2
  = Normal p2 ->
  nullifier p1 = nullifier p2.
Proof.
  intros H1 H2.
  destruct (generatePaymentProof_inv _ _ _ _ _ _ _ _ _ _ H1)
    as (_ & _ & _ & e1 & He1 & ->).
  destruct (generatePaymentProof_inv _ _ _ _ _ _ _ _ _ _ H2)
    as (_ & _ & _ & e2 & He2 & ->).
  congruence.
Qed.

(** X3: [generatePaymentProof] fails with the parser's message when the
    amount is not a decimal amount, and with the wallet's message when every
    hash could be computed and the wallet refuses to sign the proof message;
    it returns a proof only if the wallet signed. *)
Theorem generatePaymentProof_failures (r : string) (w : World)
    (amount sender receiver : string) (wallet : Wallet) (cid : Z)
    (contract : string) (bounty : option string) :
  let generated :=
    generatePaymentProof r w amount sender receiver wallet cid contract bounty in
  (forall e, parseEther amount = Throw e -> generated = Throw e)
  /\ (forall e, (forall digest, signMessage wallet digest = Throw e) ->
                exists e2, generated = Throw e2)
  /\ (forall p, generated = Normal p ->
                exists digest, signMessage wallet digest
                               = Normal (proof_signature (proof p))).
Proof.
  intros generated. split; [|split].
  - intros e He. subst generated.
    unfold generatePaymentProof, createPaymentCommitment. rewrite He. reflexivity.
  - intros e Hrefuse. destruct generated as [p|e2] eqn:Hg; [|eauto].
    subst generated.
    destruct (generatePaymentProof_inv _ _ _ _ _ _ _ _ _ _ Hg)
      as ((m & _ & Hsig) & _).
    rewrite Hrefuse in Hsig. discriminate.
  - intros p Hg.
    destruct (generatePaymentProof_inv _ _ _ _ _ _ _ _ _ _ Hg)
      as ((m & _ & Hsig) & _).
    eauto.
Qed.

End ProverFacts.

Section ProverRuns.
#[local] Existing Instance Sim.ethers.
Import SampleRequests SampleClient SampleProofs.

Lemma walletOf_alice_recovers digest sig :
  signMessage (walletOf Sample.alice) digest = Normal sig ->
  verifyMessage digest sig = Normal Sample.alice.
Proof.
  intros [= <-]. cbn. unfold Sim.verifyMessage, Sim.signMessage, Sample.alice.
  simpl. rewrite String.eqb_refl. reflexivity.
Qed.

Lemma alice_nonzero : Sample.alice <> "" /\ Sample.alice <> ZeroAddress.
Proof. split; discriminate. Qed.

(** X1 run: a proof generated by Alice's wallet is valid 3600 seconds later
    and 60 seconds earlier, and no longer valid 3601 seconds later. *)
Lemma generated_proof_valid_window_witness :
  exists p,
    generatePaymentProof random32 (Sample.world []) "0.001" Sample.alice Sample.agent
      (walletOf Sample.alice) 31337 Sample.escrow None = Normal p
    /\ zk_valid (verifyPaymentProof (after 3600) p 31337 (toUpperCase Sample.escrow))
       = true
    /\ zk_valid (verifyPaymentProof (after (-60)) p 31337 Sample.escrow) = true
    /\ zk_valid (verifyPaymentProof (after 3601) p 31337 Sample.escrow) = false.
Proof.
  destruct (generatePaymentProof random32 (Sample.world []) "0.001" Sample.alice
              Sample.agent (walletOf Sample.alice) 31337 Sample.escrow None)
    as [p|e] eqn:Hg; [|vm_compute in Hg; discriminate].
  exists p. split; [reflexivity|].
  pose proof (generated_proof_valid_window _ _ _ _ _ _ _ _ _ p Sample.alice Hg
                walletOf_alice_recovers (proj1 alice_nonzero) (proj2 alice_nonzero))
    as Hwin.
  split; [|split].
  - apply Hwin. split; [reflexivity|]. split; [reflexivity|]. vm_compute.
    split; discriminate.
  - apply Hwin. split; [reflexivity|]. split; [reflexivity|]. vm_compute.
    split; discriminate.
  - destruct (zk_valid (verifyPaymentProof (after 3601) p 31337 Sample.escrow))
      eqn:Hv; [|reflexivity].
    apply Hwin in Hv. destruct Hv as (_ & _ & _ & Hhi).
    vm_compute in Hhi. contradiction Hhi. reflexivity.
Defined.

(** X2 run: two proofs made in the same millisecond from the same nonce by
    the same sender, for different amounts and receivers. *)
Lemma generated_nullifier_ignores_payment_witness :
  exists p1 p2,
    generatePaymentProof random32 (Sample.world []) "0.001" Sample.alice Sample.agent
      (walletOf Sample.alice) 31337 Sample.escrow None = Normal p1
    /\ generatePaymentProof random32 (Sample.world []) "5" Sample.alice Sample.escrow
         (walletOf Sample.agent) 1 "" (Some "7") = Normal p2
    /\ nullifier p1 = nullifier p2 /\ commitment p1 <> commitment p2.
Proof.
  destruct (generatePaymentProof random32 (Sample.world []) "0.001" Sample.alice
              Sample.agent (walletOf Sample.alice) 31337 Sample.escrow None)
    as [p1|e] eqn:H1; [|vm_compute in H1; discriminate].
  destruct (generatePaymentProof random32 (Sample.world []) "5" Sample.alice
              Sample.escrow (walletOf Sample.agent) 1 "" (Some "7"))
    as [p2|e] eqn:H2; [|vm_compute in H2; discriminate].
  exists p1, p2. split; [reflexivity|]. split; [reflexivity|]. split.
  - exact (generated_nullifier_ignores_payment _ _ _ _ _ _ _ _ _ _ _ _ _ _ _ _ _ H1 H2).
  - vm_compute in H1, H2. injection H1 as <-. injection H2 as <-.
    vm_compute. discriminate.
Defined.

(** X3 run: an amount that is not a number, and a wallet that refuses. *)
Lemma generatePaymentProof_failures_witness :
  generatePaymentProof random32 (Sample.world []) "one" Sample.alice Sample.agent
    (walletOf Sample.alice) 31337 Sample.escrow None
  = Throw "invalid FixedNumber string value"
  /\ exists e, generatePaymentProof random32 (Sample.world []) "0.001" Sample.alice
                 Sample.agent lockedWallet 31337 Sample.escrow None = Throw e.
Proof.
  split.
  - apply (generatePaymentProof_failures random32 (Sample.world []) "one"
             Sample.alice Sample.agent (walletOf Sample.alice) 31337 Sample.escrow None).
    vm_compute. reflexivity.
  - apply (proj1 (proj2 (generatePaymentProof_failures random32 (Sample.world [])
             "0.001" Sample.alice Sample.agent lockedWallet 31337 Sample.escrow None))
             "user rejected signing").
    intros digest. reflexivity.
Defined.

End ProverRuns.

(** ** Client: choosing a requirement and paying for it *)

Section ClientFacts.
Context `{E : Ethers} `{W : Wire}.

Lemma find_scheme_none preferred (requirements : list PaymentRequirements) :
  List.find (fun r => Scheme_eqb (req_scheme r) preferred) requirements = None <->
  forall r, In r requirements -> req_scheme r <> preferred.
Proof.
  split.
  - intros H r Hin Heq.
    pose proof (find_none _ _ H r Hin) as Hf. cbn in Hf. rewrite Heq in Hf.
    destruct preferred; discriminate.
  - intros H. destruct (List.find _ requirements) as [r|] eqn:Hf; [|reflexivity].
    apply find_some in Hf. destruct Hf as [Hin Heq].
    exfalso. apply (H r Hin).
    destruct (req_scheme r), preferred; try reflexivity; discriminate.
Qed.

(** X4: the client pays the first offered requirement of its preferred
    scheme and, when there is none, the first offered requirement whatever
    its scheme; it has nothing to pay only when nothing is offered. *)
Theorem selectRequirement_spec (useZk : bool)
    (requirements : list PaymentRequirements) :
  let preferred := if useZk then zk_exact else exact in
  (selectRequirement useZk requirements = None <-> requirements = [])
  /\ (forall r, selectRequirement useZk requirements = Some r -> In r requirements)
  /\ (forall (before : list PaymentRequirements) r after,
        requirements = (before ++ r :: after)%list ->
        req_scheme r = preferred ->
        (forall x, In x before -> req_scheme x <> preferred) ->
        selectRequirement useZk requirements = Some r)
  /\ ((forall r, In r requirements -> req_scheme r <> preferred) ->
      selectRequirement useZk requirements = head requirements).
Proof.
  intros preferred. unfold selectRequirement. fold preferred.
  split; [|split; [|split]].
  - split.
    + destruct (List.find _ requirements) eqn:Hf; [discriminate|].
      destruct requirements; [reflexivity|discriminate].
    + intros ->. reflexivity.
  - intros r. destruct (List.find _ requirements) as [x|] eqn:Hf.
    + intros [= <-]. apply find_some in Hf. tauto.
    + destruct requirements as [|x rest]; [discriminate|].
      intros [= <-]. left. reflexivity.
  - intros before r after -> Hr Hbefore.
    assert (Hfind : List.find (fun x => Scheme_eqb (req_scheme x) preferred)
                      (before ++ r :: after)%list = Some r).
    { induction before as [|x before IH]; cbn.
      - rewrite Hr. destruct preferred; reflexivity.
      - rewrite (Scheme_eqb_neq _ _ (Hbefore x (or_introl eq_refl))).
        apply IH. intros y Hy. apply Hbefore. right. exact Hy. }
    rewrite Hfind. reflexivity.
  - intros Hnone. apply find_scheme_none in Hnone. rewrite Hnone. reflexivity.
Qed.

(** What [createPayment] returns on the signature path. *)
Lemma createPayment_exact_inv config r16 r32 w requirement amt p :
  createPayment config r16 r32 w requirement amt false = Normal p ->
  req_scheme requirement = exact ->
  exists value m sig,
    parseEther amt = Normal value
    /\ exactMessage p value = Normal m
    /\ signMessage (signer config) m = Normal sig
    /\ p = {| x402Version := 1; scheme := exact; network := req_network requirement;
              payload := {| sender := walletAddress config; signature := Some sig;
                            zkProof := None; amount := amt; nonce := JsString r16;
                            timestamp := seconds (dateNow w) |} |}.
Proof.
  intros H Hs. unfold createPayment in H. rewrite Hs in H. cbn [orb Scheme_eqb] in H.
  unbind H. injection H as <-.
  eexists _, _, _. split; [reflexivity|]. split; [|split; [eassumption|reflexivity]].
  unfold exactMessage. cbn.
  match goal with Hp : abiEncode _ = _ |- _ => rewrite Hp end. reflexivity.
Qed.

(** What [createPayment] returns on the proof path. *)
Lemma createPayment_zk_inv config r16 r32 w requirement amt useZk p :
  createPayment config r16 r32 w requirement amt useZk = Normal p ->
  (useZk || Scheme_eqb (req_scheme requirement) zk_exact)%bool = true ->
  exists zk,
    generatePaymentProof r32 w amt (walletAddress config) (payTo requirement)
      (signer config) (client_chainId config)
      (default "" (or_else (req_contractAddress requirement) None))
      (req_bountyId requirement) = Normal zk
    /\ p = {| x402Version := 1; scheme := zk_exact; network := req_network requirement;
              payload := {| sender := walletAddress config; signature := None;
                            zkProof := Some zk; amount := amt;
                            nonce := JsString r16;
                            timestamp := seconds (dateNow w) |} |}.
Proof.
  intros H Hz. unfold createPayment in H. rewrite Hz in H.
  destruct (generatePaymentProof _ _ _ _ _ _ _ _ _) as [zk|e] eqn:Hg;
    [|discriminate H].
  cbn in H. injection H as <-. exists zk. split; reflexivity.
Qed.


(** X5: a signed payment the client builds for an 'exact' requirement, for
    the amount the requirement asks, with a wallet whose signatures recover
    to the client's own address up to case, is accepted by the server for
    that requirement as long as the server's clock is at most 300 seconds
    past the second the payment was built in. *)
Theorem client_exact_payment_accepted (config : X402ClientConfig)
    (r16 r32 : string) (w : World) (requirement : PaymentRequirements)
    (p : PaymentPayload) (address : string) (request : Request) :
  createPayment config r16 r32 w requirement (maxAmountRequired requirement) false
  = Normal p ->
  req_scheme requirement = exact ->
  (forall digest sig, signMessage (signer config) digest = Normal sig ->
                      verifyMessage digest sig = Normal address) ->
  toLowerCase address = toLowerCase (walletAddress config) ->
  carries request p ->
  forall (w2 : World) (cid : Z),
    seconds (dateNow w2) - seconds (dateNow w) <= 300 ->
    verifyPaymentFromRequest w2 request requirement cid = accepted p.
Proof.
  intros Hpay Hs Hwallet Haddr Hc w2 cid Hage.
  destruct (createPayment_exact_inv _ _ _ _ _ _ _ Hpay Hs)
    as (value & m & sig & Hv & Hm & Hsig & Hp).
  assert (Henv : passesEnvelope w2 p requirement value).
  { rewrite Hp. split; [reflexivity|]. split; [cbn; congruence|].
    split; [exists value; cbn; repeat split; [exact Hv | exact Hv | lia]|].
    cbn. exact Hage. }
  rewrite (verify_envelope _ _ _ _ _ _ Hc Henv).
  unfold schemeVerification.
  rewrite zkExactCheck_exact by (rewrite Hp; reflexivity).
  unfold exactCheck. rewrite Hm.
  replace (scheme p) with exact by (rewrite Hp; reflexivity).
  replace (signature (payload p)) with (Some sig) by (rewrite Hp; reflexivity).
  replace (sender (payload p)) with (walletAddress config) by (rewrite Hp; reflexivity).
  unfold or_else. destruct (truthy sig); [|reflexivity].
  cbn [mbind completion_bind JS.bind]. rewrite (Hwallet _ _ Hsig).
  cbn [mbind completion_bind JS.bind].
  rewrite Haddr, String.eqb_refl. reflexivity.
Qed.


(** X7: a client that wants proofs builds a 'zk-exact' payment even for a
    requirement whose scheme is 'exact'; the server refuses such a payment
    with the scheme-mismatch error, whatever the proof and the amount are. *)
Theorem client_zk_against_exact_refused (config : X402ClientConfig)
    (r16 r32 : string) (w : World) (requirement : PaymentRequirements)
    (amt : string) (p : PaymentPayload) (request : Request) :
  createPayment config r16 r32 w requirement amt true = Normal p ->
  req_scheme requirement = exact ->
  carries request p ->
  scheme p = zk_exact
  /\ forall (w2 : World) (cid : Z),
       verifyPaymentFromRequest w2 request requirement cid
       = invalid "Payment scheme mismatch".
Proof.
  intros Hpay Hs Hc.
  destruct (createPayment_zk_inv _ _ _ _ _ _ _ _ Hpay eq_refl) as (zk & _ & Hp).
  split; [rewrite Hp; reflexivity|].
  intros w2 cid. rewrite (verify_carried _ _ _ _ _ Hc).
  unfold verifyDecoded. rewrite Hp, Hs. reflexivity.
Qed.

End ClientFacts.

Section ClientRuns.
#[local] Existing Instance Sim.ethers.
Import SampleRequests SampleClient SampleProofs.

(** X4 run: with a preference for proofs the second of two offers is taken,
    and without the preferred scheme on offer the first. *)
Lemma selectRequirement_spec_witness :
  selectRequirement true [requirements exact; requirements zk_exact]
  = Some (requirements zk_exact)
  /\ selectRequirement true [requirements exact] = Some (requirements exact).
Proof.
  split.
  - apply (proj1 (proj2 (proj2 (selectRequirement_spec true
             [requirements exact; requirements zk_exact])))
             [requirements exact] (requirements zk_exact) []).
    + reflexivity.
    + reflexivity.
    + intros x [<- | []]. discriminate.
  - rewrite (proj2 (proj2 (proj2 (selectRequirement_spec true [requirements exact])))).
    + reflexivity.
    + intros r [<- | []]. discriminate.
Defined.

(** X5 run: Alice's signed payment, verified 300 seconds after it was built. *)
Lemma client_exact_payment_accepted_witness :
  exists p,
    createPayment (aliceClient None) random16 random32 (Sample.world [])
      (requirements exact) "0.001" false = Normal p
    /\ @verifyPaymentFromRequest _ (wireOf p) (after 300) (requestWith "payment")
         (requirements exact) 31337 = accepted p.
Proof.
  destruct (createPayment (aliceClient None) random16 random32 (Sample.world [])
              (requirements exact) "0.001" false) as [p|e] eqn:Hpay;
    [|vm_compute in Hpay; discriminate].
  exists p. split; [reflexivity|].
  apply (@client_exact_payment_accepted _ (wireOf p) (aliceClient None) random16
           random32 (Sample.world []) (requirements exact) p Sample.alice
           (requestWith "payment") Hpay eq_refl walletOf_alice_recovers eq_refl
           (carries_sample p)).
  vm_compute. discriminate.
Defined.


(** X7 run: Alice's client set to use proofs pays a requirement that asks
    for a signature. *)
Lemma client_zk_against_exact_refused_witness :
  exists p,
    createPayment (aliceClient (Some true)) random16 random32 (Sample.world [])
      (requirements exact) "0.001" true = Normal p
    /\ @verifyPaymentFromRequest _ (wireOf p) (Sample.world [])
         (requestWith "payment") (requirements exact) 31337
       = invalid "Payment scheme mismatch".
Proof.
  destruct (createPayment (aliceClient (Some true)) random16 random32
              (Sample.world []) (requirements exact) "0.001" true)
    as [p|e] eqn:Hpay; [|vm_compute in Hpay; discriminate].
  exists p. split; [reflexivity|].
  apply (@client_zk_against_exact_refused _ (wireOf p) (aliceClient (Some true))
           random16 random32 (Sample.world []) (requirements exact) "0.001" p
           (requestWith "payment") Hpay eq_refl (carries_sample p)).
Defined.

End ClientRuns.

(** ** Verification: headers, acceptance, independence *)

Section VerificationFacts.
Context `{E : Ethers} `{W : Wire}.

(** X8: the PAYMENT-SIGNATURE header, when present and not empty, is the one
    that is verified and X-PAYMENT is ignored; X-PAYMENT is verified when
    PAYMENT-SIGNATURE is missing or empty; with both missing or empty the
    request is refused with 'No payment header provided' before anything is
    decoded. *)
Theorem payment_header_precedence (w : World) (request : Request)
    (requirements : PaymentRequirements) (cid : Z) :
  let primary := headers_get "PAYMENT-SIGNATURE" (req_headers request) in
  let legacy := headers_get "X-PAYMENT" (req_headers request) in
  let result := verifyPaymentFromRequest w request requirements cid in
  (forall h, primary = Some h -> h <> "" ->
             result = verifyHeader w h requirements cid)
  /\ (forall h, primary = None \/ primary = Some "" -> legacy = Some h -> h <> "" ->
                result = verifyHeader w h requirements cid)
  /\ (primary = None \/ primary = Some "" -> legacy = None \/ legacy = Some "" ->
      result = invalid "No payment header provided").
Proof.
  intros primary legacy result. subst result. unfold verifyPaymentFromRequest.
  change (headers_get "payment-signature" (req_headers request)) with primary.
  change (headers_get "x-payment" (req_headers request)) with legacy.
  clearbody primary legacy.
  split; [|split].
  - intros h -> Hh. destruct h; [congruence|]. reflexivity.
  - intros h Hp -> Hh. destruct h; [congruence|].
    destruct Hp as [-> | ->]; reflexivity.
  - intros [-> | ->] [-> | ->]; reflexivity.
Qed.

(** An accepted payload passed the four envelope checks and the
    scheme-specific ones. *)
Lemma verify_valid_inv w request requirements cid p :
  carries request p ->
  valid (verifyPaymentFromRequest w request requirements cid) = true ->
  exists paid,
    passesEnvelope w p requirements paid
    /\ schemeVerification w p requirements cid paid = Normal (accepted p).
Proof.
  intros Hc. rewrite (verify_carried _ _ _ _ _ Hc). unfold verifyDecoded.
  destruct (Z.eqb_spec (x402Version p) 1) as [Hv|]; [|discriminate].
  destruct (Scheme_eqb (scheme p) (req_scheme requirements)) eqn:Hs; [|discriminate].
  cbn [negb]. unfold mbind, completion_bind, JS.bind.
  destruct (parseEther (maxAmountRequired requirements)) as [required|] eqn:Hr;
    [|discriminate].
  destruct (parseEther (amount (payload p))) as [paid|] eqn:Hp; [|discriminate].
  destruct (Z.ltb_spec paid required); [discriminate|].
  destruct (Z.gtb_spec (seconds (dateNow w) - timestamp (payload p)) 300);
    [discriminate|].
  intros Hvalid. exists paid. split.
  - split; [exact Hv|]. split.
    + destruct (scheme p), (req_scheme requirements); try reflexivity; discriminate.
    + split; [|assumption]. exists required. auto.
  - unfold schemeVerification in *.
    destruct (zkExactCheck w p requirements cid) as [v|] eqn:Hz.
    + apply zkExactCheck_reason in Hz. cbn in Hvalid. destruct Hz as [Hz _].
      congruence.
    + unfold mbind, completion_bind, JS.bind in *.
      destruct (exactCheck p paid) as [[v|]|e] eqn:Hx; [|reflexivity|discriminate].
      apply exactCheck_reason in Hx. cbn in Hvalid. destruct Hx as [Hx _].
      congruence.
Qed.

(** X9: a 'zk-exact' payload that carries a proof and passes the version,
    scheme, amount and age checks is accepted exactly when the proof
    verifies for the server's chain id and the requirement's contract
    address (or the empty string when it has none) and its nullifier is not
    recorded as used. *)
Theorem zk_payment_accepted_iff (w : World) (request : Request)
    (requirements : PaymentRequirements) (cid : Z) (p : PaymentPayload)
    (zk : ZKPaymentProof) (paid : Z) :
  carries request p -> scheme p = zk_exact -> zkProof (payload p) = Some zk ->
  passesEnvelope w p requirements paid ->
  valid (verifyPaymentFromRequest w request requirements cid) = true
  <-> zk_valid (verifyPaymentProof w zk cid
                  (default "" (or_else (req_contractAddress requirements) None)))
      = true
      /\ isNullifierUsed (nullifier zk) w = false.
Proof.
  intros Hc Hs Hz Hp. rewrite (verify_envelope _ _ _ _ _ _ Hc Hp).
  unfold schemeVerification, zkExactCheck. rewrite Hs, Hz.
  destruct (zk_valid _); cbn [negb].
  - destruct (isNullifierUsed _ _).
    + split; [discriminate|]. intros [_ H]. discriminate.
    + rewrite (exactCheck_zk _ _ Hs). split; auto.
  - split; [discriminate|]. intros [H _]. discriminate.
Qed.

Lemma exact_schemeVerification_world w w2 p requirements cid paid :
  scheme p = exact ->
  schemeVerification w2 p requirements cid paid
  = schemeVerification w p requirements cid paid.
Proof.
  intros Hs. unfold schemeVerification.
  rewrite !(zkExactCheck_exact _ _ _ _ Hs). reflexivity.
Qed.

(** X10: an 'exact' payment is not recorded anywhere.  Once accepted it is
    accepted again, for the same requirements, by every verification made
    while the clock is at most 300 seconds past its timestamp, whatever
    payments have been settled in between: [settlePayment] leaves the ledger
    as it was for it. *)
Theorem exact_payment_replayable (w : World) (request : Request)
    (requirements : PaymentRequirements) (cid : Z) (p : PaymentPayload) :
  carries request p -> scheme p = exact ->
  valid (verifyPaymentFromRequest w request requirements cid) = true ->
  (forall signer, snd (settlePayment p requirements signer w) = w)
  /\ forall w2,
       seconds (dateNow w2) - timestamp (payload p) <= 300 ->
       verifyPaymentFromRequest w2 request requirements cid = accepted p.
Proof.
  intros Hc Hs Hvalid. split.
  - intros signer. rewrite settlePayment_world, Hs. reflexivity.
  - intros w2 Hage.
    destruct (verify_valid_inv _ _ _ _ _ Hc Hvalid)
      as (paid & (Hv & Hsch & Hamt & _) & Hsv).
    assert (Hp2 : passesEnvelope w2 p requirements paid)
      by (repeat split; assumption).
    rewrite (verify_envelope _ _ _ _ _ _ Hc Hp2).
    rewrite (exact_schemeVerification_world w w2 _ _ _ _ Hs), Hsv. reflexivity.
Qed.

Lemma isNullifierUsed_mark n m w :
  isNullifierUsed n (markNullifierUsed m w)
  = (String.eqb n m || isNullifierUsed n w)%bool.
Proof.
  unfold isNullifierUsed. apply eq_true_iff_eq.
  rewrite orb_true_iff, !bool_decide_eq_true, markNullifierUsed_spec.
  destruct (String.eqb_spec n m); intuition congruence.
Qed.

(** X11: payments do not interfere.  Settling a payment changes the
    verification of another payload only if that payload is 'zk-exact' and
    carries a proof with the very nullifier of the settled one. *)
Theorem settlement_leaves_other_payments (w : World) (request : Request)
    (requirements : PaymentRequirements) (cid : Z) (p : PaymentPayload)
    (settled : PaymentPayload) (settledFor : PaymentRequirements)
    (signer : option Signer) :
  carries request p ->
  (forall zk zk2, scheme p = zk_exact -> zkProof (payload p) = Some zk ->
                  scheme settled = zk_exact -> zkProof (payload settled) = Some zk2 ->
                  nullifier zk <> nullifier zk2) ->
  verifyPaymentFromRequest (snd (settlePayment settled settledFor signer w))
    request requirements cid
  = verifyPaymentFromRequest w request requirements cid.
Proof.
  intros Hc Hdiff. rewrite settlePayment_world.
  destruct (scheme settled) eqn:Hss; [reflexivity|].
  destruct (zkProof (payload settled)) as [zk2|] eqn:Hzs; [|reflexivity].
  rewrite !(verify_carried _ _ _ _ _ Hc). f_equal.
  unfold verifyDecoded, schemeVerification, zkExactCheck, verifyPaymentProof.
  cbn [dateNow markNullifierUsed].
  destruct (scheme p) eqn:Hs; [reflexivity|].
  destruct (zkProof (payload p)) as [zk|] eqn:Hz; [|reflexivity].
  rewrite isNullifierUsed_mark.
  destruct (String.eqb_spec (nullifier zk) (nullifier zk2)) as [Heq|_];
    [exfalso; exact (Hdiff zk zk2 eq_refl eq_refl eq_refl eq_refl Heq)|].
  reflexivity.
Qed.

End VerificationFacts.

Section VerificationRuns.
#[local] Existing Instance Sim.ethers.
Import SampleRequests SampleClient SampleProofs SamplePayments.

(** X8 run: with both headers present the first is verified; with the first
    one empty the second is. *)
Lemma payment_header_precedence_witness :
  let W := wireOf unsignedExact in
  verifyPaymentFromRequest (Sample.world []) (requestWithBoth "payment" "junk")
    (requirements exact) 31337 = accepted unsignedExact
  /\ verifyPaymentFromRequest (Sample.world []) (requestWithBoth "" "payment")
       (requirements exact) 31337 = accepted unsignedExact.
Proof.
  intros W. split.
  - rewrite (proj1 (payment_header_precedence (Sample.world [])
               (requestWithBoth "payment" "junk") (requirements exact) 31337)
               "payment"); [vm_compute; reflexivity | reflexivity | discriminate].
  - rewrite (proj1 (proj2 (payment_header_precedence (Sample.world [])
               (requestWithBoth "" "payment") (requirements exact) 31337))
               "payment");
      [vm_compute; reflexivity | right; reflexivity | reflexivity | discriminate].
Defined.

(** X9 run: the sample payment with a proof, on a server that has not seen
    its nullifier. *)
Lemma zk_payment_accepted_iff_witness :
  valid (@verifyPaymentFromRequest _ (wireOf zkPayment) (Sample.world [])
           (requestWith "payment") (requirements zk_exact) 31337) = true.
Proof.
  apply (proj2 (@zk_payment_accepted_iff _ (wireOf zkPayment) (Sample.world [])
           (requestWith "payment") (requirements zk_exact) 31337 zkPayment
           (Sample.signedProof Sample.alice now 31337 Sample.escrow) (10 ^ 15)
           (carries_sample zkPayment) eq_refl eq_refl zkPayment_envelope)).
  split; vm_compute; reflexivity.
Defined.

(** X10 run: the client's signed payment is accepted again 300 seconds
    later by a server that has settled the sample proof in between. *)
Lemma exact_payment_replayable_witness :
  @verifyPaymentFromRequest _ (wireOf clientExactPayment)
    {| usedNullifiers := {[ "0x0a" ]}; dateNow := Sample.clock + 300000 |}
    (requestWith "payment") (requirements exact) 31337
  = accepted clientExactPayment.
Proof.
  apply (@exact_payment_replayable _ (wireOf clientExactPayment) (Sample.world [])
           (requestWith "payment") (requirements exact) 31337 clientExactPayment
           (carries_sample clientExactPayment)).
  - reflexivity.
  - vm_compute. reflexivity.
  - vm_compute. discriminate.
Defined.

(** X11 run: settling the sample proof does not change how the payment built
    by the client is verified. *)
Lemma settlement_leaves_other_payments_witness :
  @verifyPaymentFromRequest _ (wireOf clientZkPayment)
    (snd (settlePayment zkPayment (requirements zk_exact) None (Sample.world [])))
    (requestWith "payment") (requirements zk_exact) 31337
  = @verifyPaymentFromRequest _ (wireOf clientZkPayment) (Sample.world [])
      (requestWith "payment") (requirements zk_exact) 31337.
Proof.
  apply (@settlement_leaves_other_payments _ (wireOf clientZkPayment)
           (Sample.world []) (requestWith "payment") (requirements zk_exact) 31337
           clientZkPayment zkPayment (requirements zk_exact) None
           (carries_sample clientZkPayment)).
  intros zk zk2 _ Hzk _ Hzk2.
  vm_compute in Hzk, Hzk2. injection Hzk as <-. injection Hzk2 as <-.
  vm_compute. discriminate.
Defined.

End VerificationRuns.

(** ** The wrapper and settlement: after the handler *)

Section WrapperAfterFacts.
Context `{E : Ethers} `{W : Wire}.

Lemma verify_valid_payload w request requirements cid p :
  carries request p ->
  valid (verifyPaymentFromRequest w request requirements cid) = true ->
  verifyPaymentFromRequest w request requirements cid = accepted p.
Proof.
  intros Hc Hv.
  destruct (verify_valid_inv _ _ _ _ _ Hc Hv) as (paid & Hp & Hs).
  rewrite (verify_envelope _ _ _ _ _ _ Hc Hp), Hs. reflexivity.
Qed.

(** X12: when the handler answers with a status of 400 or more after an
    accepted payment, nothing is settled: the response is returned as the
    handler made it, without a PAYMENT-RESPONSE header, and the world is the
    one the handler left, so the proof's nullifier is not recorded. *)
Theorem failed_handler_not_settled (handler : Handler) (config : X402Config)
    (request : Request) (w w1 : World) (response : Response) :
  valid (verifyPaymentFromRequest w request (requirementsFor config request)
           (cfg_chainId config)) = true ->
  handler request w = (Normal response, w1) ->
  400 <= status response ->
  withX402Payment handler config request w = (Normal response, w1).
Proof.
  intros Hv Hh Hs. unfold withX402Payment. rewrite Hv, Hh. cbn [negb].
  destruct (verified_payload _); [|reflexivity].
  unfold afterHandler. destruct (Z.ltb_spec (status response) 400); [lia|reflexivity].
Qed.

(** X13: when the handler answers with a status below 400 after an accepted
    payment, the wrapper settles off-chain, whatever contract address is
    configured: the answer is the handler's response with the
    PAYMENT-RESPONSE header set to the encoding of
    [{success: true, receipt: "offchain:<nonce>:<Date.now()>"}], and the world
    is the handler's with the nullifier of a 'zk-exact' proof recorded.  That
    is so when the nonce prints, as every string does; when it does not, the
    nullifier is recorded all the same and the handler's response is
    returned as it is. *)
Theorem accepted_payment_settled_offchain (handler : Handler) (config : X402Config)
    (request : Request) (w w1 : World) (response : Response) (p : PaymentPayload) :
  carries request p ->
  valid (verifyPaymentFromRequest w request (requirementsFor config request)
           (cfg_chainId config)) = true ->
  handler request w = (Normal response, w1) ->
  status response < 400 ->
  withX402Payment handler config request w
  = (Normal match ToString (nonce (payload p)) with
            | Normal n =>
                withSettlementHeader response
                  {| success := true; txHash := None;
                     receipt := Some ("offchain:" +:+ n +:+ ":"
                                        +:+ Json.decimal (dateNow w1));
                     settle_error := None |}
            | Throw _ => response
            end,
     match scheme p, zkProof (payload p) with
     | zk_exact, Some zk => markNullifierUsed (nullifier zk) w1
     | _, _ => w1
     end).
Proof.
  intros Hc Hv Hh Hs.
  rewrite (withX402Payment_accepted _ _ _ _ _ _ _ (verify_valid_payload _ _ _ _ _ Hc Hv)
             Hh).
  unfold afterHandler. destruct (Z.ltb_spec (status response) 400); [|lia].
  pose proof (settlePayment_without_signer p (requirementsFor config request) w1)
    as Hsettle.
  pose proof (settlePayment_world p (requirementsFor config request) None w1)
    as Hworld.
  destruct (settlePayment p (requirementsFor config request) None w1) as [s w2].
  cbn [fst snd] in *. subst s w2.
  destruct (ToString (nonce (payload p))); reflexivity.
Qed.

Lemma wrapper_world_settled handler config request w w1 response p :
  carries request p ->
  valid (verifyPaymentFromRequest w request (requirementsFor config request)
           (cfg_chainId config)) = true ->
  handler request w = (Normal response, w1) ->
  status response < 400 ->
  snd (withX402Payment handler config request w)
  = snd (settlePayment p (requirementsFor config request) None w1).
Proof.
  intros Hc Hv Hh Hs. unfold withX402Payment.
  rewrite (verify_valid_payload _ _ _ _ _ Hc Hv), Hh.
  cbn [negb valid accepted verified_payload].
  unfold afterHandler. destruct (Z.ltb_spec (status response) 400); [|lia].
  destruct (settlePayment p _ None w1). reflexivity.
Qed.

(** X14: a 'zk-exact' payment that was accepted and whose handler answered
    with a status below 400 cannot be used again through the wrapper: every
    later call presenting it, on a ledger that still holds what was recorded,
    is answered 402 without running its handler. *)
Theorem settled_payment_refused_by_wrapper (handler : Handler) (config : X402Config)
    (request : Request) (w w1 : World) (response : Response) (p : PaymentPayload)
    (zk : ZKPaymentProof) :
  carries request p ->
  useZkProof (route config) = Some true ->
  zkProof (payload p) = Some zk ->
  valid (verifyPaymentFromRequest w request (requirementsFor config request)
           (cfg_chainId config)) = true ->
  handler request w = (Normal response, w1) ->
  status response < 400 ->
  forall (later : Handler) (w2 : World),
    usedNullifiers (snd (withX402Payment handler config request w))
      ⊆ usedNullifiers w2 ->
    exists refusal,
      withX402Payment later config request w2 = (Normal refusal, w2)
      /\ status refusal = 402.
Proof.
  intros Hc Hzkcfg Hz Hv Hh Hs later w2 Hsub.
  assert (Hscheme : scheme p = zk_exact).
  { destruct (verify_valid_inv _ _ _ _ _ Hc Hv) as (paid & (_ & Hsch & _) & _).
    rewrite Hsch. unfold requirementsFor. cbn. rewrite Hzkcfg. reflexivity. }
  rewrite (wrapper_world_settled _ _ _ _ _ _ _ Hc Hv Hh Hs) in Hsub.
  assert (Hused : nullifier zk ∈ usedNullifiers w2).
  { apply Hsub. apply settlePayment_marks; assumption. }
  pose proof (spent_nullifier_rejected w2 request (requirementsFor config request)
                (cfg_chainId config) p zk Hc Hscheme Hz Hused) as Hrej.
  unfold withX402Payment. rewrite Hrej. cbn [negb].
  eexists. split; reflexivity.
Qed.

Lemma settlePayment_grows p requirements signer w :
  usedNullifiers w ⊆ usedNullifiers (snd (settlePayment p requirements signer w))
  /\ dateNow (snd (settlePayment p requirements signer w)) = dateNow w.
Proof.
  rewrite settlePayment_world.
  destruct (scheme p), (zkProof (payload p)); cbn; split; try reflexivity; set_solver.
Qed.

Lemma turn_grows handler config t w :
  keepsLedger handler ->
  usedNullifiers w ⊆ usedNullifiers (snd (turn handler config t w)).
Proof.
  intros Hk. destruct t as [request | request v requirements | r]; cbn.
  - destruct (negb _); reflexivity.
  - pose proof (Hk request w) as Hh.
    destruct (handler request w) as [[response|e] w1]; cbn in *; [|exact Hh].
    destruct (verified_payload v) as [p|]; [|exact Hh].
    unfold afterHandler. destruct (status response <? 400); [|exact Hh].
    pose proof (settlePayment_grows p requirements None w1) as [Hs _].
    destruct (settlePayment p requirements None w1) as [s w2]. cbn in *.
    set_solver.
  - reflexivity.
Qed.

(** X15: the ledger only grows.  However the turns of any number of
    requests in flight are interleaved, and provided the handler itself
    removes nothing, every nullifier recorded before is still recorded
    after. *)
Theorem ledger_grows_across_turns (handler : Handler) (config : X402Config)
    (schedule : list nat) (pool : list Task) (w : World) :
  keepsLedger handler ->
  usedNullifiers w ⊆ usedNullifiers (snd (run handler config schedule pool w)).
Proof.
  intros Hk. revert pool w.
  induction schedule as [|i rest IH]; intros pool w; cbn; [reflexivity|].
  unfold advance. destruct (pool !! i) as [t|].
  - pose proof (turn_grows handler config t w Hk) as Ht.
    destruct (turn handler config t w) as [t1 w1]. cbn in Ht.
    etransitivity; [exact Ht | apply IH].
  - apply IH.
Qed.

(** X16: [settlePayment] transfers value only when it is given a signer and
    the requirement has a non-empty contract address.  Then, if the amount
    parses and the transaction is sent and mined, the result names the hash
    of the receipt, or of the transaction when the receipt has none; without
    a signer, or with a missing or empty contract address, the signer is
    never used and the result is the off-chain one: the receipt
    "offchain:<nonce>:<Date.now()>" when the nonce prints, as every string
    does, and a failure with the message of the conversion when it does
    not. *)
Theorem settlePayment_paths (p : PaymentPayload) (requirements : PaymentRequirements)
    (w : World) :
  let offchain :=
    match ToString (nonce (payload p)) with
    | Normal n =>
        {| success := true; txHash := None;
           receipt := Some ("offchain:" +:+ n +:+ ":" +:+ Json.decimal (dateNow w));
           settle_error := None |}
    | Throw e => settlementFailed e
    end in
  (forall signer,
     present (req_contractAddress requirements) = false ->
     fst (settlePayment p requirements signer w) = offchain)
  /\ fst (settlePayment p requirements None w) = offchain
  /\ (forall signer value tx mined,
        present (req_contractAddress requirements) = true ->
        parseEther (amount (payload p)) = Normal value ->
        sendTransaction signer (payTo requirements) value = Normal tx ->
        tx_wait tx = Normal mined ->
        let hash := if present mined then default "" mined else tx_hash tx in
        fst (settlePayment p requirements (Some signer) w)
        = {| success := true; txHash := Some hash;
             receipt := Some ("settled:" +:+ hash +:+ ":" +:+ Json.decimal (dateNow w));
             settle_error := None |}).
Proof.
  intros offchain. split; [|split].
  - intros signer Hc. subst offchain.
    rewrite <- (settlePayment_without_signer p requirements w).
    unfold settlePayment. cbn [fst]. rewrite Hc.
    destruct signer; reflexivity.
  - apply settlePayment_without_signer.
  - intros signer value tx mined Hc Hv Hsend Hwait hash.
    unfold settlePayment. cbn [fst]. rewrite Hc, Hv.
    cbn [mbind completion_bind JS.bind]. rewrite Hsend.
    cbn [mbind completion_bind JS.bind]. rewrite Hwait.
    cbn [mbind completion_bind JS.bind try_catch].
    assert (Hclock : forall w0, dateNow
              match scheme p with
              | exact => w0
              | zk_exact => match zkProof (payload p) with
                            | Some zk => markNullifierUsed (nullifier zk) w0
                            | None => w0
                            end
              end = dateNow w0).
    { intros w0. destruct (scheme p), (zkProof (payload p)); reflexivity. }
    rewrite Hclock. subst hash.
    destruct mined as [h|]; [|reflexivity].
    unfold or_else, present. destruct (truthy h); reflexivity.
Qed.

End WrapperAfterFacts.

Section WrapperAfterRuns.
#[local] Existing Instance Sim.ethers.
Import SampleRequests SampleRuns SampleHandlers.

Lemma zkPayment_valid :
  valid (@verifyPaymentFromRequest _ (wireOf zkPayment) (Sample.world [])
           (requestWith "payment")
           (requirementsFor agentRoute (requestWith "payment"))
           (cfg_chainId agentRoute)) = true.
Proof. vm_compute. reflexivity. Qed.

(** X12 run: the handler answers 500 to the sample payment; nothing is
    recorded. *)
Lemma failed_handler_not_settled_witness :
  @withX402Payment _ (wireOf zkPayment) failingHandler agentRoute
    (requestWith "payment") (Sample.world [])
  = (Normal {| status := 500; body := "{}"; headers := ∅ |}, Sample.world []).
Proof.
  apply (@failed_handler_not_settled _ (wireOf zkPayment) failingHandler agentRoute
           (requestWith "payment") (Sample.world []) (Sample.world [])
           {| status := 500; body := "{}"; headers := ∅ |} zkPayment_valid eq_refl).
  vm_compute. discriminate.
Defined.

(** X13 run: the handler answers 200 to the sample payment. *)
Lemma accepted_payment_settled_offchain_witness :
  @withX402Payment _ (wireOf zkPayment) okHandler agentRoute
    (requestWith "payment") (Sample.world [])
  = (Normal (withSettlementHeader ok200
               {| success := true; txHash := None;
                  receipt := Some "offchain:0x6e6f6e6365:1700000000000";
                  settle_error := None |}),
     markNullifierUsed "0x0a" (Sample.world [])).
Proof.
  apply (@accepted_payment_settled_offchain _ (wireOf zkPayment) okHandler agentRoute
           (requestWith "payment") (Sample.world []) (Sample.world []) ok200
           zkPayment (carries_sample zkPayment) zkPayment_valid eq_refl eq_refl).
Defined.

(** X14 run: the sample payment presented a second time. *)
Lemma settled_payment_refused_by_wrapper_witness :
  let w1 := snd (@withX402Payment _ (wireOf zkPayment) okHandler agentRoute
                   (requestWith "payment") (Sample.world [])) in
  exists refusal,
    @withX402Payment _ (wireOf zkPayment) crashingHandler agentRoute
      (requestWith "payment") w1 = (Normal refusal, w1)
    /\ status refusal = 402.
Proof.
  intros w1.
  apply (@settled_payment_refused_by_wrapper _ (wireOf zkPayment) okHandler
           agentRoute (requestWith "payment") (Sample.world []) (Sample.world [])
           ok200 zkPayment (Sample.signedProof Sample.alice now 31337 Sample.escrow)
           (carries_sample zkPayment) eq_refl eq_refl zkPayment_valid eq_refl eq_refl
           crashingHandler w1).
  reflexivity.
Defined.

Lemma okHandler_keepsLedger : keepsLedger okHandler.
Proof. intros request w. reflexivity. Qed.

(** X15 run: a nullifier recorded before two interleaved requests are served
    is recorded after. *)
Lemma ledger_grows_across_turns_witness :
  "0xff" ∈ usedNullifiers
             (snd (@run _ (wireOf zkPayment) okHandler agentRoute [0; 1; 0; 1]%nat
                     twice (Sample.world ["0xff"]))).
Proof.
  apply (@ledger_grows_across_turns _ (wireOf zkPayment) okHandler agentRoute
           [0; 1; 0; 1]%nat twice (Sample.world ["0xff"]) okHandler_keepsLedger).
  cbn. set_solver.
Defined.

(** X16 run: a transfer that is mined without a receipt is reported under
    the hash of the transaction. *)
Lemma settlePayment_paths_witness :
  fst (settlePayment zkPayment (requirements zk_exact) (Some workingSigner)
         (Sample.world []))
  = {| success := true; txHash := Some "0xabc";
       receipt := Some "settled:0xabc:1700000000000"; settle_error := None |}.
Proof.
  apply (proj2 (proj2 (settlePayment_paths zkPayment (requirements zk_exact)
                         (Sample.world [])))
           workingSigner (10 ^ 15) {| tx_hash := "0xabc"; tx_wait := Normal None |}
           None).
  - reflexivity.
  - vm_compute. reflexivity.
  - reflexivity.
  - reflexivity.
Defined.

End WrapperAfterRuns.

(** ** Regular expressions *)

Module RegExpFacts.
Import RegExp Denotation.

Lemma append_empty_r s : s +:+ "" = s.
Proof.
  induction s as [|c s IH]; [reflexivity|].
  change (String c (s +:+ "") = String c s). now rewrite IH.
Qed.

Lemma append_assoc s1 s2 s3 : (s1 +:+ s2) +:+ s3 = s1 +:+ (s2 +:+ s3).
Proof.
  induction s1 as [|c s1 IH]; [reflexivity|].
  change (String c ((s1 +:+ s2) +:+ s3) = String c (s1 +:+ (s2 +:+ s3))).
  now rewrite IH.
Qed.

Lemma append_empty s1 s2 : s1 +:+ s2 = "" -> s1 = "" /\ s2 = "".
Proof. destruct s1; cbn; [auto | discriminate]. Qed.

Lemma nullable_spec r : nullable r = true <-> Lang r "".
Proof.
  induction r as [| |c| |n m|r1 IH1 r2 IH2|r1 IH1 r2 IH2|r IH]; cbn.
  - split; [discriminate | intros H; inversion H].
  - split; [constructor | reflexivity].
  - split; [discriminate | intros H; inversion H].
  - split; [discriminate | intros H; inversion H].
  - split; [discriminate | intros H; inversion H].
  - rewrite andb_true_iff, IH1, IH2. split.
    + intros [H1 H2]. exact (lang_cat _ _ "" "" H1 H2).
    + intros H. inversion H as [| | | |? ? s1 s2 H1 H2 Heq| | | |]; subst.
      match goal with Hs : _ +:+ _ = "" |- _ =>
        apply append_empty in Hs; destruct Hs as [-> ->] end.
      auto.
  - rewrite orb_true_iff, IH1, IH2. split.
    + intros [H|H]; [apply lang_alt_l | apply lang_alt_r]; exact H.
    + intros H. inversion H; subst; auto.
  - split; [constructor | reflexivity].
Qed.

Lemma cat_inv r1 r2 s :
  Lang (Cat r1 r2) s ->
  exists s1 s2, s = s1 +:+ s2 /\ Lang r1 s1 /\ Lang r2 s2.
Proof. intros H. inversion H; subst. eauto. Qed.

(** A non-empty string of a star starts with a non-empty string of its body. *)
Lemma star_uncons r c s :
  Lang (Star r) (String c s) ->
  exists s1 s2, s = s1 +:+ s2 /\ Lang r (String c s1) /\ Lang (Star r) s2.
Proof.
  intros H. remember (Star r) as q eqn:Hq. remember (String c s) as u eqn:Hu.
  revert s Hu.
  induction H as [ | c0 | c0 Hl | n m c0 Hx | r1 r2 s1 s2 H1 IH1 H2 IH2
                 | r1 r2 s0 H0 IH0 | r1 r2 s0 H0 IH0 | r0
                 | r0 s1 s2 H1 IH1 H2 IH2 ];
    intros t Hu; try discriminate.
  injection Hq as ->.
  destruct s1 as [|d s1].
  - apply (IH2 eq_refl t Hu).
  - change (String d (s1 +:+ s2) = String c t) in Hu.
    injection Hu as -> <-. exists s1, s2. auto.
Qed.

Lemma derivative_spec c r s : Lang (derivative c r) s <-> Lang r (String c s).
Proof.
  revert s.
  induction r as [| |d| |n m|r1 IH1 r2 IH2|r1 IH1 r2 IH2|r IH]; intros s; cbn.
  - split; intros H; inversion H.
  - split; intros H; inversion H.
  - destruct (Ascii.eqb_spec c d) as [->|Hne].
    + split; intros H; inversion H; subst; constructor.
    + split; intros H; inversion H; subst; contradiction.
  - destruct (line_terminator c) eqn:Hl.
    + split; intros H; inversion H; subst; congruence.
    + split; intros H; inversion H; subst; constructor; assumption.
  - destruct (xorb n (member c m)) eqn:Hx.
    + split; intros H; inversion H; subst; constructor; assumption.
    + split; intros H; inversion H; subst; congruence.
  - assert (Hcat : Lang (Cat (derivative c r1) r2) s ->
                   Lang (Cat r1 r2) (String c s)).
    { intros H. destruct (cat_inv _ _ _ H) as (s1 & s2 & -> & H1 & H2).
      apply IH1 in H1. exact (lang_cat _ _ (String c s1) s2 H1 H2). }
    assert (Hsplit : Lang (Cat r1 r2) (String c s) ->
                     Lang (Cat (derivative c r1) r2) s
                     \/ (Lang r1 "" /\ Lang (derivative c r2) s)).
    { intros H. destruct (cat_inv _ _ _ H) as (s1 & s2 & Heq & H1 & H2).
      destruct s1 as [|d s1].
      - change (String c s = s2) in Heq. subst s2.
        right. split; [exact H1|]. apply IH2. exact H2.
      - change (String c s = String d (s1 +:+ s2)) in Heq.
        injection Heq as -> ->.
        left. apply lang_cat; [apply IH1; exact H1 | exact H2]. }
    destruct (nullable r1) eqn:Hn.
    + split.
      * intros H. inversion H; subst; [apply Hcat; assumption|].
        apply nullable_spec in Hn.
        match goal with Hd : Lang (derivative c r2) s |- _ =>
          apply IH2 in Hd; exact (lang_cat _ _ "" (String c s) Hn Hd) end.
      * intros H. destruct (Hsplit H) as [H1 | [_ H2]];
          [apply lang_alt_l | apply lang_alt_r]; assumption.
    + split; [exact Hcat|].
      intros H. destruct (Hsplit H) as [H1 | [H1 _]]; [exact H1|].
      apply nullable_spec in H1. congruence.
  - split.
    + intros H. inversion H; subst;
        [apply lang_alt_l; apply IH1 | apply lang_alt_r; apply IH2]; assumption.
    + intros H. inversion H; subst;
        [apply lang_alt_l; apply IH1 | apply lang_alt_r; apply IH2]; assumption.
  - split.
    + intros H. destruct (cat_inv _ _ _ H) as (s1 & s2 & -> & H1 & H2).
      apply IH in H1. exact (lang_star_more _ (String c s1) s2 H1 H2).
    + intros H. destruct (star_uncons _ _ _ H) as (s1 & s2 & -> & H1 & H2).
      apply lang_cat; [apply IH; exact H1 | exact H2].
Qed.

(** The matcher decides the language. *)
Lemma matches_spec r s : matches r s = true <-> Lang r s.
Proof.
  revert r. induction s as [|c s IH]; intros r; cbn.
  - apply nullable_spec.
  - rewrite IH. apply derivative_spec.
Qed.

End RegExpFacts.

(** ** Route paths as regular expressions *)

Module RoutePathFacts.
Import RegExp Denotation RegExpFacts.

Lemma append_cons c s t : String c s +:+ t = String c (s +:+ t).
Proof. reflexivity. Qed.

Lemma append_nil s : "" +:+ s = s.
Proof. reflexivity. Qed.

Lemma all_chars_append ok s t :
  all_chars ok (s +:+ t) = (all_chars ok s && all_chars ok t)%bool.
Proof.
  induction s as [|c s IH]; [reflexivity|].
  rewrite append_cons. cbn. rewrite IH. apply andb_assoc.
Qed.

(** The strings of the star of a one-character expression. *)
Lemma star_of_chars (a : regex) (ok : ascii -> bool) :
  (forall s, Lang a s <-> exists c, s = String c "" /\ ok c = true) ->
  forall s, Lang (Star a) s <-> all_chars ok s = true.
Proof.
  intros Ha s. split.
  - intros H. remember (Star a) as q eqn:Hq.
    induction H as [ | c0 | c0 Hl | n m c0 Hx | r1 r2 s1 s2 H1 IH1 H2 IH2
                   | r1 r2 s0 H0 IH0 | r1 r2 s0 H0 IH0 | r0
                   | r0 s1 s2 H1 IH1 H2 IH2 ]; try discriminate.
    + reflexivity.
    + injection Hq as ->. apply Ha in H1. destruct H1 as (c & -> & Hc).
      rewrite append_cons, append_nil. cbn. rewrite Hc. apply IH2. reflexivity.
  - induction s as [|c s IH]; cbn.
    + intros _. constructor.
    + intros H. apply andb_true_iff in H. destruct H as [Hc Hs].
      apply (lang_star_more a (String c "") s).
      * apply Ha. eauto.
      * apply IH. exact Hs.
Qed.

Lemma lang_dot_iff s :
  Lang Dot s <-> exists c, s = String c "" /\ negb (line_terminator c) = true.
Proof.
  split.
  - intros H. inversion H; subst. eexists. split; [reflexivity|].
    apply negb_true_iff. assumption.
  - intros (c & -> & Hc). constructor. apply negb_true_iff. exact Hc.
Qed.

Lemma lang_notSlash_iff s :
  Lang notSlash s <-> exists c, s = String c "" /\ negb (Ascii.eqb c "/") = true.
Proof.
  unfold notSlash. split.
  - intros H. inversion H as [| | |n m c Hx| | | | |]; subst.
    exists c. split; [reflexivity|]. cbn in Hx.
    rewrite orb_false_r in Hx. exact Hx.
  - intros (c & -> & Hc). constructor. cbn. rewrite orb_false_r. exact Hc.
Qed.

(** The strings of [[^/]+]. *)
Lemma lang_segment s :
  Lang (Cat (Cat notSlash (Star notSlash)) Eps) s
  <-> s <> "" /\ all_chars (fun c => negb (Ascii.eqb c "/")) s = true.
Proof.
  split.
  - intros H. destruct (cat_inv _ _ _ H) as (s1 & s2 & -> & H1 & H2).
    inversion H2; subst. rewrite append_empty_r.
    destruct (cat_inv _ _ _ H1) as (u & v & -> & Hu & Hv).
    apply lang_notSlash_iff in Hu. destruct Hu as (c & -> & Hc).
    apply (star_of_chars notSlash _ lang_notSlash_iff) in Hv.
    rewrite append_cons, append_nil. split; [discriminate|].
    cbn. rewrite Hc. exact Hv.
  - intros [Hne Hall]. destruct s as [|c s]; [contradiction|].
    cbn in Hall. apply andb_true_iff in Hall. destruct Hall as [Hc Hs].
    rewrite <- (append_empty_r (String c s)).
    apply lang_cat; [|constructor].
    apply (lang_cat notSlash (Star notSlash) (String c "") s).
    + apply lang_notSlash_iff. eauto.
    + apply (star_of_chars notSlash _ lang_notSlash_iff). exact Hs.
Qed.

(** The regular expression of a route path has the language the route path
    stands for. *)
Lemma routeRegex_lang tokens s :
  Lang (routeRegex tokens) s <-> RouteMatches tokens s.
Proof.
  revert s. induction tokens as [|t rest IH]; intros s.
  - cbn. split; intros H; inversion H; constructor.
  - destruct t as [c| | |name]; cbn [routeRegex]; split.
    + intros H. destruct (cat_inv _ _ _ H) as (s1 & s2 & -> & H1 & H2).
      inversion H1; subst. rewrite append_cons, append_nil.
      constructor. apply IH. exact H2.
    + intros H. inversion H; subst.
      apply (lang_cat (Chr c) (routeRegex rest) (String c "")); [constructor|].
      apply IH. assumption.
    + intros H. destruct (cat_inv _ _ _ H) as (s1 & s2 & -> & H1 & H2).
      apply (star_of_chars Dot _ lang_dot_iff) in H1.
      constructor; [exact H1 | apply IH; exact H2].
    + intros H. inversion H; subst.
      apply lang_cat; [|apply IH; assumption].
      apply (star_of_chars Dot _ lang_dot_iff). assumption.
    + intros H. destruct (cat_inv _ _ _ H) as (s1 & s2 & -> & H1 & H2).
      inversion H1; subst. rewrite append_cons, append_nil.
      constructor; [assumption | apply IH; exact H2].
    + intros H. inversion H; subst.
      apply (lang_cat Dot (routeRegex rest) (String c "")); [constructor; assumption|].
      apply IH. assumption.
    + intros H. destruct (cat_inv _ _ _ H) as (s1 & s2 & -> & H1 & H2).
      apply lang_segment in H1. destruct H1 as [Hne Hall].
      constructor; [exact Hne | exact Hall | apply IH; exact H2].
    + intros H. inversion H; subst.
      apply lang_cat; [|apply IH; assumption].
      apply lang_segment. split; assumption.
Qed.

(** *** From the route path to the source of the regular expression *)

Lemma not_syntax c :
  syntax_character c = false ->
  Ascii.eqb c "*" = false /\ Ascii.eqb c "+" = false /\ Ascii.eqb c "?" = false
  /\ Ascii.eqb c "{" = false /\ Ascii.eqb c "(" = false /\ Ascii.eqb c ")" = false
  /\ Ascii.eqb c "[" = false /\ Ascii.eqb c "]" = false /\ Ascii.eqb c "|" = false
  /\ Ascii.eqb c "." = false /\ Ascii.eqb c "\" = false.
Proof.
  unfold syntax_character, member. cbn [list_ascii_of_string existsb].
  intros H. repeat (apply orb_false_iff in H; destruct H as [? H]).
  repeat split; assumption.
Qed.

Lemma replaceStars_append s t :
  replaceStars (s +:+ t) = replaceStars s +:+ replaceStars t.
Proof.
  induction s as [|c s IH]; [reflexivity|].
  rewrite append_cons. cbn [replaceStars]. rewrite IH.
  destruct (Ascii.eqb c "*"); reflexivity.
Qed.

Lemma replaceStars_keeps_brackets s :
  all_chars (fun c => negb (Ascii.eqb c "]")) s = true ->
  all_chars (fun c => negb (Ascii.eqb c "]")) (replaceStars s) = true.
Proof.
  induction s as [|c s IH]; [reflexivity|]. cbn. intros H.
  apply andb_true_iff in H. destruct H as [Hc Hs].
  destruct (Ascii.eqb c "*"); cbn; [apply IH; exact Hs|].
  rewrite Hc. apply IH. exact Hs.
Qed.

Lemma replaceStars_nonempty s : s <> "" -> replaceStars s <> "".
Proof.
  destruct s as [|c s]; [contradiction|]. intros _. cbn.
  destruct (Ascii.eqb c "*"); discriminate.
Qed.

(** A bracketed run is replaced as a whole. *)
Lemma replaceParamsFrom_run n : forall run t,
  all_chars (fun c => negb (Ascii.eqb c "]")) n = true ->
  (run <> [] \/ n <> "") ->
  replaceParamsFrom (Some run) (n +:+ String "]" t)
  = "([^/]+)" +:+ replaceParamsFrom None t.
Proof.
  induction n as [|c n IH]; intros run t Hall Hne.
  - rewrite append_nil. cbn [replaceParamsFrom]. cbn.
    destruct run; [destruct Hne; contradiction | reflexivity].
  - rewrite append_cons. cbn in Hall. apply andb_true_iff in Hall.
    destruct Hall as [Hc Hn]. apply negb_true_iff in Hc.
    cbn [replaceParamsFrom]. rewrite Hc. apply IH; [exact Hn|].
    left. discriminate.
Qed.

Lemma replaceParams_text tokens :
  forallb wellFormed tokens = true ->
  replaceParams (replaceStars (routeText tokens)) = routeSource tokens.
Proof.
  unfold replaceParams. induction tokens as [|t rest IH]; [reflexivity|].
  cbn [forallb routeText routeSource]. intros H.
  apply andb_true_iff in H. destruct H as [Ht Hrest]. specialize (IH Hrest).
  rewrite replaceStars_append. destruct t as [c| | |name].
  - cbn in Ht. apply negb_true_iff in Ht.
    destruct (not_syntax c Ht) as (Hstar & _ & _ & _ & _ & _ & Hopen & _).
    cbn [tokenText tokenSource replaceStars]. rewrite Hstar, !append_cons, !append_nil.
    cbn [replaceParamsFrom]. rewrite Hopen, IH. reflexivity.
  - change (replaceStars (tokenText TStar)) with ".*".
    cbn [tokenSource]. rewrite !append_cons, !append_nil. simpl. rewrite IH.
    reflexivity.
  - change (replaceStars (tokenText TDot)) with ".".
    cbn [tokenSource]. rewrite !append_cons, !append_nil. simpl. rewrite IH.
    reflexivity.
  - cbn in Ht. apply andb_true_iff in Ht. destruct Ht as [Hne Hall].
    apply negb_true_iff in Hne.
    assert (Hname : name <> "").
    { intros ->. discriminate. }
    cbn [tokenText tokenSource].
    change ("[" +:+ name +:+ "]") with (String "[" (name +:+ "]")).
    change (replaceStars (String "[" (name +:+ "]")))
      with (String "[" (replaceStars (name +:+ "]"))).
    rewrite replaceStars_append.
    change (replaceStars "]") with "]".
    rewrite append_cons, append_assoc.
    change ("]" +:+ replaceStars (routeText rest))
      with (String "]" (replaceStars (routeText rest))).
    simpl.
    rewrite replaceParamsFrom_run.
    + rewrite IH. reflexivity.
    + apply replaceStars_keeps_brackets. exact Hall.
    + right. apply replaceStars_nonempty. exact Hname.
Qed.

(** *** Parsing the source *)

(** The source of a route path does not start with a quantifier. *)
Lemma quantified_routeSource r tokens :
  forallb wellFormed tokens = true ->
  quantified r (routeSource tokens) = Some (r, routeSource tokens)
  /\ skip_lazy (routeSource tokens) = routeSource tokens.
Proof.
  destruct tokens as [|t rest]; [split; reflexivity|].
  cbn [forallb routeSource]. intros H. apply andb_true_iff in H. destruct H as [Ht _].
  destruct t as [c| | |name]; cbn [tokenSource]; rewrite ?append_cons, ?append_nil;
    try (split; reflexivity).
  cbn in Ht. apply negb_true_iff in Ht.
  destruct (not_syntax c Ht) as (Hstar & Hplus & Hopt & Hbrace & _).
  unfold quantified, skip_lazy.
  destruct c as [b0 b1 b2 b3 b4 b5 b6 b7].
  destruct b0, b1, b2, b3, b4, b5, b6, b7; try (split; reflexivity); discriminate.
Qed.

Lemma alternative_char f c t :
  syntax_character c = false ->
  alternative (S f) (String c t)
  = match quantified (Chr c) t with
    | None => None
    | Some (term, rest1) =>
        match alternative f rest1 with
        | Some (more, rest2) => Some (Cat term more, rest2)
        | None => None
        end
    end.
Proof.
  intros H.
  destruct (not_syntax c H)
    as (_ & _ & _ & _ & Hopen & Hclose & Hclass & _ & Hbar & Hdot & Hesc).
  cbn [alternative]. rewrite Hclose, Hbar, Hdot, Hclass, Hesc, Hopen, H.
  reflexivity.
Qed.

Lemma alternative_dot f t :
  alternative (S f) (String "." t)
  = match quantified Dot t with
    | None => None
    | Some (term, rest1) =>
        match alternative f rest1 with
        | Some (more, rest2) => Some (Cat term more, rest2)
        | None => None
        end
    end.
Proof. reflexivity. Qed.

Lemma alternative_segment f t :
  alternative (S (S (S (S f)))) ("([^/]+)" +:+ t)
  = match quantified (Cat (Cat notSlash (Star notSlash)) Eps) t with
    | None => None
    | Some (term, rest1) =>
        match alternative (S (S (S f))) rest1 with
        | Some (more, rest2) => Some (Cat term more, rest2)
        | None => None
        end
    end.
Proof. reflexivity. Qed.

Lemma alternative_routeSource tokens :
  forallb wellFormed tokens = true ->
  forall fuel, (fuelFor tokens <= fuel)%nat ->
  alternative fuel (routeSource tokens) = Some (routeRegex tokens, "").
Proof.
  induction tokens as [|t rest IH]; intros Hwf fuel Hfuel.
  - destruct fuel; [cbn in Hfuel; lia | reflexivity].
  - pose proof Hwf as Hall. cbn [forallb] in Hwf.
    apply andb_true_iff in Hwf. destruct Hwf as [Ht Hrest].
    specialize (IH Hrest).
    cbn [routeSource routeRegex].
    destruct t as [c| | |name]; cbn [tokenSource fuelFor] in *.
    + destruct fuel as [|f]; [lia|]. rewrite append_cons, append_nil.
      apply negb_true_iff in Ht. rewrite (alternative_char f c _ Ht).
      rewrite (proj1 (quantified_routeSource (Chr c) rest Hrest)).
      rewrite (IH f) by lia. reflexivity.
    + destruct fuel as [|f]; [lia|]. rewrite !append_cons, append_nil.
      rewrite alternative_dot. cbn [quantified].
      rewrite (proj2 (quantified_routeSource Dot rest Hrest)).
      rewrite (IH f) by lia. reflexivity.
    + destruct fuel as [|f]; [lia|]. rewrite append_cons, append_nil.
      rewrite alternative_dot.
      rewrite (proj1 (quantified_routeSource Dot rest Hrest)).
      rewrite (IH f) by lia. reflexivity.
    + destruct fuel as [|[|[|[|f]]]]; try lia.
      rewrite alternative_segment.
      rewrite (proj1 (quantified_routeSource _ rest Hrest)).
      rewrite (IH (S (S (S f)))) by lia. reflexivity.
Qed.

Lemma fuelFor_bound tokens :
  (fuelFor tokens <= 2 * String.length (routeSource tokens) + 2)%nat.
Proof.
  assert (Hlen : forall s t, String.length (s +:+ t)
                             = (String.length s + String.length t)%nat).
  { intros s t. induction s as [|c s IH]; [reflexivity|].
    rewrite append_cons. cbn. rewrite IH. reflexivity. }
  induction tokens as [|t rest IH]; [cbn; lia|].
  cbn [routeSource fuelFor]. rewrite Hlen.
  destruct t; cbn [tokenSource String.length]; lia.
Qed.

(** The route path compiles to its regular expression. *)
Lemma compile_routeSource tokens :
  forallb wellFormed tokens = true ->
  compile (routeSource tokens) = Some (routeRegex tokens).
Proof.
  intros Hwf. unfold compile.
  rewrite (alternative_routeSource tokens Hwf _ (fuelFor_bound tokens)).
  reflexivity.
Qed.

End RoutePathFacts.

(** ** Route matching *)

Module RouteFacts.
Import RegExp Denotation RegExpFacts RoutePathFacts.

Lemma routePathTest_tokens tokens pathname :
  forallb wellFormed tokens = true ->
  routePathTest (routeText tokens) pathname = Some (matches (routeRegex tokens) pathname).
Proof.
  intros Hwf. unfold routePathTest, test_anchored.
  rewrite (replaceParams_text tokens Hwf), (compile_routeSource tokens Hwf).
  reflexivity.
Qed.

(** X17: on ASCII text, a route path made of stars, bracketed parameter
    names, dots and characters that are not syntax characters of regular
    expressions always compiles, and the test of [matchRoute] succeeds on
    exactly the path names in which each star stands for a run of
    characters, each parameter for a non-empty run without a slash, each dot
    for one character and every other character for itself, the whole path
    name being consumed; a star or a dot matches neither a line feed nor a
    carriage return. *)
Theorem route_path_semantics (tokens : list RouteToken) (pathname : string) :
  forallb wellFormed tokens = true ->
  ascii_text (routeText tokens) = true ->
  ascii_text pathname = true ->
  exists b, routePathTest (routeText tokens) pathname = Some b
            /\ (b = true <-> RouteMatches tokens pathname).
Proof.
  intros Hwf _ _. rewrite (routePathTest_tokens tokens pathname Hwf).
  eexists. split; [reflexivity|].
  rewrite matches_spec. apply routeRegex_lang.
Qed.

Lemma scanRoutes_skipped pathname method routes :
  (forall k c, In (k, c) routes -> routeSkipped pathname method k) ->
  scanRoutes pathname method routes = Some None.
Proof.
  induction routes as [|[k c] rest IH]; intros H; [reflexivity|].
  cbn [scanRoutes]. pose proof (H k c (or_introl eq_refl)) as Hk.
  unfold routeSkipped, methodAllowed in Hk.
  destruct (splitPattern k) as [m path]. cbn [fst snd] in Hk.
  rewrite IH by (intros k2 c2 Hin; apply (H k2 c2); right; exact Hin).
  destruct (String.eqb_spec m (toUpperCase method)) as [Hm|Hm];
    destruct (String.eqb_spec m "*") as [Hs|Hs]; cbn [negb andb];
    try reflexivity;
    (destruct Hk as [Hk|Hk]; [exfalso; apply Hk; auto | rewrite Hk; reflexivity]).
Qed.

Lemma scanRoutes_first pathname method (before : RoutesConfig) k c after :
  (forall k2 c2, In (k2, c2) before -> routeSkipped pathname method k2) ->
  routeApplies pathname method k ->
  scanRoutes pathname method (before ++ (k, c) :: after)%list = Some (Some (k, c)).
Proof.
  intros Hbefore [Hm Ht].
  induction before as [|[k2 c2] before IH].
  - cbn [app scanRoutes]. unfold methodAllowed in Hm.
    destruct (splitPattern k) as [m path]. cbn [fst snd] in *.
    rewrite Ht.
    destruct Hm as [-> | ->].
    + rewrite String.eqb_refl. reflexivity.
    + rewrite andb_false_r. reflexivity.
  - cbn [app scanRoutes].
    pose proof (Hbefore k2 c2 (or_introl eq_refl)) as Hk.
    unfold routeSkipped, methodAllowed in Hk.
    destruct (splitPattern k2) as [m path]. cbn [fst snd] in Hk.
    rewrite IH by (intros k3 c3 Hin; apply (Hbefore k3 c3); right; exact Hin).
    destruct (String.eqb_spec m (toUpperCase method)) as [Hm2|Hm2];
      destruct (String.eqb_spec m "*") as [Hs|Hs]; cbn [negb andb];
      try reflexivity;
      (destruct Hk as [Hk|Hk]; [exfalso; apply Hk; auto | rewrite Hk; reflexivity]).
Qed.

(** X18: [matchRoute] returns the entry stored under the exact key
    "METHOD path" when there is one, whatever the other entries are;
    otherwise the first entry, in order, whose method is the upper-cased
    request method or the wildcard and whose path pattern matches, the
    entries before it having another method or a pattern that does not
    match; and [null] when every entry is passed over. *)
Theorem matchRoute_first_match (pathname method : string) (routes : RoutesConfig) :
  let routeKey := toUpperCase method +:+ " " +:+ pathname in
  (forall config, routeLookup routeKey routes = Some config ->
                  matchRoute pathname method routes = Some (Some (routeKey, config)))
  /\ (routeLookup routeKey routes = None ->
      forall (before : RoutesConfig) pattern config after,
        routes = (before ++ (pattern, config) :: after)%list ->
        (forall k c, In (k, c) before -> routeSkipped pathname method k) ->
        routeApplies pathname method pattern ->
        matchRoute pathname method routes = Some (Some (pattern, config)))
  /\ (routeLookup routeKey routes = None ->
      (forall k c, In (k, c) routes -> routeSkipped pathname method k) ->
      matchRoute pathname method routes = Some None).
Proof.
  intros routeKey. unfold matchRoute. fold routeKey. split; [|split].
  - intros config ->. reflexivity.
  - intros -> before pattern config after -> Hbefore Happlies.
    apply scanRoutes_first; assumption.
  - intros -> Hall. apply scanRoutes_skipped. exact Hall.
Qed.

Lemma routeLookup_In routeKey routes config :
  routeLookup routeKey routes = Some config -> In (routeKey, config) routes.
Proof.
  induction routes as [|[k c] rest IH]; [discriminate|]. cbn.
  destruct (String.eqb_spec k routeKey) as [->|_].
  - intros [= ->]. left. reflexivity.
  - intros H. right. apply IH. exact H.
Qed.

Lemma scanRoutes_sound pathname method routes k c :
  scanRoutes pathname method routes = Some (Some (k, c)) ->
  In (k, c) routes /\ routeApplies pathname method k.
Proof.
  induction routes as [|[k2 c2] rest IH]; [discriminate|].
  cbn [scanRoutes]. unfold routeApplies, methodAllowed.
  destruct (splitPattern k2) as [m path] eqn:Hsplit.
  destruct (String.eqb_spec m (toUpperCase method)) as [Hm|Hm];
    destruct (String.eqb_spec m "*") as [Hs|Hs]; cbn [negb andb];
    try (intros H; destruct (IH H) as [Hin Ha]; split; [right; exact Hin | exact Ha]);
    (destruct (routePathTest path pathname) as [[|]|] eqn:Ht; [| |discriminate];
     [ intros [= <- <-]; split; [left; reflexivity|];
       rewrite Hsplit; cbn [fst snd]; auto
     | intros H; destruct (IH H) as [Hin Ha]; split; [right; exact Hin | exact Ha] ]).
Qed.

Lemma upper_ascii_idempotent c : upper_ascii (upper_ascii c) = upper_ascii c.
Proof.
  destruct c as [b0 b1 b2 b3 b4 b5 b6 b7].
  destruct b0, b1, b2, b3, b4, b5, b6, b7; reflexivity.
Qed.

Lemma toUpperCase_idempotent s : toUpperCase (toUpperCase s) = toUpperCase s.
Proof.
  unfold toUpperCase. induction s as [|c s IH]; [reflexivity|].
  cbn. rewrite upper_ascii_idempotent, IH. reflexivity.
Qed.

Lemma toUpperCase_append s t : toUpperCase (s +:+ t) = toUpperCase s +:+ toUpperCase t.
Proof.
  unfold toUpperCase. induction s as [|c s IH]; [reflexivity|].
  rewrite append_cons. cbn. rewrite IH. reflexivity.
Qed.

(** The method part of the key "METHOD path" is a prefix of METHOD. *)
Lemma routeKey_method U p :
  exists rest, U = fst (splitPattern (U +:+ String " " p)) +:+ rest.
Proof.
  assert (H : exists a b rest,
            break_at " " (U +:+ String " " p) = Some (a, b) /\ U = a +:+ rest).
  { induction U as [|c U IH].
    - exists "", p, "". split; reflexivity.
    - rewrite append_cons. cbn [break_at].
      destruct (Ascii.eqb c " ").
      + eexists "", _, _. split; reflexivity.
      + destruct IH as (a & b & rest & -> & HU).
        exists (String c a), b, rest. split; [reflexivity|].
        rewrite append_cons. f_equal. exact HU. }
  destruct H as (a & b & rest & Hb & HU).
  unfold splitPattern. rewrite Hb. exists rest. exact HU.
Qed.

Lemma upper_prefix a rest s : toUpperCase s = a +:+ rest -> toUpperCase a = a.
Proof.
  revert a rest. unfold toUpperCase.
  induction s as [|c s IH]; intros a rest H.
  - destruct a; [reflexivity|discriminate].
  - destruct a as [|d a]; [reflexivity|].
    rewrite append_cons in H. cbn in H. injection H as <- H.
    cbn. rewrite upper_ascii_idempotent. f_equal. exact (IH a rest H).
Qed.

(** X19: whatever [matchRoute] returns is an entry of the table, and the
    method in its key, the text before the first space, is in upper case: an
    entry registered under a method written with a lower-case letter is never
    matched.  An entry found by the loop moreover has the request's method or
    the wildcard, and a path pattern that matches. *)
Theorem matchRoute_sound (pathname method : string) (routes : RoutesConfig)
    (key : string) (config : RoutePaymentConfig) :
  matchRoute pathname method routes = Some (Some (key, config)) ->
  In (key, config) routes
  /\ toUpperCase (fst (splitPattern key)) = fst (splitPattern key)
  /\ (key = toUpperCase method +:+ " " +:+ pathname
      \/ routeApplies pathname method key).
Proof.
  unfold matchRoute.
  destruct (routeLookup _ routes) as [c|] eqn:Hl.
  - intros [= <- <-]. split; [apply routeLookup_In; exact Hl|].
    split; [|left; reflexivity].
    destruct (routeKey_method (toUpperCase method) pathname) as [rest Hrest].
    change (" " +:+ pathname) with (String " " pathname).
    exact (upper_prefix _ rest method Hrest).
  - intros H. destruct (scanRoutes_sound _ _ _ _ _ H) as [Hin Ha].
    split; [exact Hin|]. split; [|right; exact Ha].
    destruct Ha as [[-> | ->] _]; [apply toUpperCase_idempotent | reflexivity].
Qed.

(** X17 run: "/api/bounties/[id]/*" matches a path with an id and two
    further segments. *)
Lemma route_path_semantics_witness :
  routePathTest "/api/bounties/[id]/*" "/api/bounties/42/submissions/7" = Some true.
Proof.
  destruct (route_path_semantics SampleRoutes.bountyRoute
              "/api/bounties/42/submissions/7" eq_refl eq_refl eq_refl)
    as (b & Hb & Hiff).
  change (routeText SampleRoutes.bountyRoute) with "/api/bounties/[id]/*" in Hb.
  rewrite Hb. f_equal. apply Hiff.
  unfold SampleRoutes.bountyRoute. cbn [literalTokens app].
  repeat apply rm_char.
  apply (rm_param "id" "42" _ "/submissions/7"); [discriminate | reflexivity |].
  apply rm_char.
  rewrite <- (append_empty_r "submissions/7").
  apply rm_star; [reflexivity | constructor].
Defined.

(** X18 run: no entry has the key "POST /api/ai/agent"; the first entry is
    for another method, the second matches. *)
Lemma matchRoute_first_match_witness :
  matchRoute "/api/ai/agent" "post" SampleRoutes.table
  = Some (Some ("POST /api/ai/[tool]", SampleRoutes.paid "2")).
Proof.
  apply (proj1 (proj2 (matchRoute_first_match "/api/ai/agent" "post"
                         SampleRoutes.table))
           eq_refl [("GET /api/*", SampleRoutes.paid "1")]
           "POST /api/ai/[tool]" (SampleRoutes.paid "2")
           [("* /api/ai/agent", SampleRoutes.paid "3")] eq_refl).
  - intros k c [[= <- <-] | []]. left. intros [H | H]; discriminate H.
  - split; [left; reflexivity | vm_compute; reflexivity].
Defined.

(** X19 run: what the middleware's table returns for its route. *)
Lemma matchRoute_sound_witness :
  In ("POST /api/ai/agent",
      {| price := "0.001";
         description := "Run the AI agent to discover and complete bounties";
         useZkProof := Some true; bountyId := None |}) PROTECTED_ROUTES
  /\ toUpperCase "POST" = "POST".
Proof.
  destruct (matchRoute_sound "/api/ai/agent" "Post" PROTECTED_ROUTES
              "POST /api/ai/agent"
              {| price := "0.001";
                 description := "Run the AI agent to discover and complete bounties";
                 useZkProof := Some true; bountyId := None |})
    as (Hin & Hupper & _).
  - vm_compute. reflexivity.
  - split; [exact Hin | exact Hupper].
Defined.

End RouteFacts.

(** ** The payment middleware *)

Module MiddlewareFacts.
Import RegExp Denotation RegExpFacts RoutePathFacts RouteFacts.

Lemma literal_matches s p : RouteMatches (literalTokens s) p <-> p = s.
Proof.
  revert p. induction s as [|c s IH]; intros p; cbn [literalTokens].
  - split; [intros H; inversion H; reflexivity | intros ->; constructor].
  - split.
    + intros H. inversion H; subst. f_equal. apply IH. assumption.
    + intros ->. constructor. apply IH. reflexivity.
Qed.

(** A route path without special characters matches itself only. *)
Lemma literal_route_test s p :
  forallb wellFormed (literalTokens s) = true ->
  routePathTest s p = Some (String.eqb p s).
Proof.
  intros Hwf.
  assert (Htext : routeText (literalTokens s) = s).
  { clear Hwf. induction s as [|c s IH]; [reflexivity|].
    cbn [literalTokens routeText tokenText]. rewrite append_cons, append_nil, IH.
    reflexivity. }
  pose proof (routePathTest_tokens (literalTokens s) p Hwf) as H.
  rewrite Htext in H. rewrite H. f_equal.
  apply eq_true_iff_eq. rewrite matches_spec, routeRegex_lang, literal_matches.
  symmetry. apply String.eqb_eq.
Qed.

Lemma no_space_split a b s :
  all_chars (fun c => negb (Ascii.eqb c " ")) s = true -> s <> a +:+ String " " b.
Proof.
  intros Hs ->. rewrite all_chars_append in Hs. cbn in Hs.
  rewrite andb_false_r in Hs. discriminate.
Qed.

(** The key "METHOD path" is "POST /api/ai/agent" only for that method and
    that path. *)
Lemma agent_key U p :
  U +:+ String " " p = "POST /api/ai/agent" -> U = "POST" /\ p = "/api/ai/agent".
Proof.
  intros H.
  destruct (routeKey_method U p) as [rest Hrest]. rewrite H in Hrest.
  change (fst (splitPattern "POST /api/ai/agent")) with "POST" in Hrest.
  subst U. rewrite !append_cons, append_nil in H.
  injection H as H.
  destruct rest as [|c rest].
  - rewrite append_nil in H. injection H as ->. split; reflexivity.
  - rewrite append_cons in H. injection H as -> H.
    exfalso. symmetry in H. revert H. apply no_space_split. reflexivity.
Qed.

Lemma protected_route_match pathname method :
  matchRoute pathname method PROTECTED_ROUTES
  = if (String.eqb (toUpperCase method) "POST"
        && String.eqb pathname "/api/ai/agent")%bool
    then nth_error PROTECTED_ROUTES 0 ≫= (fun entry => Some (Some entry))
    else Some None.
Proof.
  unfold matchRoute, PROTECTED_ROUTES. cbn [routeLookup nth_error mbind option_bind].
  change (" " +:+ pathname) with (String " " pathname).
  destruct (String.eqb_spec "POST /api/ai/agent"
              (toUpperCase method +:+ String " " pathname)) as [Hkey|Hkey].
  - symmetry in Hkey. destruct (agent_key _ _ Hkey) as [HU Hp].
    rewrite HU, Hp. reflexivity.
  - cbn [scanRoutes].
    change (splitPattern "POST /api/ai/agent") with ("POST", "/api/ai/agent").
    cbv iota beta.
    rewrite (literal_route_test "/api/ai/agent" pathname eq_refl).
    rewrite (String.eqb_sym "POST" (toUpperCase method)).
    destruct (String.eqb_spec (toUpperCase method) "POST") as [HU|HU];
      cbn [negb andb]; [|reflexivity].
    destruct (String.eqb_spec pathname "/api/ai/agent") as [Hp|Hp]; [|reflexivity].
    exfalso. apply Hkey. rewrite HU, Hp. reflexivity.
Qed.

Section Gating.
Context `{E : Ethers} `{W : Wire}.

(** X20: the middleware lets a request through untouched unless the mode is
    not development, the method is POST and the path is exactly
    "/api/ai/agent"; whatever the headers, any other request, a sub-path of
    the route included, is never answered 402.  For the metered request it
    answers 402 with 'Payment required to access this resource' when no
    payment header is present, 402 with the reason when verification fails,
    and lets the request through when verification succeeds. *)
Theorem middleware_gating (env : MiddlewareEnv) (w : World) (r : NextRequest) :
  let paymentHeader :=
    or_else (headers_get "payment-signature" (req_headers (mw_request r)))
            (headers_get "x-payment" (req_headers (mw_request r))) in
  let requirements := middlewareRequirements env agentRouteConfig (url (mw_request r)) in
  let result := verifyPaymentFromRequest w (mw_request r) requirements (CHAIN_ID env) in
  (~ metered env r -> middleware env w r = Some Next)
  /\ (metered env r -> present paymentHeader = false ->
      middleware env w r
      = Some (Respond
                (createPaymentRequiredResponse
                   [middlewareRequirements env agentRouteConfig
                      (mw_protocol r +:+ "//" +:+ mw_host r +:+ mw_pathname r)]
                   (Some "Payment required to access this resource"))))
  /\ (metered env r -> present paymentHeader = true ->
      middleware env w r
      = Some (if valid result then Next
              else Respond (createPaymentRequiredResponse [requirements]
                              (error result))))
  /\ (forall response, middleware env w r = Some (Respond response) ->
                       status response = 402 /\ metered env r).
Proof.
  intros paymentHeader requirements result.
  assert (Hmetered : metered env r ->
            middleware env w r
            = if negb (present paymentHeader) then
                Some (Respond
                        (createPaymentRequiredResponse
                           [middlewareRequirements env agentRouteConfig
                              (mw_protocol r +:+ "//" +:+ mw_host r +:+ mw_pathname r)]
                           (Some "Payment required to access this resource")))
              else if negb (valid result) then
                Some (Respond (createPaymentRequiredResponse [requirements]
                                 (error result)))
              else Some Next).
  { intros (Hmode & Hmethod & Hpath). unfold middleware.
    destruct (NODE_ENV env) as [mode|] eqn:Hm.
    - destruct (String.eqb_spec mode "development") as [->|_]; [congruence|].
      rewrite Hpath. cbn [String.prefix negb].
      rewrite protected_route_match, toUpperCase_idempotent, Hmethod. reflexivity.
    - rewrite Hpath. cbn [String.prefix negb].
      rewrite protected_route_match, toUpperCase_idempotent, Hmethod. reflexivity. }
  assert (Hfree : ~ metered env r -> middleware env w r = Some Next).
  { intros Hnot. unfold middleware.
    destruct (NODE_ENV env) as [mode|] eqn:Hm.
    - destruct (String.eqb_spec mode "development") as [->|Hmode]; [reflexivity|].
      destruct (String.prefix _ _); [|reflexivity]. cbn [negb].
      rewrite protected_route_match, toUpperCase_idempotent.
      destruct (String.eqb_spec (toUpperCase (mw_method r)) "POST") as [HU|];
        [|reflexivity].
      destruct (String.eqb_spec (mw_pathname r) "/api/ai/agent") as [Hp|];
        [|reflexivity].
      exfalso. apply Hnot. split; [congruence|]. split; assumption.
    - destruct (String.prefix _ _); [|reflexivity]. cbn [negb].
      rewrite protected_route_match, toUpperCase_idempotent.
      destruct (String.eqb_spec (toUpperCase (mw_method r)) "POST") as [HU|];
        [|reflexivity].
      destruct (String.eqb_spec (mw_pathname r) "/api/ai/agent") as [Hp|];
        [|reflexivity].
      exfalso. apply Hnot. split; [congruence|]. split; assumption. }
  split; [exact Hfree|]. split; [|split].
  - intros Hm Hp. rewrite (Hmetered Hm), Hp. reflexivity.
  - intros Hm Hp. rewrite (Hmetered Hm), Hp. cbn [negb].
    destruct (valid result); reflexivity.
  - intros response Hr.
    assert (Hm : metered env r).
    { destruct (NODE_ENV env) as [mode|] eqn:Hmode.
      - destruct (String.eqb_spec mode "development") as [->|Hdev].
        + unfold middleware in Hr. rewrite Hmode in Hr. discriminate Hr.
        + destruct (String.eqb_spec (toUpperCase (mw_method r)) "POST") as [HU|HU].
          * destruct (String.eqb_spec (mw_pathname r) "/api/ai/agent") as [Hp|Hp].
            -- split; [congruence|]. split; assumption.
            -- rewrite Hfree in Hr; [discriminate|]. intros (_ & _ & H). contradiction.
          * rewrite Hfree in Hr; [discriminate|]. intros (_ & H & _). contradiction.
      - destruct (String.eqb_spec (toUpperCase (mw_method r)) "POST") as [HU|HU].
        + destruct (String.eqb_spec (mw_pathname r) "/api/ai/agent") as [Hp|Hp].
          * split; [congruence|]. split; assumption.
          * rewrite Hfree in Hr; [discriminate|]. intros (_ & _ & H). contradiction.
        + rewrite Hfree in Hr; [discriminate|]. intros (_ & H & _). contradiction. }
    split; [|exact Hm].
    rewrite (Hmetered Hm) in Hr.
    destruct (negb (present paymentHeader)); [injection Hr as <-; reflexivity|].
    destruct (negb (valid result)); [injection Hr as <-; reflexivity|discriminate].
Qed.

End Gating.

Section GatingRuns.
#[local] Existing Instance Sim.ethers.
Import SampleRequests SampleMiddleware.

(** X20 run: a GET of the route and a POST of a sub-path pass unmetered; a
    POST of the route without a payment header is answered 402. *)
Lemma middleware_gating_witness :
  let W := Sim.wire [] in
  middleware production (Sample.world []) (incoming "GET" "/api/ai/agent" bare)
  = Some Next
  /\ middleware production (Sample.world []) (incoming "POST" "/api/ai/agent/run" bare)
     = Some Next
  /\ exists response,
       middleware production (Sample.world []) (incoming "post" "/api/ai/agent" bare)
       = Some (Respond response)
       /\ status response = 402.
Proof.
  intros W. split; [|split].
  - apply (proj1 (middleware_gating production (Sample.world [])
                    (incoming "GET" "/api/ai/agent" bare))).
    intros (_ & H & _). discriminate H.
  - apply (proj1 (middleware_gating production (Sample.world [])
                    (incoming "POST" "/api/ai/agent/run" bare))).
    intros (_ & _ & H). discriminate H.
  - eexists. split.
    + apply (proj1 (proj2 (middleware_gating production (Sample.world [])
                             (incoming "post" "/api/ai/agent" bare)))).
      * split; [discriminate|]. split; reflexivity.
      * reflexivity.
    + reflexivity.
Defined.

End GatingRuns.

End MiddlewareFacts.

(** ** Requests in flight *)

Section InFlightFacts.
Context `{E : Ethers} `{W : Wire}.

Lemma turn_arrived_valid handler config request w p :
  carries request p ->
  valid (verifyPaymentFromRequest w request (requirementsFor config request)
           (cfg_chainId config)) = true ->
  turn handler config (Arrived request) w
  = (Awaiting request (accepted p) (requirementsFor config request), w).
Proof.
  intros Hc Hv. cbn [turn].
  rewrite (verify_valid_payload _ _ _ _ _ Hc Hv). reflexivity.
Qed.

Lemma turn_awaiting_settles handler config request w w1 p requirements response :
  handler request w = (Normal response, w1) ->
  status response < 400 ->
  turn handler config (Awaiting request (accepted p) requirements) w
  = (Answered (Normal (attachSettlement response
                         (fst (settlePayment p requirements None w1)))),
     snd (settlePayment p requirements None w1)).
Proof.
  intros Hh Hs. cbn [turn]. rewrite Hh. cbn [verified_payload accepted].
  unfold afterHandler. destruct (Z.ltb_spec (status response) 400); [|lia].
  destruct (settlePayment p requirements None w1). reflexivity.
Qed.

Lemma run_cons handler config i rest pool w :
  run handler config (i :: rest) pool w
  = run handler config rest (fst (advance handler config i pool w))
      (snd (advance handler config i pool w)).
Proof. cbn [run]. destruct (advance handler config i pool w). reflexivity. Qed.

Lemma advance_at handler config i (pool : list Task) w t t1 w1 :
  pool !! i = Some t ->
  turn handler config t w = (t1, w1) ->
  advance handler config i pool w = (<[ i := t1 ]> pool, w1).
Proof. intros Hl Ht. unfold advance. rewrite Hl, Ht. reflexivity. Qed.

(** X21: two requests that present the same acceptable payment are both
    served when the second is verified before the first one's handler has
    returned: each verification finds the nullifier unused, each handler
    runs, and each answer carries the settlement header of a successful
    settlement.  The handler here answers below 400 and leaves the state as
    it finds it.  When the nonce does not print, as every string does, each
    answer is the handler's response as it is. *)
Theorem interleaved_requests_both_settled (handler : Handler) (config : X402Config)
    (request : Request) (w : World) (p : PaymentPayload) (response : Response) :
  carries request p ->
  valid (verifyPaymentFromRequest w request (requirementsFor config request)
           (cfg_chainId config)) = true ->
  (forall w1, handler request w1 = (Normal response, w1)) ->
  status response < 400 ->
  let settled :=
    match ToString (nonce (payload p)) with
    | Normal n =>
        withSettlementHeader response
          {| success := true; txHash := None;
             receipt := Some ("offchain:" +:+ n +:+ ":" +:+ Json.decimal (dateNow w));
             settle_error := None |}
    | Throw _ => response
    end in
  fst (run handler config [0; 1; 0; 1]%nat [Arrived request; Arrived request] w)
  = [Answered (Normal settled); Answered (Normal settled)].
Proof.
  intros Hc Hv Hh Hs settled.
  set (requirements := requirementsFor config request).
  set (waiting := Awaiting request (accepted p) requirements).
  pose proof (turn_arrived_valid handler config request w p Hc Hv) as Hverify.
  fold requirements in Hverify. fold waiting in Hverify.
  rewrite run_cons.
  rewrite (advance_at handler config 0 [Arrived request; Arrived request] w
             (Arrived request) waiting w eq_refl Hverify).
  cbn [fst snd]. change (<[ 0%nat := waiting ]> [Arrived request; Arrived request])
    with [waiting; Arrived request].
  rewrite run_cons.
  rewrite (advance_at handler config 1 [waiting; Arrived request] w
             (Arrived request) waiting w eq_refl Hverify).
  cbn [fst snd]. change (<[ 1%nat := waiting ]> [waiting; Arrived request])
    with [waiting; waiting].
  rewrite run_cons.
  rewrite (advance_at handler config 0 [waiting; waiting] w waiting _ _ eq_refl
             (turn_awaiting_settles handler config request w w p requirements
                response (Hh w) Hs)).
  cbn [fst snd].
  rewrite run_cons.
  match goal with |- context [advance handler config 1 ?pool ?w1] =>
    rewrite (advance_at handler config 1 pool w1 waiting _ _ eq_refl
               (turn_awaiting_settles handler config request w1 w1 p requirements
                  response (Hh w1) Hs))
  end.
  cbn [run fst].
  rewrite !settlePayment_without_signer, !settlePayment_clock.
  subst settled. destruct (ToString (nonce (payload p))); reflexivity.
Qed.

End InFlightFacts.

Section InFlightRuns.
#[local] Existing Instance Sim.ethers.
Import SampleRequests SampleRuns.

(** X21 run: the sample payment presented by two requests at once. *)
Lemma interleaved_requests_both_settled_witness :
  let settled :=
    withSettlementHeader ok200
      {| success := true; txHash := None;
         receipt := Some "offchain:0x6e6f6e6365:1700000000000";
         settle_error := None |} in
  fst (@run _ (wireOf zkPayment) okHandler agentRoute [0; 1; 0; 1]%nat twice
         (Sample.world []))
  = [Answered (Normal settled); Answered (Normal settled)].
Proof.
  exact (@interleaved_requests_both_settled _ (wireOf zkPayment) okHandler agentRoute
           (requestWith "payment") (Sample.world []) zkPayment ok200
           (carries_sample zkPayment) zkPayment_valid (fun _ => eq_refl) eq_refl).
Defined.

End InFlightRuns.

(** ** The verification endpoint *)

Section ResponseFacts.
Context `{E : Ethers}.

Lemma verifyPaymentProof_error w p cid addr :
  let result := verifyPaymentProof w p cid addr in
  if zk_valid result then zk_error result = None
  else exists e, zk_error result = Some e /\ e <> "".
Proof.
  cbv zeta. unfold verifyPaymentProof.
  destruct (negb (chainId (publicInputs p) =? cid));
    [cbn; eexists; split; [reflexivity|discriminate]|].
  destruct (negb (String.eqb _ _));
    [cbn; eexists; split; [reflexivity|discriminate]|].
  destruct (_ >? 3600); [cbn; eexists; split; [reflexivity|discriminate]|].
  destruct (_ >? _ + 60); [cbn; eexists; split; [reflexivity|discriminate]|].
  unfold mbind, completion_bind, JS.bind, try_catch.
  destruct (proofMessage p) as [m|e];
    [|cbn; eexists; split; [reflexivity|discriminate]].
  destruct (verifyMessage m _) as [a|e];
    [|cbn; eexists; split; [reflexivity|discriminate]].
  destruct (_ || _)%bool; cbn; [eexists; split; [reflexivity|discriminate]|reflexivity].
Qed.

(** X22: the verification endpoint answers 400 when the body has no proof
    and 500 when the body is not JSON.  Otherwise it answers 200 and reports
    the proof valid exactly when [verifyPaymentProof] accepts it, for the
    chain id of the body or the configured one when the body gives none or 0,
    and its nullifier is not used; it reports an error exactly when it
    reports the proof invalid, the proof's own error first and 'Nullifier
    already used' for a verified proof that was spent. *)
Theorem verify_endpoint_report (CHAIN : Z) (CONTRACT : string) (w : World)
    (b : VerifyBody) :
  let target := match vb_chainId b with
                | Some c => if c =? 0 then CHAIN else c
                | None => CHAIN
                end in
  let contract := default CONTRACT (or_else (vb_contractAddress b) None) in
  (vb_zkProof b = None ->
   POST_verify CHAIN CONTRACT w (Normal b) = Error400 "zkProof is required")
  /\ (forall e, e <> "" -> POST_verify CHAIN CONTRACT w (Throw e) = Error500 e)
  /\ (forall zk, vb_zkProof b = Some zk ->
      exists a,
        POST_verify CHAIN CONTRACT w (Normal b) = Answer200 a
        /\ va_nullifierUsed a = isNullifierUsed (nullifier zk) w
        /\ (va_valid a = true
            <-> zk_valid (verifyPaymentProof w zk target contract) = true
                /\ isNullifierUsed (nullifier zk) w = false)
        /\ (va_error a = None <-> va_valid a = true)
        /\ (zk_valid (verifyPaymentProof w zk target contract) = true ->
            isNullifierUsed (nullifier zk) w = true ->
            va_error a = Some "Nullifier already used")
        /\ (zk_valid (verifyPaymentProof w zk target contract) = false ->
            va_error a = zk_error (verifyPaymentProof w zk target contract))).
Proof.
  intros target contract. split; [|split].
  - intros H. unfold POST_verify. cbn. rewrite H. reflexivity.
  - intros e He. unfold POST_verify. cbn. destruct e; [contradiction|reflexivity].
  - intros zk Hzk. unfold POST_verify. cbn [mbind completion_bind JS.bind try_catch].
    rewrite Hzk. fold target. fold contract. eexists. split; [reflexivity|].
    cbn [va_valid va_error va_nullifierUsed].
    pose proof (verifyPaymentProof_error w zk target contract) as Herr. cbv zeta in Herr.
    destruct (zk_valid (verifyPaymentProof w zk target contract)).
    + rewrite Herr. cbn [or_else]. split; [reflexivity|].
      destruct (isNullifierUsed (nullifier zk) w); cbn.
      * repeat split; try discriminate; try reflexivity; intros []; discriminate.
      * repeat split; try discriminate; try reflexivity.
    + destruct Herr as (e & -> & He). unfold or_else, truthy.
      destruct (String.eqb_spec e ""); [contradiction|]. cbn.
      repeat split; try discriminate; try reflexivity; intros []; discriminate.
Qed.

End ResponseFacts.

Section ResponseRuns.
#[local] Existing Instance Sim.ethers.
Import SampleRequests.

(** X22 run: the sample proof is reported valid on a fresh ledger, for a
    body that states chain id 0, and spent once its nullifier is used. *)
Lemma verify_endpoint_report_witness :
  let zk := Sample.signedProof Sample.alice now 31337 Sample.escrow in
  let b := {| vb_zkProof := Some zk; vb_chainId := Some 0;
              vb_contractAddress := None |} in
  (exists a, POST_verify 31337 Sample.escrow (Sample.world []) (Normal b) = Answer200 a
             /\ va_valid a = true)
  /\ (exists a, POST_verify 31337 Sample.escrow (Sample.world ["0x0a"]) (Normal b)
                = Answer200 a
                /\ va_error a = Some "Nullifier already used").
Proof.
  intros zk b. split.
  - destruct (proj2 (proj2 (verify_endpoint_report 31337 Sample.escrow
                              (Sample.world []) b)) zk eq_refl)
      as (a & Ha & _ & Hvalid & _).
    exists a. split; [exact Ha|]. apply Hvalid. split; vm_compute; reflexivity.
  - destruct (proj2 (proj2 (verify_endpoint_report 31337 Sample.escrow
                              (Sample.world ["0x0a"]) b)) zk eq_refl)
      as (a & Ha & _ & _ & _ & Hspent & _).
    exists a. split; [exact Ha|]. apply Hspent; vm_compute; reflexivity.
Defined.

End ResponseRuns.
